(** * ptsim: a page-table simulator over a 16 KiB simulated RAM

    Shallow embedding of [src/ptsim.c].  The simulated RAM [mem] is a list
    of bytes (each a [Z] in [0, 256)), the global [free_page_count] is a
    32-bit signed integer, and what the program prints is kept as a list of
    events.  An access outside the array [mem] is undefined behaviour in C;
    here it stops the run with [OutOfBounds] and the offending index. *)

From Stdlib Require Import ZArith Lia Bool List.
From stdpp Require Import base list strings.

Open Scope Z_scope.

(** ** Constants of the program *)

Definition MEM_SIZE : Z := 16384.
Definition PAGE_SIZE : Z := 256.
Definition PAGE_COUNT : Z := 64.
Definition PAGE_SHIFT : Z := 8.

(** ** C integer types *)

(** Conversion to [unsigned char]: reduction modulo 2^8. *)
Definition to_uchar (v : Z) : Z := v mod 256.

(** A 32-bit [int] after an arithmetic step: two's complement wrap-around. *)
Definition to_int (v : Z) : Z := (v + 2147483648) mod 4294967296 - 2147483648.

(** ** Program state *)

(** Lines written to standard output. *)
Inductive event : Type :=
| CouldNotAllocate (proc_num : Z)
| StoreLine (proc_num virtual_address address value : Z)
| LoadLine (proc_num virtual_address address value : Z).

Record state : Type := mkState {
  mem : list Z;
  free_page_count : Z;
  output : list event
}.

Definition with_mem (s : state) (m : list Z) : state :=
  mkState m (free_page_count s) (output s).

Definition with_free_page_count (s : state) (n : Z) : state :=
  mkState (mem s) n (output s).

Definition printf (s : state) (e : event) : state :=
  mkState (mem s) (free_page_count s) (output s ++ [e]).

(** ** Results of running a function *)

Inductive outcome (A : Type) : Type :=
| Done (a : A)
| OutOfBounds (address : Z)
| OutOfFuel.

Arguments Done {A} a.
Arguments OutOfBounds {A} address.
Arguments OutOfFuel {A}.

Definition bind {A B : Type} (c : outcome A) (k : A -> outcome B) : outcome B :=
  match c with
  | Done a => k a
  | OutOfBounds a => OutOfBounds a
  | OutOfFuel => OutOfFuel
  end.

Notation "'let*' x ':=' c 'in' k" := (bind c (fun x => k))
  (at level 10, x name, c at level 100, k at level 200).
Notation "'let*' ' pat ':=' c 'in' k" := (bind c (fun x => match x with pat => k end))
  (at level 10, pat pattern, c at level 100, k at level 200).

(** ** Accesses to the array [mem] *)

Definition in_bounds (a : Z) : bool := (0 <=? a) && (a <? MEM_SIZE).

(** [mem[a]] as an rvalue. *)
Definition mem_get (s : state) (a : Z) : outcome Z :=
  if in_bounds a then
    match mem s !! Z.to_nat a with
    | Some b => Done b
    | None => OutOfBounds a
    end
  else OutOfBounds a.

(** [mem[a] = v]; the value is converted to [unsigned char]. *)
Definition mem_set (a v : Z) (s : state) : outcome state :=
  if in_bounds a then Done (with_mem s (<[Z.to_nat a := to_uchar v]> (mem s)))
  else OutOfBounds a.

(** ** The functions of ptsim.c *)

(** [(page << PAGE_SHIFT) | offset].  Every caller passes 0 or a byte of
    [mem] as [page]; for [0 <= page < 2^23] the shift stays inside [int] and
    is the shift on [Z] written here (beyond that the shift of an [int]
    overflows, which C leaves undefined). *)
Definition get_address (page offset : Z) : Z :=
  Z.lor (Z.shiftl page PAGE_SHIFT) offset.

Definition get_page_table (proc_num : Z) (s : state) : outcome Z :=
  mem_get s (PAGE_COUNT + proc_num).

(** The loop of [initialize_mem]: [for (int i = 1; i > MEM_SIZE; i++) mem[i] = 0;] *)
Fixpoint initialize_mem_loop (fuel : nat) (i : Z) (s : state) : outcome state :=
  match fuel with
  | O => OutOfFuel
  | S fuel' =>
      if i >? MEM_SIZE then
        let* s1 := mem_set i 0 s in
        initialize_mem_loop fuel' (to_int (i + 1)) s1
      else Done s
  end.

Definition initialize_mem (s : state) : outcome state :=
  let* s1 := mem_set 0 1 s in
  initialize_mem_loop (Z.to_nat MEM_SIZE) 1 s1.

(** The loop of [find_page]: [for (unsigned char i = 1; i < PAGE_COUNT; i++)]. *)
Fixpoint find_page_loop (fuel : nat) (i : Z) (s : state) : outcome (Z * state) :=
  match fuel with
  | O => OutOfFuel
  | S fuel' =>
      if i <? PAGE_COUNT then
        let* b := mem_get s i in
        if b =? 0 then
          let* s1 := mem_set i 1 s in
          Done (i, with_free_page_count s1 (to_int (free_page_count s1 - 1)))
        else find_page_loop fuel' (to_uchar (i + 1)) s
      else Done (255, s)
  end.

Definition find_page (s : state) : outcome (Z * state) :=
  find_page_loop (Z.to_nat PAGE_COUNT) 1 s.

(** The loop of [new_process] over the virtual pages. *)
Fixpoint new_process_loop (fuel : nat) (proc_page_table_num page_count virtual_page_num : Z)
    (s : state) : outcome state :=
  match fuel with
  | O => OutOfFuel
  | S fuel' =>
      if virtual_page_num <? page_count then
        let* '(proc_data_page_num, s1) := find_page s in
        let* s2 := mem_set (get_address proc_page_table_num virtual_page_num)
                      proc_data_page_num s1 in
        new_process_loop fuel' proc_page_table_num page_count
                         (to_int (virtual_page_num + 1)) s2
      else Done s
  end.

Definition new_process (proc_num page_count : Z) (s : state) : outcome state :=
  if free_page_count s <? page_count then
    Done (printf s (CouldNotAllocate proc_num))
  else
    let* '(proc_page_table_num, s1) := find_page s in
    let* s2 := mem_set (PAGE_COUNT + proc_num) proc_page_table_num s1 in
    new_process_loop (S (Z.to_nat page_count)) proc_page_table_num page_count 0 s2.

Definition deallocate_page (page_num : Z) (s : state) : outcome state :=
  mem_set page_num 0 s.

(** The loop of [kill] over the bytes of the page table page. *)
Fixpoint kill_loop (fuel : nat) (process_page_table offset : Z) (s : state)
    : outcome state :=
  match fuel with
  | O => OutOfFuel
  | S fuel' =>
      if offset <? PAGE_SIZE then
        let data_page_address := get_address process_page_table offset in
        let* b := mem_get s data_page_address in
        if negb (b =? 0) then
          let* data_page_num := mem_get s data_page_address in
          let* s1 := deallocate_page data_page_num s in
          let* s2 := mem_set data_page_address 0 s1 in
          kill_loop fuel' process_page_table (to_int (offset + 1)) s2
        else kill_loop fuel' process_page_table (to_int (offset + 1)) s
      else Done s
  end.

Definition kill (proc_num : Z) (s : state) : outcome state :=
  let* process_page_table := get_page_table proc_num s in
  let* s1 := kill_loop (S (Z.to_nat PAGE_SIZE)) process_page_table 0 s in
  deallocate_page process_page_table s1.

Definition get_physical_address (process_num virtual_address : Z) (s : state)
    : outcome Z :=
  let virtual_page := Z.shiftr virtual_address 8 in
  let* pt := get_page_table process_num s in
  let page_table_address := get_address pt 0 in
  let* physical_page_num := mem_get s (to_int (page_table_address + virtual_page)) in
  let offset := Z.land virtual_address 255 in
  Done (get_address physical_page_num offset).

Definition store_value (proc_num virtual_address value : Z) (s : state)
    : outcome state :=
  let* address := get_physical_address proc_num virtual_address s in
  let* s1 := mem_set address value s in
  Done (printf s1 (StoreLine proc_num virtual_address address value)).

Definition read_value (proc_num virtual_address : Z) (s : state)
    : outcome (Z * state) :=
  let* address := get_physical_address proc_num virtual_address s in
  let* b := mem_get s address in
  Done (b, printf s (LoadLine proc_num virtual_address address b)).

(** ** The command loop of [main] (without the two printers) *)

Inductive command : Type :=
| Np (proc_num pages : Z)
| Kp (proc_num : Z)
| Sb (proc_num virt_add val : Z)
| Lb (proc_num virt_addr : Z).

Definition exec (c : command) (s : state) : outcome state :=
  match c with
  | Np p k => new_process p k s
  | Kp p => kill p s
  | Sb p a v => store_value p a v s
  | Lb p a => let* '(_, s1) := read_value p a s in Done s1
  end.

Fixpoint run (cs : list command) (s : state) : outcome state :=
  match cs with
  | [] => Done s
  | c :: cs' => let* s1 := exec c s in run cs' s1
  end.

(** The globals as the C runtime sets them up: [mem] zeroed,
    [free_page_count = PAGE_COUNT - 1]. *)
Definition boot : state :=
  mkState (replicate (Z.to_nat MEM_SIZE) 0) (PAGE_COUNT - 1) [].

Definition ptsim (cs : list command) : outcome state :=
  let* s := initialize_mem boot in run cs s.

(** Observations on the result of a run. *)
Definition byte_after (r : outcome state) (a : Z) : outcome Z :=
  let* s := r in mem_get s a.

Definition count_after (r : outcome state) : outcome Z :=
  let* s := r in Done (free_page_count s).

Definition load_after (r : outcome state) (p va : Z) : outcome Z :=
  let* s := r in let* '(b, _) := read_value p va s in Done b.

Definition output_after (r : outcome state) : outcome (list event) :=
  let* s := r in Done (output s).

(** ** Well-formed states *)

(** The array has its declared size. *)
Definition mem_ok (s : state) : Prop := length (mem s) = Z.to_nat MEM_SIZE.

(** Every cell holds an [unsigned char]. *)
Definition is_byte (b : Z) : bool := (0 <=? b) && (b <? 256).
Definition bytes_ok (s : state) : Prop := forallb is_byte (mem s) = true.

(** The state right after a successful [find_page] that returned [i]. *)
Definition allocated (i : Z) (s : state) : state :=
  mkState (<[Z.to_nat i := 1]> (mem s)) (to_int (free_page_count s - 1)) (output s).

(** Free entries of the bitmap, as [find_page] tests them. *)
Definition is_free (s : state) (i : Z) : bool :=
  match mem_get s i with
  | Done b => b =? 0
  | _ => false
  end.

Definition free_pages (s : state) : nat :=
  length (List.filter (is_free s) (seqZ 1 (PAGE_COUNT - 1))).

(** The index returned by a call that also returns a state. *)
Definition returned {A : Type} (r : outcome (A * state)) : outcome A :=
  let* '(a, _) := r in Done a.

(** ** Vocabulary of the statements *)

(** The state in which [main] starts its command loop. *)
Definition fresh : state := with_mem boot (<[0%nat := 1]> (mem boot)).

(** A RAM full of the byte 7: after [initialize_mem] byte 1 is still 7. *)
Definition dirty : state := mkState (replicate (Z.to_nat MEM_SIZE) 7) (PAGE_COUNT - 1) [].

(** What callers are asked to respect, read on the state in which the call
    is made: process numbers are not negative, [kill], [store_value] and
    [read_value] name a process whose process-table entry is not 0, and the
    latter two a virtual page whose page-table entry is not 0. *)
Definition has_page_table (p : Z) (s : state) : bool :=
  match get_page_table p s with
  | Done pt => negb (pt =? 0)
  | _ => false
  end.

Definition is_mapped (p va : Z) (s : state) : bool :=
  match get_page_table p s with
  | Done pt =>
      match mem_get s (to_int (get_address pt 0 + Z.shiftr va 8)) with
      | Done e => negb (e =? 0)
      | _ => false
      end
  | _ => false
  end.

Definition respects (c : command) (s : state) : bool :=
  match c with
  | Np p _ => 0 <=? p
  | Kp p => (0 <=? p) && has_page_table p s
  | Sb p va _ => (0 <=? p) && has_page_table p s && is_mapped p va s
  | Lb p va => (0 <=? p) && has_page_table p s && is_mapped p va s
  end.

Fixpoint respecting (cs : list command) (s : state) : bool :=
  match cs with
  | [] => true
  | c :: cs' =>
      respects c s &&
      match exec c s with
      | Done s1 => respecting cs' s1
      | _ => true
      end
  end.

Definition is_done {A : Type} (r : outcome A) : bool :=
  match r with Done _ => true | _ => false end.

(** The invariant: the array has its size and [mem[0]] is 1. *)
Definition reserved_marked (s : state) : Prop := mem_ok s /\ mem_get s 0 = Done 1.

Definition session : list command :=
  [Np 5 3; Sb 5 513 9; Lb 5 513; Np 6 2; Kp 5; Np 7 1; Sb 7 4 2; Kp 6].

(** What [new_process] has built in [s] since [s0] for process [p] once it
    has filled entries [0, j) of the page table in page [pt]: the process
    table names [pt], the bitmap marks [pt] and every data page, the data
    pages are pages of the pool other than [pt] that were free in [s0], no
    byte outside the bitmap, the process-table byte of [p] and the [j]
    entries has changed, and no bitmap byte that was not 0 has changed. *)
Definition built (s0 : state) (p pt j : Z) (s : state) : Prop :=
  mem_ok s /\
  mem_get s (PAGE_COUNT + p) = Done pt /\
  mem_get s pt = Done 1 /\
  (forall v, 0 <= v < j ->
     exists d, mem_get s (pt * PAGE_SIZE + v) = Done d /\
               1 <= d < PAGE_COUNT /\ d <> pt /\
               mem_get s0 d = Done 0 /\ mem_get s d = Done 1) /\
  (forall x, ~ (1 <= x < PAGE_COUNT) -> x <> PAGE_COUNT + p ->
             ~ (pt * PAGE_SIZE <= x < pt * PAGE_SIZE + j) ->
             mem_get s x = mem_get s0 x) /\
  (forall x, 1 <= x < PAGE_COUNT -> mem_get s0 x <> Done 0 ->
             mem_get s x = mem_get s0 x).

(** Byte [o] of the page table in page [pt] holds [x]. *)
Definition entry_is (s : state) (pt x o : Z) : bool :=
  match mem_get s (pt * PAGE_SIZE + o) with
  | Done e => e =? x
  | _ => false
  end.

(** Some byte of the page table in page [pt] at an offset in [lo, hi) holds [x]. *)
Definition referenced (s : state) (pt lo hi x : Z) : bool :=
  existsb (entry_is s pt x) (seqZ lo (hi - lo)).

(** What [kill p] does to the bitmap and to the page table, when the page
    table is taken to have [n] entries: bitmap byte [i] becomes 0 when [i]
    is the page table page or a non-zero entry holds [i], every other bitmap
    byte is unchanged, and the [n] entries are 0 afterwards. *)
Definition kill_frees_exactly (n p : Z) (s : state) : Prop :=
  exists pt s', get_page_table p s = Done pt /\ kill p s = Done s' /\
    (forall i, 0 <= i < PAGE_COUNT ->
       mem_get s' i =
         if (i =? pt) || (negb (i =? 0) && referenced s pt 0 n i)
         then Done 0 else mem_get s i) /\
    (forall v, 0 <= v < n -> mem_get s' (pt * PAGE_SIZE + v) = Done 0).

Definition state_of (r : outcome state) : state :=
  match r with
  | Done s => s
  | _ => boot
  end.

(** The bytes of page [pt] from offset [o] on. *)
Definition in_table_from (pt o x : Z) : bool :=
  (pt * PAGE_SIZE + o <=? x) && (x <? pt * PAGE_SIZE + PAGE_SIZE).

(** A run after which page 3, once a data page of process 1 in which the
    byte 5 was stored at offset 100, is the page table of process 4. *)
Definition stale_table_run : list command :=
  [Np 1 2; Sb 1 356 5; Np 2 1; Kp 1; Np 3 1; Np 4 1].

Definition stale_table : state := state_of (ptsim stale_table_run).

(** After [stale_table_run], [kp 4] has cleared the bitmap byte of page 5,
    the data page of process 2, and [np 5 1] takes page 5 as data page. *)
Definition shared_page_run : list command := stale_table_run ++ [Kp 4; Np 5 1].

(** A run on live processes after which process 5 has the page table of
    process 2 as its data page and has zeroed entry 0 of it. *)
Definition cleared_mark_run : list command :=
  [Np 1 2; Sb 1 356 4; Np 2 1; Kp 1; Np 3 1; Np 4 1; Kp 4; Np 5 1; Sb 5 0 0].

(** Two processes of 30 pages created and killed in turn: all 63 pages are
    free again but the counter has gone from 63 to 1. *)
Definition two_lifetimes : list command := [Np 1 30; Kp 1; Np 1 30; Kp 1].

(** A command line in which nothing is killed. *)
Definition no_kill (cs : list command) : bool :=
  forallb (fun c => match c with Kp _ => false | _ => true end) cs.

(** ** The two printers *)

Definition newline : string := String (Ascii.ascii_of_nat 10) "".

(** The loop of [print_page_free_map]; the result is what it writes from
    index [i] on, one character for [printf("%c")] and one for [putchar]. *)
Fixpoint print_page_free_map_loop (fuel : nat) (i : Z) (s : state) : outcome string :=
  match fuel with
  | O => OutOfFuel
  | S fuel' =>
      if i <? 64 then
        let addr := get_address 0 i in
        let* b := mem_get s addr in
        let c := if b =? 0 then "." else "#" in
        let nl := if Z.rem (to_int (i + 1)) 16 =? 0 then newline else "" in
        let* rest := print_page_free_map_loop fuel' (to_int (i + 1)) s in
        Done (c +:+ nl +:+ rest)
      else Done ""
  end.

(** What [print_page_free_map] writes to standard output. *)
Definition print_page_free_map (s : state) : outcome string :=
  let* body := print_page_free_map_loop 65 0 s in
  Done ("--- PAGE FREE MAP ---" +:+ newline +:+ body).

(** The lines of [print_page_table], one per [printf]. *)
Inductive table_line : Type :=
| TableHeader (proc_num : Z)
| TableEntry (i page : Z).

Fixpoint print_page_table_loop (fuel : nat) (page_table i : Z) (s : state)
    : outcome (list table_line) :=
  match fuel with
  | O => OutOfFuel
  | S fuel' =>
      if i <? PAGE_COUNT then
        let addr := get_address page_table i in
        let* page := mem_get s addr in
        let* rest := print_page_table_loop fuel' page_table (to_int (i + 1)) s in
        if negb (page =? 0) then Done (TableEntry i page :: rest) else Done rest
      else Done []
  end.

Definition print_page_table (proc_num : Z) (s : state) : outcome (list table_line) :=
  let* page_table := get_page_table proc_num s in
  let* body := print_page_table_loop (S (Z.to_nat PAGE_COUNT)) page_table 0 s in
  Done (TableHeader proc_num :: body).

(** The line [print_page_table] writes for entry [v] of the page table in
    page [pt], if any. *)
Definition entry_line (s : state) (pt v : Z) : list table_line :=
  match mem_get s (get_address pt v) with
  | Done b => if b =? 0 then [] else [TableEntry v b]
  | _ => []
  end.

(** The number of characters ['.'] of a text. *)
Fixpoint dots (t : string) : nat :=
  match t with
  | EmptyString => 0
  | String c t' => (if Ascii.eqb c (Ascii.ascii_of_nat 46) then 1 else 0) + dots t'
  end.

(** ** [main] on its argument vector *)

(** What [main] has written to standard output, in order: a line of
    [new_process], [store_value] or [read_value], a page free map, or a page
    table. *)
Inductive printed : Type :=
| Line (e : event)
| FreeMap (text : string)
| Table (lines : list table_line).

(** How [main] ends: with the usage message on standard error and status 1;
    at the end of the arguments, with status 0; inside a call that indexes
    [mem] out of bounds or whose loop does not end; or in [atoi] on the null
    pointer that follows the last argument. *)
Inductive main_result : Type :=
| Usage
| Ran (r : outcome (state * list printed))
| MissingArgument.

(** The lines a call has added to the output. *)
Definition printed_by (s s' : state) : list printed :=
  map Line (drop (length (output s)) (output s')).

Definition after_call (r : outcome state) (s : state) (out : list printed)
    (k : state -> list printed -> main_result) : main_result :=
  match r with
  | Done s' => k s' (out ++ printed_by s s')
  | OutOfBounds a => Ran (OutOfBounds a)
  | OutOfFuel => Ran OutOfFuel
  end.

Definition after_print (r : outcome printed) (s : state) (out : list printed)
    (k : state -> list printed -> main_result) : main_result :=
  match r with
  | Done t => k s (out ++ [t])
  | OutOfBounds a => Ran (OutOfBounds a)
  | OutOfFuel => Ran OutOfFuel
  end.

(** The arguments as [main] reads them, and the same split into commands. *)
Inductive item : Type :=
| Cmd (c : command)
| Pfm
| Ppt (proc_num : Z).

Section Main.

(** [atoi] of the C library. *)
Variable atoi : string -> Z.

(** The loop of [main] over [argv[1]], ..., [argv[argc - 1]]. *)
Fixpoint main_loop (args : list string) (s : state) (out : list printed)
    : main_result :=
  match args with
  | [] => Ran (Done (s, out))
  | w :: rest =>
      if String.eqb w "np" then
        match rest with
        | a :: b :: rest' =>
            after_call (new_process (atoi a) (atoi b) s) s out (main_loop rest')
        | _ => MissingArgument
        end
      else if String.eqb w "pfm" then
        after_print (let* t := print_page_free_map s in Done (FreeMap t)) s out
                    (main_loop rest)
      else if String.eqb w "ppt" then
        match rest with
        | a :: rest' =>
            after_print (let* t := print_page_table (atoi a) s in Done (Table t))
                        s out (main_loop rest')
        | _ => MissingArgument
        end
      else if String.eqb w "kp" then
        match rest with
        | a :: rest' => after_call (kill (atoi a) s) s out (main_loop rest')
        | _ => MissingArgument
        end
      else if String.eqb w "sb" then
        match rest with
        | a :: b :: c :: rest' =>
            after_call (store_value (atoi a) (atoi b) (atoi c) s) s out
                       (main_loop rest')
        | _ => MissingArgument
        end
      else if String.eqb w "lb" then
        match rest with
        | a :: b :: rest' =>
            after_call (let* '(_, s') := read_value (atoi a) (atoi b) s in Done s')
                       s out (main_loop rest')
        | _ => MissingArgument
        end
      else main_loop rest s out
  end.

(** [main], given [argv[1]], ..., [argv[argc - 1]]. *)
Definition main (args : list string) : main_result :=
  match args with
  | [] => Usage
  | _ :: _ =>
      match initialize_mem boot with
      | Done s => main_loop args s []
      | OutOfBounds a => Ran (OutOfBounds a)
      | OutOfFuel => Ran OutOfFuel
      end
  end.

(** The arguments split into commands: [np] takes two numbers, [ppt] and
    [kp] one, [sb] three, [lb] two, and any other word is passed over.
    [None] when numbers are missing at the end. *)
Fixpoint parse (args : list string) : option (list item) :=
  match args with
  | [] => Some []
  | w :: rest =>
      if String.eqb w "np" then
        match rest with
        | a :: b :: rest' => cons (Cmd (Np (atoi a) (atoi b))) <$> parse rest'
        | _ => None
        end
      else if String.eqb w "pfm" then cons Pfm <$> parse rest
      else if String.eqb w "ppt" then
        match rest with
        | a :: rest' => cons (Ppt (atoi a)) <$> parse rest'
        | _ => None
        end
      else if String.eqb w "kp" then
        match rest with
        | a :: rest' => cons (Cmd (Kp (atoi a))) <$> parse rest'
        | _ => None
        end
      else if String.eqb w "sb" then
        match rest with
        | a :: b :: c :: rest' =>
            cons (Cmd (Sb (atoi a) (atoi b) (atoi c))) <$> parse rest'
        | _ => None
        end
      else if String.eqb w "lb" then
        match rest with
        | a :: b :: rest' => cons (Cmd (Lb (atoi a) (atoi b))) <$> parse rest'
        | _ => None
        end
      else parse rest
  end.

End Main.

(** The split command line run in order, as [main] runs it. *)
Fixpoint run_items (items : list item) (s : state) (out : list printed)
    : outcome (state * list printed) :=
  match items with
  | [] => Done (s, out)
  | Cmd c :: items' =>
      let* s' := exec c s in run_items items' s' (out ++ printed_by s s')
  | Pfm :: items' =>
      let* t := print_page_free_map s in run_items items' s (out ++ [FreeMap t])
  | Ppt p :: items' =>
      let* t := print_page_table p s in run_items items' s (out ++ [Table t])
  end.

(** The words [main] compares its arguments with. *)
Definition is_command (w : string) : bool :=
  String.eqb w "np" || String.eqb w "pfm" || String.eqb w "ppt" ||
  String.eqb w "kp" || String.eqb w "sb" || String.eqb w "lb".

(** [main] does not reach the end of its arguments: it ends inside a call,
    or in [atoi] on the null pointer that follows the last argument. *)
Definition stops_early (r : main_result) : bool :=
  match r with
  | MissingArgument | Ran (OutOfBounds _) | Ran OutOfFuel => true
  | _ => false
  end.

(** A stand-in for [atoi] on the numerals used in the examples: an optional
    minus sign and decimal digits, up to the first other character. *)
Fixpoint digits_value (t : string) (acc : Z) : Z :=
  match t with
  | EmptyString => acc
  | String c t' =>
      let n := Z.of_nat (Ascii.nat_of_ascii c) in
      if (48 <=? n) && (n <=? 57) then digits_value t' (10 * acc + (n - 48)) else acc
  end.

Definition decimal (t : string) : Z :=
  match t with
  | String c t' =>
      if Ascii.eqb c (Ascii.ascii_of_nat 45) then - digits_value t' 0
      else digits_value t 0
  | EmptyString => 0
  end.

(** * Basic facts *)

Ltac consts := unfold MEM_SIZE, PAGE_SIZE, PAGE_COUNT, PAGE_SHIFT in *.

Lemma to_uchar_small (v : Z) : 0 <= v < 256 -> to_uchar v = v.
Proof. intros H. unfold to_uchar. apply Z.mod_small. lia. Qed.

Lemma to_uchar_range (v : Z) : 0 <= to_uchar v < 256.
Proof. unfold to_uchar. apply Z.mod_pos_bound. lia. Qed.

Lemma to_int_small (v : Z) : -2147483648 <= v < 2147483648 -> to_int v = v.
Proof. intros H. unfold to_int. rewrite Z.mod_small; lia. Qed.

Lemma in_bounds_true (a : Z) : in_bounds a = true <-> 0 <= a < MEM_SIZE.
Proof. unfold in_bounds. rewrite andb_true_iff, Z.leb_le, Z.ltb_lt. tauto. Qed.

Lemma in_bounds_false (a : Z) : in_bounds a = false <-> ~ (0 <= a < MEM_SIZE).
Proof. rewrite <- in_bounds_true. destruct (in_bounds a); split; congruence. Qed.

Lemma mem_get_inv (s : state) (a b : Z) :
  mem_get s a = Done b -> 0 <= a < MEM_SIZE /\ mem s !! Z.to_nat a = Some b.
Proof.
  unfold mem_get. destruct (in_bounds a) eqn:E; [|discriminate].
  apply in_bounds_true in E. destruct (mem s !! Z.to_nat a); [|discriminate].
  intros [= ->]. auto.
Qed.

Lemma mem_get_Done (s : state) (a : Z) :
  mem_ok s -> 0 <= a < MEM_SIZE -> exists b, mem_get s a = Done b.
Proof.
  intros Hok Ha. unfold mem_get. rewrite (proj2 (in_bounds_true a) Ha).
  destruct (lookup_lt_is_Some_2 (mem s) (Z.to_nat a)) as [b Hb].
  - rewrite Hok. consts. lia.
  - rewrite Hb. eauto.
Qed.

Lemma mem_get_outside (s : state) (a : Z) :
  ~ (0 <= a < MEM_SIZE) -> mem_get s a = OutOfBounds a.
Proof. intros H. unfold mem_get. now rewrite (proj2 (in_bounds_false a) H). Qed.

Lemma mem_set_Done (a v : Z) (s : state) :
  0 <= a < MEM_SIZE ->
  mem_set a v s = Done (with_mem s (<[Z.to_nat a := to_uchar v]> (mem s))).
Proof. intros H. unfold mem_set. now rewrite (proj2 (in_bounds_true a) H). Qed.

Lemma mem_set_inv (a v : Z) (s s' : state) :
  mem_set a v s = Done s' ->
  0 <= a < MEM_SIZE /\ s' = with_mem s (<[Z.to_nat a := to_uchar v]> (mem s)).
Proof.
  unfold mem_set. destruct (in_bounds a) eqn:E; [|discriminate].
  apply in_bounds_true in E. intros [= <-]. auto.
Qed.

Lemma mem_set_outside (a v : Z) (s : state) :
  ~ (0 <= a < MEM_SIZE) -> mem_set a v s = OutOfBounds a.
Proof. intros H. unfold mem_set. now rewrite (proj2 (in_bounds_false a) H). Qed.

(** Reading a cell of a state whose [mem] is [m] with cell [a] replaced. *)
Lemma mem_get_insert_eq (s s' : state) (a v : Z) :
  mem_ok s -> 0 <= a < MEM_SIZE -> mem s' = <[Z.to_nat a := v]> (mem s) ->
  mem_get s' a = Done v.
Proof.
  intros Hok Ha Hm. unfold mem_get. rewrite (proj2 (in_bounds_true a) Ha), Hm.
  rewrite list_lookup_insert_eq; [reflexivity|]. rewrite Hok. consts. lia.
Qed.

Lemma mem_get_insert_ne (s s' : state) (a b v : Z) :
  0 <= a -> a <> b -> mem s' = <[Z.to_nat a := v]> (mem s) ->
  mem_get s' b = mem_get s b.
Proof.
  intros Ha Hne Hm. unfold mem_get. destruct (in_bounds b) eqn:E; [|reflexivity].
  apply in_bounds_true in E. rewrite Hm.
  rewrite list_lookup_insert_ne; [reflexivity|]. lia.
Qed.

Lemma mem_get_same_mem (s s' : state) (a : Z) :
  mem s' = mem s -> mem_get s' a = mem_get s a.
Proof. intros H. unfold mem_get. now rewrite H. Qed.

Lemma mem_ok_insert (s s' : state) (n : nat) (v : Z) :
  mem_ok s -> mem s' = <[n := v]> (mem s) -> mem_ok s'.
Proof. unfold mem_ok. intros Hok ->. now rewrite length_insert. Qed.

Lemma mem_ok_same_mem (s s' : state) : mem_ok s -> mem s' = mem s -> mem_ok s'.
Proof. unfold mem_ok. now intros Hok ->. Qed.

Lemma is_byte_true (b : Z) : is_byte b = true <-> 0 <= b < 256.
Proof. unfold is_byte. rewrite andb_true_iff, Z.leb_le, Z.ltb_lt. tauto. Qed.

Lemma bytes_ok_insert (s s' : state) (n : nat) (v : Z) :
  bytes_ok s -> 0 <= v < 256 -> mem s' = <[n := v]> (mem s) -> bytes_ok s'.
Proof.
  unfold bytes_ok. intros Hok Hv ->. rewrite forallb_forall in *.
  intros x Hx. apply list_elem_of_In, list_elem_of_lookup in Hx as [i Hi].
  destruct (decide (n = i)) as [->|Hne].
  - destruct (decide (i < length (mem s))%nat) as [Hlt|Hge].
    + rewrite list_lookup_insert_eq in Hi by assumption.
      injection Hi as <-. now apply is_byte_true.
    + rewrite list_insert_ge in Hi by lia.
      apply Hok, list_elem_of_In, list_elem_of_lookup. eauto.
  - rewrite list_lookup_insert_ne in Hi by assumption.
    apply Hok, list_elem_of_In, list_elem_of_lookup. eauto.
Qed.

Lemma bytes_ok_get (s : state) (a b : Z) :
  bytes_ok s -> mem_get s a = Done b -> 0 <= b < 256.
Proof.
  unfold bytes_ok. intros Hok Hg. apply mem_get_inv in Hg as [_ Hg].
  rewrite forallb_forall in Hok. apply is_byte_true, Hok.
  apply list_elem_of_In, list_elem_of_lookup. eauto.
Qed.

(** [get_address] on a page number and an offset inside a page. *)
Lemma get_address_add (page offset : Z) :
  0 <= page -> 0 <= offset < PAGE_SIZE ->
  get_address page offset = page * PAGE_SIZE + offset.
Proof.
  intros Hp Ho. unfold get_address. consts.
  rewrite Z.shiftl_mul_pow2 by lia. change (2 ^ 8) with 256.
  rewrite <- Z.lxor_lor, <- Z.add_nocarry_lxor; try reflexivity.
  all: apply Z.bits_inj'; intros n Hn; rewrite Z.land_spec, Z.bits_0.
  all: destruct (Z.lt_ge_cases n 8) as [Hlt|Hge].
  all: try (replace (page * 256) with (Z.shiftl page 8)
              by (rewrite Z.shiftl_mul_pow2 by lia; reflexivity);
            rewrite Z.shiftl_spec_low by lia; reflexivity).
  all: rewrite (Z.bits_above_log2 offset n), andb_false_r; try reflexivity; try lia.
  all: destruct (Z.eq_dec offset 0) as [->|Hz]; [simpl; lia|].
  all: apply Z.log2_lt_pow2; try lia.
  all: apply Z.lt_le_trans with (2 ^ 8); [change (2 ^ 8) with 256; lia|].
  all: apply Z.pow_le_mono_r; lia.
Qed.

Lemma mem_ok_boot : mem_ok boot.
Proof.
  change (length (replicate (Z.to_nat MEM_SIZE) 0) = Z.to_nat MEM_SIZE).
  apply length_replicate.
Qed.

Lemma mem_ok_fresh : mem_ok fresh.
Proof. apply (mem_ok_insert boot fresh 0 1 mem_ok_boot). reflexivity. Qed.

Lemma bytes_ok_fresh : bytes_ok fresh.
Proof. vm_compute. reflexivity. Qed.

(** * initialize_mem *)

Lemma initialize_mem_loop_exit (fuel : nat) (i : Z) (s : state) :
  i <= MEM_SIZE -> initialize_mem_loop (S fuel) i s = Done s.
Proof.
  intros Hi. simpl. destruct (i >? MEM_SIZE) eqn:E; [|reflexivity].
  apply Z.gtb_lt in E. lia.
Qed.

Lemma initialize_mem_eq (s : state) :
  initialize_mem s = Done (with_mem s (<[0%nat := 1]> (mem s))).
Proof.
  unfold initialize_mem. rewrite mem_set_Done by (consts; lia). unfold bind.
  replace (Z.to_nat MEM_SIZE) with (S (Z.to_nat (MEM_SIZE - 1))) by (consts; lia).
  rewrite initialize_mem_loop_exit by (consts; lia). reflexivity.
Qed.

Lemma initialize_mem_boot : initialize_mem boot = Done fresh.
Proof. apply initialize_mem_eq. Qed.

(** C10: [initialize_mem] sets [mem[0]] to 1 and nothing else.  The loop that
    was meant to clear the array tests [i > MEM_SIZE] from [i = 1], so it
    leaves at once, whatever fuel it is given, and every byte other than
    [mem[0]] keeps the value it had, as do the counter and the output. *)
Theorem initialize_mem_writes_only_byte_0 (s : state) :
  mem_ok s ->
  (forall fuel, initialize_mem_loop (S fuel) 1 s = Done s) /\
  exists s', initialize_mem s = Done s' /\
    mem_get s' 0 = Done 1 /\
    (forall a, a <> 0 -> mem_get s' a = mem_get s a) /\
    free_page_count s' = free_page_count s /\
    output s' = output s.
Proof.
  intros Hok. split.
  - intros fuel. apply initialize_mem_loop_exit. consts. lia.
  - eexists. split; [apply initialize_mem_eq|]. repeat split.
    + apply (mem_get_insert_eq s _ 0 1 Hok); [consts; lia | reflexivity].
    + intros a Ha. apply (mem_get_insert_ne s _ 0 a 1); [lia | lia | reflexivity].
Qed.

Lemma initialize_mem_writes_only_byte_0_witness :
  mem_ok dirty /\
  exists s', initialize_mem dirty = Done s' /\ mem_get s' 0 = Done 1 /\
             mem_get s' 1 = Done 7.
Proof.
  assert (Hok : mem_ok dirty).
  { change (length (replicate (Z.to_nat MEM_SIZE) 7) = Z.to_nat MEM_SIZE).
    apply length_replicate. }
  split; [exact Hok|].
  destruct (initialize_mem_writes_only_byte_0 dirty Hok)
    as (_ & s' & Hrun & H0 & Hrest & _).
  exists s'. split; [exact Hrun|]. split; [exact H0|].
  rewrite (Hrest 1) by lia. vm_compute. reflexivity.
Defined.

(** * new_process: the pre-check *)

(** C3: when [free_page_count < page_count], [new_process] only prints its
    message: [mem] (bitmap and process table included) and [free_page_count]
    are unchanged.  [new_process 1 64] in the starting state, where 63 pages
    are free, is such a call. *)
Theorem new_process_insufficient_memory :
  (forall (s : state) (proc_num page_count : Z),
      free_page_count s < page_count ->
      exists s', new_process proc_num page_count s = Done s' /\
        mem s' = mem s /\
        free_page_count s' = free_page_count s /\
        output s' = output s ++ [CouldNotAllocate proc_num]) /\
  (free_page_count fresh = 63 /\
   exists s', new_process 1 64 fresh = Done s' /\
     mem s' = mem fresh /\ free_page_count s' = 63 /\
     output s' = [CouldNotAllocate 1]).
Proof.
  assert (H : forall s p k, free_page_count s < k ->
            new_process p k s = Done (printf s (CouldNotAllocate p))).
  { intros s p k Hlt. unfold new_process.
    now rewrite (proj2 (Z.ltb_lt _ _) Hlt). }
  split.
  - intros s p k Hlt. eexists. split; [apply H, Hlt|]. now repeat split.
  - split; [reflexivity|]. eexists. split; [apply H; simpl; consts; lia|].
    now repeat split.
Qed.

Lemma new_process_insufficient_memory_witness :
  free_page_count fresh < 64 /\
  exists s', new_process 7 64 fresh = Done s' /\
        mem s' = mem fresh /\
        free_page_count s' = free_page_count fresh /\
        output s' = output fresh ++ [CouldNotAllocate 7].
Proof.
  split; [simpl; consts; lia|].
  apply (proj1 new_process_insufficient_memory fresh 7 64).
  simpl. consts. lia.
Defined.

(** * find_page *)

Lemma is_free_true (s : state) (i : Z) : is_free s i = true <-> mem_get s i = Done 0.
Proof.
  unfold is_free. destruct (mem_get s i) as [b| |]; try (split; congruence).
  rewrite Z.eqb_eq. split; congruence.
Qed.

Lemma is_free_false (s : state) (i : Z) : is_free s i = false <-> mem_get s i <> Done 0.
Proof. rewrite <- is_free_true. destruct (is_free s i); split; congruence. Qed.

Lemma mem_ok_allocated (i : Z) (s : state) : mem_ok s -> mem_ok (allocated i s).
Proof. intros H. apply (mem_ok_insert s _ (Z.to_nat i) 1 H). reflexivity. Qed.

Lemma find_page_loop_none (fuel : nat) (i : Z) (s : state) :
  mem_ok s -> 1 <= i <= PAGE_COUNT -> PAGE_COUNT - i < Z.of_nat fuel ->
  (forall x, i <= x < PAGE_COUNT -> mem_get s x <> Done 0) ->
  find_page_loop fuel i s = Done (255, s).
Proof.
  intros Hok. revert i. induction fuel as [|fuel IH]; intros i Hi Hfuel Hnone.
  - lia.
  - simpl. destruct (i <? PAGE_COUNT) eqn:E; [|reflexivity].
    apply Z.ltb_lt in E.
    destruct (mem_get_Done s i Hok) as [b Hb]; [consts; lia|].
    rewrite Hb. unfold bind. destruct (b =? 0) eqn:Eb.
    + apply Z.eqb_eq in Eb. subst b. now destruct (Hnone i).
    + rewrite to_uchar_small by (consts; lia).
      apply IH; [lia | lia |]. intros x Hx. apply Hnone. lia.
Qed.

Lemma find_page_loop_found (fuel : nat) (i j : Z) (s : state) :
  mem_ok s -> 1 <= i <= j -> j < PAGE_COUNT -> PAGE_COUNT - i < Z.of_nat fuel ->
  mem_get s j = Done 0 ->
  (forall x, i <= x < j -> mem_get s x <> Done 0) ->
  find_page_loop fuel i s = Done (j, allocated j s).
Proof.
  intros Hok. revert i. induction fuel as [|fuel IH]; intros i Hi Hj Hfuel Hfree Hlow.
  - lia.
  - simpl. rewrite (proj2 (Z.ltb_lt i PAGE_COUNT)) by lia.
    destruct (Z.eq_dec i j) as [->|Hne].
    + rewrite Hfree. unfold bind. simpl.
      rewrite mem_set_Done by (consts; lia). reflexivity.
    + destruct (mem_get_Done s i Hok) as [b Hb]; [consts; lia|].
      rewrite Hb. unfold bind. destruct (b =? 0) eqn:Eb.
      * apply Z.eqb_eq in Eb. subst b. destruct (Hlow i); [lia | assumption].
      * rewrite to_uchar_small by (consts; lia).
        apply IH; [lia | lia | lia | assumption |]. intros x Hx. apply Hlow. lia.
Qed.

Lemma find_page_found (j : Z) (s : state) :
  mem_ok s -> 1 <= j < PAGE_COUNT -> mem_get s j = Done 0 ->
  (forall x, 1 <= x < j -> mem_get s x <> Done 0) ->
  find_page s = Done (j, allocated j s).
Proof.
  intros Hok Hj Hfree Hlow.
  apply find_page_loop_found; try assumption; consts; lia.
Qed.

Lemma find_page_none (s : state) :
  mem_ok s -> (forall x, 1 <= x < PAGE_COUNT -> mem_get s x <> Done 0) ->
  find_page s = Done (255, s).
Proof.
  intros Hok Hnone. apply find_page_loop_none; try assumption; consts; lia.
Qed.

(** Either some bitmap byte in [i, i + n) is 0, and there is a lowest one,
    or none is. *)
Lemma lowest_free_from (s : state) (n : nat) (i : Z) :
  (exists j, i <= j < i + Z.of_nat n /\ mem_get s j = Done 0 /\
             forall x, i <= x < j -> mem_get s x <> Done 0) \/
  (forall x, i <= x < i + Z.of_nat n -> mem_get s x <> Done 0).
Proof.
  revert i. induction n as [|n IH]; intros i.
  - right. intros x Hx. lia.
  - destruct (is_free s i) eqn:E.
    + left. exists i. apply is_free_true in E. repeat split; [lia | lia | assumption |].
      intros x Hx. lia.
    + apply is_free_false in E. destruct (IH (i + 1)) as [(j & Hj & Hf & Hlow)|Hnone].
      * left. exists j. repeat split; [lia | lia | assumption |].
        intros x Hx. destruct (Z.eq_dec x i) as [->|]; [assumption|]. apply Hlow. lia.
      * right. intros x Hx. destruct (Z.eq_dec x i) as [->|]; [assumption|].
        apply Hnone. lia.
Qed.

(** The two ways [find_page] ends. *)
Lemma find_page_cases (s : state) :
  mem_ok s ->
  (exists j, 1 <= j < PAGE_COUNT /\ mem_get s j = Done 0 /\
             (forall x, 1 <= x < j -> mem_get s x <> Done 0) /\
             find_page s = Done (j, allocated j s)) \/
  ((forall x, 1 <= x < PAGE_COUNT -> mem_get s x <> Done 0) /\
   find_page s = Done (255, s)).
Proof.
  intros Hok.
  destruct (lowest_free_from s (Z.to_nat (PAGE_COUNT - 1)) 1)
    as [(j & Hj & Hf & Hlow)|Hnone].
  - assert (Hj' : 1 <= j < PAGE_COUNT) by (consts; lia).
    left. exists j. repeat split; try assumption; try lia.
    now apply find_page_found.
  - assert (Hnone' : forall x, 1 <= x < PAGE_COUNT -> mem_get s x <> Done 0).
    { intros x Hx. apply Hnone. consts. lia. }
    right. split; [assumption|]. now apply find_page_none.
Qed.

(** C4: [find_page] returns the lowest index [i] in [1, PAGE_COUNT) whose
    bitmap byte is 0, having set that byte to 1 and decremented
    [free_page_count]; when no such index exists it returns 0xff and the
    state is unchanged.  Index 0 is never returned, [mem[0]] is never
    written, and the index returned does not depend on [mem[0]]. *)
Theorem find_page_lowest_free (s : state) :
  mem_ok s ->
  (forall i, 1 <= i < PAGE_COUNT -> mem_get s i = Done 0 ->
             (forall j, 1 <= j < i -> mem_get s j <> Done 0) ->
     find_page s = Done (i, allocated i s) /\
     mem_get (allocated i s) i = Done 1 /\
     (-2147483648 < free_page_count s < 2147483648 ->
      free_page_count (allocated i s) = free_page_count s - 1)) /\
  ((forall i, 1 <= i < PAGE_COUNT -> mem_get s i <> Done 0) ->
     find_page s = Done (255, s)) /\
  (forall i s', find_page s = Done (i, s') ->
     i <> 0 /\ mem_get s' 0 = mem_get s 0) /\
  (forall v s0, mem_set 0 v s = Done s0 ->
     returned (find_page s0) = returned (find_page s)).
Proof.
  intros Hok. split; [|split; [|split]].
  - intros i Hi Hfree Hlow. split; [|split].
    + now apply find_page_found.
    + apply (mem_get_insert_eq s _ i 1 Hok); [consts; lia | reflexivity].
    + intros Hc. simpl. apply to_int_small. lia.
  - intros Hnone. now apply find_page_none.
  - intros i s' Hrun.
    destruct (find_page_cases s Hok) as [(j & Hj & _ & _ & Hfp)|[_ Hfp]];
      rewrite Hfp in Hrun; injection Hrun as <- <-.
    + split; [lia|]. apply (mem_get_insert_ne s _ j 0 1); [lia | lia | reflexivity].
    + split; [lia | reflexivity].
  - intros v s0 Hset. apply mem_set_inv in Hset as [_ ->].
    set (s0 := with_mem s _).
    assert (Hok0 : mem_ok s0)
      by (apply (mem_ok_insert s s0 (Z.to_nat 0) (to_uchar v) Hok); reflexivity).
    assert (Hsame : forall x, 1 <= x -> mem_get s0 x = mem_get s x).
    { intros x Hx. apply (mem_get_insert_ne s s0 0 x (to_uchar v)); [lia | lia | reflexivity]. }
    destruct (find_page_cases s Hok) as [(j & Hj & Hf & Hlow & Hfp)|[Hnone Hfp]];
      rewrite Hfp.
    + rewrite (find_page_found j s0); try assumption.
      * reflexivity.
      * now rewrite Hsame by lia.
      * intros x Hx. rewrite Hsame by lia. apply Hlow. lia.
    + rewrite (find_page_none s0); try assumption.
      * reflexivity.
      * intros x Hx. rewrite Hsame by lia. apply Hnone. lia.
Qed.

Lemma find_page_lowest_free_witness :
  mem_ok fresh /\ find_page fresh = Done (1, allocated 1 fresh).
Proof.
  split; [exact mem_ok_fresh|].
  apply (proj1 (find_page_lowest_free fresh mem_ok_fresh) 1).
  - consts. lia.
  - vm_compute. reflexivity.
  - intros j Hj. lia.
Defined.

(** * get_physical_address *)

Lemma get_address_0 (page : Z) : get_address page 0 = page * PAGE_SIZE.
Proof.
  unfold get_address. consts. rewrite Z.lor_0_r, Z.shiftl_mul_pow2 by lia.
  reflexivity.
Qed.

Lemma get_physical_address_eq (s : state) (p va pt e : Z) :
  mem_get s (PAGE_COUNT + p) = Done pt ->
  mem_get s (pt * PAGE_SIZE + Z.shiftr va PAGE_SHIFT) = Done e ->
  get_physical_address p va s = Done (get_address e (Z.land va 255)).
Proof.
  intros Hpt He. unfold get_physical_address, get_page_table.
  rewrite Hpt. unfold bind. rewrite get_address_0.
  pose proof (mem_get_inv _ _ _ He) as [Hb _].
  change 8 with PAGE_SHIFT.
  rewrite to_int_small by (consts; lia). now rewrite He.
Qed.

(** C6: [get_physical_address] returns
    [(page_table[va >> PAGE_SHIFT] << PAGE_SHIFT) | (va & (PAGE_SIZE - 1))],
    where [page_table] starts at the first byte of the page whose number the
    process table holds for the process.  Nothing is checked when the entry
    read is 0: the result is then [va & (PAGE_SIZE - 1)], an address of
    page 0. *)
Theorem get_physical_address_formula (s : state) (p va pt e : Z) :
  mem_get s (PAGE_COUNT + p) = Done pt ->
  mem_get s (pt * PAGE_SIZE + Z.shiftr va PAGE_SHIFT) = Done e ->
  get_physical_address p va s =
    Done (Z.lor (Z.shiftl e PAGE_SHIFT) (Z.land va (PAGE_SIZE - 1))) /\
  (e = 0 ->
   get_physical_address p va s = Done (Z.land va (PAGE_SIZE - 1)) /\
   0 <= Z.land va (PAGE_SIZE - 1) < PAGE_SIZE /\
   Z.shiftr (Z.land va (PAGE_SIZE - 1)) PAGE_SHIFT = 0).
Proof.
  intros Hpt He.
  pose proof (get_physical_address_eq s p va pt e Hpt He) as Hrun.
  assert (Hoff : 0 <= Z.land va (PAGE_SIZE - 1) < PAGE_SIZE).
  { consts. change (256 - 1) with (Z.ones 8). rewrite Z.land_ones by lia.
    change (2 ^ 8) with 256. apply Z.mod_pos_bound. lia. }
  split; [exact Hrun|].
  intros ->. split; [|split].
  - rewrite Hrun. unfold get_address. now rewrite Z.shiftl_0_l, Z.lor_0_l.
  - exact Hoff.
  - rewrite Z.shiftr_div_pow2 by (consts; lia). apply Z.div_small.
    consts. change (2 ^ 8) with 256. lia.
Qed.

(** In [stale_table] the page table of process 2 is page 4 and maps virtual
    page 0 to page 5, and nothing else: address 7 resolves to byte 7 of
    page 5, address 300 (virtual page 1) to byte 44 of page 0. *)
Lemma get_physical_address_formula_witness :
  get_physical_address 2 7 stale_table = Done 1287 /\
  get_physical_address 2 300 stale_table = Done 44.
Proof.
  split.
  - apply (proj1 (get_physical_address_formula stale_table 2 7 4 5
                    ltac:(vm_compute; reflexivity) ltac:(vm_compute; reflexivity))).
  - apply (proj2 (get_physical_address_formula stale_table 2 300 4 0
                    ltac:(vm_compute; reflexivity) ltac:(vm_compute; reflexivity))).
    reflexivity.
Defined.

(** * The reserved page stays marked *)

Lemma reserved_marked_set (a v : Z) (s s' : state) :
  a <> 0 -> reserved_marked s -> mem_set a v s = Done s' -> reserved_marked s'.
Proof.
  intros Ha [Hok H0] Hset. apply mem_set_inv in Hset as [Hb ->]. split.
  - apply (mem_ok_insert s _ (Z.to_nat a) (to_uchar v) Hok). reflexivity.
  - rewrite <- H0.
    apply (mem_get_insert_ne s _ a 0 (to_uchar v)); [lia | assumption | reflexivity].
Qed.

Lemma reserved_marked_same_mem (s s' : state) :
  mem s' = mem s -> reserved_marked s -> reserved_marked s'.
Proof.
  intros Hm [Hok H0]. split; [now apply (mem_ok_same_mem s)|].
  now rewrite (mem_get_same_mem s s' 0 Hm).
Qed.

Lemma find_page_returns (s s' : state) (i : Z) :
  mem_ok s -> find_page s = Done (i, s') ->
  (1 <= i < PAGE_COUNT /\ s' = allocated i s) \/ (i = 255 /\ s' = s).
Proof.
  intros Hok Hrun.
  destruct (find_page_cases s Hok) as [(j & Hj & _ & _ & Hfp)|[_ Hfp]];
    rewrite Hfp in Hrun; injection Hrun as <- <-; auto.
Qed.

Lemma reserved_marked_find_page (s s' : state) (i : Z) :
  reserved_marked s -> find_page s = Done (i, s') ->
  reserved_marked s' /\ 1 <= i < 256.
Proof.
  intros [Hok H0] Hrun.
  destruct (find_page_returns s s' i Hok Hrun) as [[Hi ->]|[-> ->]].
  - split; [|consts; lia]. split; [now apply mem_ok_allocated|].
    rewrite <- H0. apply (mem_get_insert_ne s _ i 0 1); [lia | lia | reflexivity].
  - split; [now split | lia].
Qed.

Lemma get_address_nonzero (page offset : Z) : page <> 0 -> get_address page offset <> 0.
Proof.
  intros Hp H. unfold get_address in H. apply Z.lor_eq_0_iff in H as [H _].
  apply Z.shiftl_eq_0_iff in H; [contradiction | consts; lia].
Qed.

Lemma reserved_marked_new_process_loop (fuel : nat) (pt k vpn : Z) (s s' : state) :
  pt <> 0 -> reserved_marked s -> new_process_loop fuel pt k vpn s = Done s' ->
  reserved_marked s'.
Proof.
  intros Hpt. revert vpn s. induction fuel as [|fuel IH]; intros vpn s Hs Hrun.
  - discriminate.
  - simpl in Hrun. destruct (vpn <? k); [|now injection Hrun as <-].
    destruct (find_page s) as [[d s1]| |] eqn:Hfp; try discriminate.
    apply (reserved_marked_find_page s s1 d Hs) in Hfp as [Hs1 _].
    unfold bind in Hrun.
    destruct (mem_set (get_address pt vpn) d s1) as [s2| |] eqn:Hset; try discriminate.
    apply (IH _ s2 (reserved_marked_set _ _ s1 s2
                      (get_address_nonzero pt vpn Hpt) Hs1 Hset) Hrun).
Qed.

Lemma reserved_marked_new_process (p k : Z) (s s' : state) :
  0 <= p -> reserved_marked s -> new_process p k s = Done s' -> reserved_marked s'.
Proof.
  intros Hp Hs Hrun. unfold new_process in Hrun.
  destruct (free_page_count s <? k).
  - injection Hrun as <-. now apply (reserved_marked_same_mem s).
  - destruct (find_page s) as [[pt s1]| |] eqn:Hfp; try discriminate.
    apply (reserved_marked_find_page s s1 pt Hs) in Hfp as [Hs1 Hpt].
    unfold bind in Hrun.
    destruct (mem_set (PAGE_COUNT + p) pt s1) as [s2| |] eqn:Hset; try discriminate.
    refine (reserved_marked_new_process_loop _ pt k 0 s2 s' _ _ Hrun); [lia|].
    refine (reserved_marked_set _ _ s1 s2 _ Hs1 Hset). consts. lia.
Qed.

Lemma reserved_marked_kill_loop (fuel : nat) (pt offset : Z) (s s' : state) :
  pt <> 0 -> reserved_marked s -> kill_loop fuel pt offset s = Done s' ->
  reserved_marked s'.
Proof.
  intros Hpt. revert offset s. induction fuel as [|fuel IH]; intros offset s Hs Hrun.
  - discriminate.
  - simpl in Hrun. destruct (offset <? PAGE_SIZE); [|now injection Hrun as <-].
    destruct (mem_get s (get_address pt offset)) as [b| |] eqn:Hb; try discriminate.
    unfold bind in Hrun. destruct (b =? 0) eqn:Eb; simpl in Hrun.
    + exact (IH _ s Hs Hrun).
    + apply Z.eqb_neq in Eb. unfold deallocate_page in Hrun.
      destruct (mem_set b 0 s) as [s1| |] eqn:Hs1; try discriminate.
      destruct (mem_set (get_address pt offset) 0 s1) as [s2| |] eqn:Hs2;
        try discriminate.
      refine (IH _ s2 _ Hrun).
      refine (reserved_marked_set _ 0 s1 s2 (get_address_nonzero pt offset Hpt) _ Hs2).
      exact (reserved_marked_set b 0 s s1 Eb Hs Hs1).
Qed.

Lemma has_page_table_true (p : Z) (s : state) :
  has_page_table p s = true -> exists pt, get_page_table p s = Done pt /\ pt <> 0.
Proof.
  unfold has_page_table. destruct (get_page_table p s) as [pt| |]; try discriminate.
  intros H. exists pt. split; [reflexivity|].
  apply negb_true_iff, Z.eqb_neq in H. assumption.
Qed.

Lemma reserved_marked_kill (p : Z) (s s' : state) :
  has_page_table p s = true -> reserved_marked s -> kill p s = Done s' ->
  reserved_marked s'.
Proof.
  intros Hp Hs Hrun. apply has_page_table_true in Hp as (pt & Hpt & Hnz).
  unfold kill in Hrun. rewrite Hpt in Hrun. unfold bind in Hrun.
  destruct (kill_loop _ pt 0 s) as [s1| |] eqn:Hloop; try discriminate.
  refine (reserved_marked_set _ _ s1 s' Hnz _ Hrun).
  exact (reserved_marked_kill_loop _ pt 0 s s1 Hnz Hs Hloop).
Qed.

Lemma reserved_marked_store_value (p va v : Z) (s s' : state) :
  is_mapped p va s = true -> reserved_marked s -> store_value p va v s = Done s' ->
  reserved_marked s'.
Proof.
  intros Hm Hs Hrun. unfold is_mapped in Hm.
  unfold store_value, get_physical_address in Hrun.
  destruct (get_page_table p s) as [pt| |]; try discriminate.
  unfold bind in Hrun.
  destruct (mem_get s (to_int (get_address pt 0 + Z.shiftr va 8))) as [e| |];
    try discriminate.
  apply negb_true_iff, Z.eqb_neq in Hm.
  destruct (mem_set (get_address e (Z.land va 255)) v s) as [s1| |] eqn:Hset;
    try discriminate.
  injection Hrun as <-. apply (reserved_marked_same_mem s1); [reflexivity|].
  apply (reserved_marked_set _ _ s s1 (get_address_nonzero e _ Hm) Hs Hset).
Qed.

Lemma reserved_marked_read_value (p va b : Z) (s s' : state) :
  reserved_marked s -> read_value p va s = Done (b, s') -> reserved_marked s'.
Proof.
  intros Hs Hrun. unfold read_value in Hrun.
  destruct (get_physical_address p va s) as [a| |]; try discriminate.
  unfold bind in Hrun. destruct (mem_get s a) as [x| |]; try discriminate.
  injection Hrun as <- <-. now apply (reserved_marked_same_mem s).
Qed.

Lemma reserved_marked_exec (c : command) (s s' : state) :
  respects c s = true -> reserved_marked s -> exec c s = Done s' ->
  reserved_marked s'.
Proof.
  intros Hc Hs Hrun. destruct c as [p k|p|p va v|p va]; simpl in Hc, Hrun.
  - apply Z.leb_le in Hc. now apply (reserved_marked_new_process p k s).
  - apply andb_true_iff in Hc as [_ Hc]. now apply (reserved_marked_kill p s).
  - apply andb_true_iff in Hc as [_ Hc]. now apply (reserved_marked_store_value p va v s).
  - destruct (read_value p va s) as [[b s1]| |] eqn:Hr; try discriminate.
    injection Hrun as <-. now apply (reserved_marked_read_value p va b s).
Qed.

(** X24: [mem[0]] is 1 after [initialize_mem], and it is still 1 after every
    sequence of [np], [kp], [sb] and [lb] commands that runs to its end and
    in which every call, in the state it is made in, has a process number
    that is not negative, and for [kp], [sb] and [lb] a process-table byte
    that is not 0, and for [sb] and [lb] a page-table entry of the virtual
    page that is not 0. *)
Theorem reserved_page_stays_marked (cs : list command) (s0 s1 s : state) :
  mem_ok s0 -> initialize_mem s0 = Done s1 ->
  respecting cs s1 = true -> run cs s1 = Done s ->
  mem_get s1 0 = Done 1 /\ mem_get s 0 = Done 1.
Proof.
  intros Hok Hinit Hcs Hrun.
  assert (H1 : reserved_marked s1).
  { rewrite initialize_mem_eq in Hinit. injection Hinit as <-. split.
    - apply (mem_ok_insert s0 _ 0%nat 1 Hok). reflexivity.
    - apply (mem_get_insert_eq s0 _ 0 1 Hok); [consts; lia | reflexivity]. }
  split; [apply H1|].
  clear Hinit Hok s0. revert s1 H1 Hcs Hrun.
  induction cs as [|c cs IH]; intros s1 H1 Hcs Hrun.
  - injection Hrun as <-. apply H1.
  - simpl in Hcs, Hrun. apply andb_true_iff in Hcs as [Hc Hcs].
    destruct (exec c s1) as [s2| |] eqn:Hexec; try discriminate.
    apply (IH s2); try assumption.
    now apply (reserved_marked_exec c s1 s2).
Qed.

Lemma reserved_page_stays_marked_witness :
  match run session fresh with
  | Done s => mem_get s 0 = Done 1
  | _ => False
  end.
Proof.
  assert (Hd : is_done (run session fresh) = true) by (vm_compute; reflexivity).
  destruct (run session fresh) as [s| |] eqn:Hrun; try discriminate Hd.
  apply (reserved_page_stays_marked session boot fresh s mem_ok_boot
           initialize_mem_boot).
  - vm_compute. reflexivity.
  - exact Hrun.
Defined.

(** C8, on the code: a run on live processes, each used at a page it was
    created with, that leaves [mem[0]] at 0.  Up to [sb 5 0 0] every call
    finds its process-table byte and its page-table entry set, and [mem[0]]
    is 1.  [kp 4] has freed page 4, the page table of the live process 2,
    through a stale byte of its own page table, and [np 5 1] has taken page
    4 as data page: [sb 5 0 0] writes at address 1024, entry 0 of the page
    table of process 2.  [sb 2 0 0], a store of process 2 at its own virtual
    page 0, then goes through an entry that is 0 and lands on [mem[0]]. *)
Theorem reserved_page_loses_its_mark :
  respecting cleared_mark_run fresh = true /\
  map (byte_after (ptsim (firstn 8 cleared_mark_run)))
      [0; PAGE_COUNT + 2; 4 * PAGE_SIZE; PAGE_COUNT + 5; 3 * PAGE_SIZE] =
    [Done 1; Done 4; Done 5; Done 3; Done 4] /\
  map (byte_after (ptsim cleared_mark_run)) [0; PAGE_COUNT + 2; 4 * PAGE_SIZE] =
    [Done 1; Done 4; Done 0] /\
  byte_after (ptsim (cleared_mark_run ++ [Sb 2 0 0])) 0 = Done 0 /\
  output_after (ptsim (cleared_mark_run ++ [Sb 2 0 0])) =
    Done [StoreLine 1 356 868 4; StoreLine 5 0 1024 0; StoreLine 2 0 0 0].
Proof. repeat apply conj; vm_compute; reflexivity. Qed.

(** * Counting the free pages of the bitmap *)

Lemma filter_length_remove (f g : Z -> bool) (j : Z) (l : list Z) :
  NoDup l -> j ∈ l -> f j = true -> g j = false ->
  (forall x, x <> j -> g x = f x) ->
  length (List.filter f l) = S (length (List.filter g l)).
Proof.
  intros Hnd Hin Hf Hg Hext. induction l as [|a l IH]; [inversion Hin|].
  apply NoDup_cons in Hnd as [Hnotin Hnd]. simpl.
  destruct (Z.eq_dec a j) as [->|Hne].
  - rewrite Hf, Hg. simpl. f_equal. f_equal. apply List.filter_ext_in.
    intros x Hx. symmetry. apply Hext. intros ->.
    apply Hnotin, list_elem_of_In, Hx.
  - rewrite (Hext a Hne). apply elem_of_cons in Hin as [->|Hin]; [contradiction|].
    destruct (f a); simpl; now rewrite (IH Hnd Hin).
Qed.

Lemma free_pages_frame (s s' : state) :
  (forall x, 1 <= x < PAGE_COUNT -> mem_get s' x = mem_get s x) ->
  free_pages s' = free_pages s.
Proof.
  intros H. unfold free_pages. f_equal. apply List.filter_ext_in.
  intros x Hx. apply list_elem_of_In, elem_of_seqZ in Hx.
  unfold is_free. rewrite H; [reflexivity | consts; lia].
Qed.

Lemma free_pages_allocated (j : Z) (s : state) :
  mem_ok s -> 1 <= j < PAGE_COUNT -> mem_get s j = Done 0 ->
  free_pages s = S (free_pages (allocated j s)).
Proof.
  intros Hok Hj Hfree. unfold free_pages.
  apply (filter_length_remove _ _ j).
  - apply NoDup_seqZ.
  - apply elem_of_seqZ. consts. lia.
  - now apply is_free_true.
  - unfold is_free.
    rewrite (mem_get_insert_eq s (allocated j s) j 1 Hok);
      [reflexivity | consts; lia | reflexivity].
  - intros x Hx. unfold is_free.
    now rewrite (mem_get_insert_ne s (allocated j s) j x 1) by (try lia; reflexivity).
Qed.

Lemma free_pages_le (s : state) : (free_pages s <= 63)%nat.
Proof.
  unfold free_pages.
  etransitivity; [apply List.filter_length_le|]. now rewrite length_seqZ.
Qed.

Lemma filter_all_false (f : Z -> bool) (l : list Z) :
  (forall x, x ∈ l -> f x = false) -> List.filter f l = [].
Proof.
  induction l as [|a l IH]; intros H; [reflexivity|]. simpl.
  rewrite (H a) by apply list_elem_of_here.
  apply IH. intros x Hx. apply H. now apply list_elem_of_further.
Qed.

Lemma free_pages_none (s : state) :
  (forall x, 1 <= x < PAGE_COUNT -> mem_get s x <> Done 0) -> free_pages s = 0%nat.
Proof.
  intros Hnone. unfold free_pages. rewrite filter_all_false; [reflexivity|].
  intros x Hx. apply elem_of_seqZ in Hx. apply is_free_false, Hnone. consts. lia.
Qed.

(** With a free page in the bitmap, [find_page] hands out a page. *)
Lemma find_page_some_free (s : state) :
  mem_ok s -> (0 < free_pages s)%nat ->
  exists j, 1 <= j < PAGE_COUNT /\ mem_get s j = Done 0 /\
            find_page s = Done (j, allocated j s).
Proof.
  intros Hok Hpos.
  destruct (find_page_cases s Hok) as [(j & Hj & Hf & _ & Hfp)|[Hnone _]].
  - exists j. auto.
  - rewrite (free_pages_none s Hnone) in Hpos. lia.
Qed.

(** * new_process when the bitmap has room *)

Lemma mem_get_after_set (a v x : Z) (s s' : state) :
  mem_ok s -> mem_set a v s = Done s' ->
  mem_ok s' /\
  mem_get s' x = if Z.eq_dec x a then Done (to_uchar v) else mem_get s x.
Proof.
  intros Hok Hset. apply mem_set_inv in Hset as [Ha ->]. split.
  - apply (mem_ok_insert s _ (Z.to_nat a) (to_uchar v) Hok). reflexivity.
  - destruct (Z.eq_dec x a) as [->|Hne].
    + apply (mem_get_insert_eq s _ a _ Hok Ha). reflexivity.
    + apply (mem_get_insert_ne s _ a x (to_uchar v)); [lia | congruence | reflexivity].
Qed.

Lemma mem_get_allocated (j x : Z) (s : state) :
  mem_ok s -> 0 <= j < MEM_SIZE ->
  mem_get (allocated j s) x = if Z.eq_dec x j then Done 1 else mem_get s x.
Proof.
  intros Hok Hj. destruct (Z.eq_dec x j) as [->|Hne].
  - apply (mem_get_insert_eq s _ j 1 Hok Hj). reflexivity.
  - apply (mem_get_insert_ne s _ j x 1); [lia | congruence | reflexivity].
Qed.

Lemma was_free (s0 s : state) (d : Z) :
  (forall x, 1 <= x < PAGE_COUNT -> mem_get s0 x <> Done 0 ->
             mem_get s x = mem_get s0 x) ->
  1 <= d < PAGE_COUNT -> mem_get s d = Done 0 -> mem_get s0 d = Done 0.
Proof.
  intros Hmono Hd Hfree. destruct (is_free s0 d) eqn:E.
  - now apply is_free_true.
  - apply is_free_false in E. rewrite <- (Hmono d Hd E). assumption.
Qed.

Lemma new_process_loop_full (s0 : state) (p pt k : Z) (fuel : nat) (j : Z) (s : state) :
  0 <= p < PAGE_SIZE - PAGE_COUNT -> 1 <= pt < PAGE_COUNT ->
  k <= PAGE_COUNT -> 0 <= j <= k ->
  k - j < Z.of_nat fuel -> k - j <= Z.of_nat (free_pages s) ->
  built s0 p pt j s ->
  exists s', new_process_loop fuel pt k j s = Done s' /\ built s0 p pt k s' /\
    Z.of_nat (free_pages s') = Z.of_nat (free_pages s) - (k - j) /\
    (-2147483648 + (k - j) <= free_page_count s < 2147483648 ->
     free_page_count s' = free_page_count s - (k - j)).
Proof.
  intros Hp Hpt Hk. revert j s.
  induction fuel as [|fuel IH]; intros j s Hj Hfuel Hroom Hbuilt; [lia|].
  simpl. destruct (j <? k) eqn:E.
  2: { apply Z.ltb_ge in E. replace k with j by lia. exists s.
       repeat split; try apply Hbuilt; lia. }
  apply Z.ltb_lt in E.
  destruct Hbuilt as (Hok & Hentry & Hused & Hfilled & Hframe & Hmono).
  destruct (find_page_some_free s Hok) as (d & Hd & Hfree & Hfp); [lia|].
  rewrite Hfp. unfold bind.
  rewrite get_address_add by (consts; lia).
  assert (Hne : d <> pt) by (intros ->; congruence).
  assert (Hoka : mem_ok (allocated d s)) by now apply mem_ok_allocated.
  destruct (mem_set (pt * PAGE_SIZE + j) d (allocated d s)) as [s2| |] eqn:Hset.
  2,3: rewrite mem_set_Done in Hset by (consts; lia); discriminate.
  assert (Hget : forall x, mem_get s2 x =
                   if Z.eq_dec x (pt * PAGE_SIZE + j) then Done d
                   else if Z.eq_dec x d then Done 1 else mem_get s x).
  { intros x. rewrite (proj2 (mem_get_after_set _ _ x _ _ Hoka Hset)).
    rewrite to_uchar_small by (consts; lia).
    destruct (Z.eq_dec x (pt * PAGE_SIZE + j)); [reflexivity|].
    apply mem_get_allocated; [assumption | consts; lia]. }
  pose proof (proj1 (mem_get_after_set _ _ 0 _ _ Hoka Hset)) as Hok2.
  pose proof (was_free s0 s d Hmono Hd Hfree) as Hfree0.
  assert (Hroom2 : Z.of_nat (free_pages s2) = Z.of_nat (free_pages s) - 1).
  { rewrite (free_pages_frame (allocated d s) s2).
    - rewrite (free_pages_allocated d s Hok Hd Hfree). lia.
    - intros x Hx. rewrite (proj2 (mem_get_after_set _ _ x _ _ Hoka Hset)).
      destruct (Z.eq_dec x (pt * PAGE_SIZE + j)); [consts; lia | reflexivity]. }
  assert (Hcount2 : free_page_count s2 = to_int (free_page_count s - 1)).
  { apply mem_set_inv in Hset as [_ ->]. reflexivity. }
  rewrite to_int_small by (consts; lia).
  destruct (IH (j + 1) s2) as (s' & Hrun & Hbuilt' & Hroom' & Hcount'); try lia.
  { repeat split.
    - exact Hok2.
    - rewrite Hget.
      destruct (Z.eq_dec (PAGE_COUNT + p) (pt * PAGE_SIZE + j)); [consts; lia|].
      destruct (Z.eq_dec (PAGE_COUNT + p) d); [consts; lia | assumption].
    - rewrite Hget. destruct (Z.eq_dec pt (pt * PAGE_SIZE + j)); [consts; lia|].
      destruct (Z.eq_dec pt d); [congruence | assumption].
    - intros v Hv.
      destruct (Z.eq_dec v j) as [->|Hvj].
      + exists d. rewrite !Hget.
        destruct (Z.eq_dec (pt * PAGE_SIZE + j) (pt * PAGE_SIZE + j)); [|congruence].
        destruct (Z.eq_dec d (pt * PAGE_SIZE + j)); [consts; lia|].
        destruct (Z.eq_dec d d); [|congruence]. auto.
      + destruct (Hfilled v) as (d' & Hd' & Hr' & Hne' & Hf' & Hu'); [lia|].
        exists d'. rewrite !Hget.
        destruct (Z.eq_dec (pt * PAGE_SIZE + v) (pt * PAGE_SIZE + j)); [lia|].
        destruct (Z.eq_dec (pt * PAGE_SIZE + v) d); [consts; lia|].
        destruct (Z.eq_dec d' (pt * PAGE_SIZE + j)); [consts; lia|].
        destruct (Z.eq_dec d' d); auto.
    - intros x Hx Hxp Hxt. rewrite Hget.
      destruct (Z.eq_dec x (pt * PAGE_SIZE + j)); [lia|].
      destruct (Z.eq_dec x d); [lia|]. apply Hframe; try assumption. lia.
    - intros x Hx Hx0. rewrite Hget.
      destruct (Z.eq_dec x (pt * PAGE_SIZE + j)); [consts; lia|].
      destruct (Z.eq_dec x d) as [->|]; [congruence|]. now apply Hmono. }
  exists s'. split; [exact Hrun|]. split; [exact Hbuilt'|]. split; [lia|].
  intros Hc. rewrite Hcount' by (rewrite Hcount2, to_int_small; lia).
  rewrite Hcount2, to_int_small; lia.
Qed.

(** A process created while the bitmap has a free page for its page table
    and for each of its [k] data pages. *)
Lemma new_process_full (p k : Z) (s : state) :
  mem_ok s -> 0 <= p < PAGE_SIZE - PAGE_COUNT ->
  0 <= k <= free_page_count s -> k + 1 <= Z.of_nat (free_pages s) ->
  exists s' pt, new_process p k s = Done s' /\
    1 <= pt < PAGE_COUNT /\ mem_get s pt = Done 0 /\ built s p pt k s' /\
    Z.of_nat (free_pages s') = Z.of_nat (free_pages s) - (k + 1) /\
    (free_page_count s < 2147483648 ->
     free_page_count s' = free_page_count s - (k + 1)).
Proof.
  intros Hok Hp Hcount Hroom. unfold new_process.
  rewrite (proj2 (Z.ltb_ge _ _)) by lia.
  pose proof (free_pages_le s) as Hle.
  destruct (find_page_some_free s Hok) as (pt & Hpt & Hfree & Hfp); [lia|].
  rewrite Hfp. unfold bind.
  assert (Hoka : mem_ok (allocated pt s)) by now apply mem_ok_allocated.
  destruct (mem_set (PAGE_COUNT + p) pt (allocated pt s)) as [s2| |] eqn:Hset.
  2,3: rewrite mem_set_Done in Hset by (consts; lia); discriminate.
  assert (Hget : forall x, mem_get s2 x =
                   if Z.eq_dec x (PAGE_COUNT + p) then Done pt
                   else if Z.eq_dec x pt then Done 1 else mem_get s x).
  { intros x. rewrite (proj2 (mem_get_after_set _ _ x _ _ Hoka Hset)).
    rewrite to_uchar_small by (consts; lia).
    destruct (Z.eq_dec x (PAGE_COUNT + p)); [reflexivity|].
    apply mem_get_allocated; [assumption | consts; lia]. }
  pose proof (proj1 (mem_get_after_set _ _ 0 _ _ Hoka Hset)) as Hok2.
  assert (Hroom2 : Z.of_nat (free_pages s2) = Z.of_nat (free_pages s) - 1).
  { rewrite (free_pages_frame (allocated pt s) s2).
    - rewrite (free_pages_allocated pt s Hok Hpt Hfree). lia.
    - intros x Hx. rewrite (proj2 (mem_get_after_set _ _ x _ _ Hoka Hset)).
      destruct (Z.eq_dec x (PAGE_COUNT + p)); [consts; lia | reflexivity]. }
  assert (Hcount2 : free_page_count s2 = to_int (free_page_count s - 1)).
  { apply mem_set_inv in Hset as [_ ->]. reflexivity. }
  destruct (new_process_loop_full s p pt k (S (Z.to_nat k)) 0 s2)
    as (s' & Hrun & Hbuilt & Hroom' & Hcount'); try assumption; try (consts; lia).
  { repeat split.
    - exact Hok2.
    - rewrite Hget. destruct (Z.eq_dec _ _); [reflexivity | congruence].
    - rewrite Hget. destruct (Z.eq_dec pt (PAGE_COUNT + p)); [consts; lia|].
      destruct (Z.eq_dec pt pt); [reflexivity | congruence].
    - intros v Hv. lia.
    - intros x Hx Hxp _. rewrite Hget.
      destruct (Z.eq_dec x (PAGE_COUNT + p)); [contradiction|].
      destruct (Z.eq_dec x pt); [lia | reflexivity].
    - intros x Hx Hx0. rewrite Hget.
      destruct (Z.eq_dec x (PAGE_COUNT + p)); [consts; lia|].
      destruct (Z.eq_dec x pt) as [->|]; [congruence | reflexivity]. }
  exists s', pt. split; [exact Hrun|]. split; [assumption|]. split; [assumption|].
  split; [exact Hbuilt|]. split; [lia|].
  intros Hc. rewrite Hcount' by (rewrite Hcount2, to_int_small; lia).
  rewrite Hcount2, to_int_small; lia.
Qed.

(** * store_value then read_value *)

Lemma offset_range (va : Z) : 0 <= Z.land va 255 < PAGE_SIZE.
Proof.
  change 255 with (Z.ones 8). rewrite Z.land_ones by lia.
  consts. change (2 ^ 8) with 256. apply Z.mod_pos_bound. lia.
Qed.

(** A store through a page-table entry [d] that is a page of the pool other
    than the page table [pt], followed by a load of the same address. *)
Lemma store_then_read_mapped (s : state) (p va v pt d : Z) :
  mem_ok s -> 0 <= p < PAGE_SIZE - PAGE_COUNT -> 0 <= Z.shiftr va PAGE_SHIFT < PAGE_SIZE ->
  mem_get s (PAGE_COUNT + p) = Done pt ->
  mem_get s (pt * PAGE_SIZE + Z.shiftr va PAGE_SHIFT) = Done d ->
  1 <= d < PAGE_COUNT -> d <> pt ->
  exists s2 s3, store_value p va v s = Done s2 /\
                read_value p va s2 = Done (to_uchar v, s3).
Proof.
  intros Hok Hp Hvp Hpt Hd Hdr Hne.
  pose proof (offset_range va) as Hoff.
  pose proof (mem_get_inv _ _ _ Hd) as [Hb _].
  assert (Hpt0 : 0 <= pt) by (consts; lia).
  unfold store_value, read_value.
  rewrite (get_physical_address_eq s p va pt d Hpt Hd). unfold bind.
  rewrite get_address_add by (consts; lia).
  destruct (mem_set (d * PAGE_SIZE + Z.land va 255) v s) as [s1| |] eqn:Hset.
  2,3: rewrite mem_set_Done in Hset by (consts; lia); discriminate.
  set (s2 := printf s1 _).
  assert (Hget : forall x, mem_get s2 x =
            if Z.eq_dec x (d * PAGE_SIZE + Z.land va 255) then Done (to_uchar v)
            else mem_get s x).
  { intros x. rewrite (mem_get_same_mem s1 s2 x eq_refl).
    apply (mem_get_after_set _ _ x _ _ Hok Hset). }
  assert (Hpt2 : mem_get s2 (PAGE_COUNT + p) = Done pt).
  { rewrite Hget. destruct (Z.eq_dec _ _); [consts; lia | assumption]. }
  assert (Hd2 : mem_get s2 (pt * PAGE_SIZE + Z.shiftr va PAGE_SHIFT) = Done d).
  { rewrite Hget. destruct (Z.eq_dec _ _); [consts; nia | assumption]. }
  exists s2. eexists. split; [reflexivity|].
  rewrite (get_physical_address_eq s2 p va pt d Hpt2 Hd2).
  rewrite get_address_add by (consts; lia).
  rewrite Hget. destruct (Z.eq_dec _ _); [reflexivity | congruence].
Qed.

(** C5: in a process just created with [k] data pages, while the bitmap had
    a free page for the page table and for each data page, a byte stored at
    an address of one of the [k] virtual pages is the byte the next load of
    that address returns.  The process number is one whose process-table
    byte lies in page 0. *)
Theorem store_then_read_round_trip (s : state) (p k va v : Z) :
  mem_ok s -> 0 <= p < PAGE_SIZE - PAGE_COUNT ->
  0 <= k <= free_page_count s -> k + 1 <= Z.of_nat (free_pages s) ->
  0 <= Z.shiftr va PAGE_SHIFT < k -> 0 <= v < 256 ->
  exists s1 s2 s3,
    new_process p k s = Done s1 /\
    store_value p va v s1 = Done s2 /\
    read_value p va s2 = Done (v, s3).
Proof.
  intros Hok Hp Hk Hroom Hva Hv.
  pose proof (free_pages_le s) as Hle.
  destruct (new_process_full p k s Hok Hp Hk Hroom)
    as (s1 & pt & Hnew & Hptr & _ & (Hok1 & Hpt & _ & Hfilled & _) & _).
  destruct (Hfilled _ Hva) as (d & Hd & Hdr & Hne & _).
  destruct (store_then_read_mapped s1 p va v pt d) as (s2 & s3 & Hst & Hrd);
    try assumption; try (consts; lia).
  exists s1, s2, s3. rewrite to_uchar_small in Hrd by assumption. auto.
Qed.

Lemma store_then_read_round_trip_witness :
  exists s1 s2 s3,
    new_process 2 3 fresh = Done s1 /\
    store_value 2 700 99 s1 = Done s2 /\
    read_value 2 700 s2 = Done (99, s3).
Proof.
  apply (store_then_read_round_trip fresh 2 3 700 99 mem_ok_fresh).
  - consts. lia.
  - simpl. consts. lia.
  - vm_compute. discriminate.
  - change (0 <= 2 < 3). lia.
  - lia.
Defined.

(** * Two processes created one after the other *)



(** * kill *)

Lemma state_of_done (r : outcome state) : is_done r = true -> r = Done (state_of r).
Proof. destruct r; simpl; congruence. Qed.

Lemma existsb_ext_in (f g : Z -> bool) (l : list Z) :
  (forall x, x ∈ l -> f x = g x) -> existsb f l = existsb g l.
Proof.
  induction l as [|a l IH]; intros H; [reflexivity|]. simpl.
  rewrite (H a) by apply list_elem_of_here. f_equal.
  apply IH. intros x Hx. apply H. now apply list_elem_of_further.
Qed.

Lemma referenced_step (s : state) (pt lo hi x : Z) :
  lo < hi ->
  referenced s pt lo hi x = entry_is s pt x lo || referenced s pt (lo + 1) hi x.
Proof.
  intros H. unfold referenced. rewrite (seqZ_cons lo) by lia. simpl.
  replace (Z.succ lo) with (lo + 1) by lia.
  replace (Z.pred (hi - lo)) with (hi - (lo + 1)) by lia. reflexivity.
Qed.

Lemma referenced_ext (s s' : state) (pt lo hi x : Z) :
  (forall o, lo <= o < hi -> mem_get s' (pt * PAGE_SIZE + o) = mem_get s (pt * PAGE_SIZE + o)) ->
  referenced s' pt lo hi x = referenced s pt lo hi x.
Proof.
  intros H. unfold referenced. apply existsb_ext_in. intros o Ho.
  apply elem_of_seqZ in Ho. unfold entry_is. rewrite H by lia. reflexivity.
Qed.

Lemma bytes_ok_after_set (a v : Z) (s s' : state) :
  bytes_ok s -> mem_set a v s = Done s' -> bytes_ok s'.
Proof.
  intros Hb Hset. apply mem_set_inv in Hset as [_ ->].
  apply (bytes_ok_insert s _ (Z.to_nat a) (to_uchar v) Hb (to_uchar_range v)).
  reflexivity.
Qed.

(** The loop of [kill] run from offset [o]: it ends, and the array it leaves
    is the one it started with except that the page table bytes from [o] on
    are 0 and so is every byte of page 0 whose index is a non-zero entry. *)
Lemma kill_loop_spec (pt : Z) (fuel : nat) (o : Z) (s : state) :
  mem_ok s -> bytes_ok s -> 1 <= pt < PAGE_COUNT -> 0 <= o <= PAGE_SIZE ->
  PAGE_SIZE - o < Z.of_nat fuel ->
  exists s', kill_loop fuel pt o s = Done s' /\ mem_ok s' /\ bytes_ok s' /\
    free_page_count s' = free_page_count s /\ output s' = output s /\
    forall x, mem_get s' x =
      if in_table_from pt o x then Done 0
      else if (0 <? x) && (x <? PAGE_SIZE) && referenced s pt o PAGE_SIZE x
           then Done 0
           else mem_get s x.
Proof.
  intros Hok Hb Hpt. revert o s Hok Hb.
  induction fuel as [|fuel IH]; intros o s Hok Hb Ho Hfuel; [lia|].
  simpl. destruct (o <? PAGE_SIZE) eqn:E.
  2: { apply Z.ltb_ge in E. exists s. repeat split; try assumption.
       intros x. unfold in_table_from.
       replace (pt * PAGE_SIZE + o <=? x) with (negb (x <? pt * PAGE_SIZE + PAGE_SIZE))
         by (destruct (Z.ltb_spec x (pt * PAGE_SIZE + PAGE_SIZE)),
                      (Z.leb_spec (pt * PAGE_SIZE + o) x); simpl; lia).
       rewrite andb_negb_l. unfold referenced.
       replace (PAGE_SIZE - o) with 0 by lia. simpl. now rewrite andb_false_r. }
  apply Z.ltb_lt in E.
  rewrite get_address_add by (consts; lia).
  set (a := pt * PAGE_SIZE + o).
  destruct (mem_get_Done s a Hok) as [e He]; [subst a; consts; lia|].
  rewrite He. unfold bind. rewrite to_int_small by (consts; lia).
  assert (Hentry : forall x, entry_is s pt x o = (e =? x)).
  { intros x. unfold entry_is. fold a. now rewrite He. }
  destruct (e =? 0) eqn:Ee; simpl.
  - apply Z.eqb_eq in Ee. subst e.
    destruct (IH (o + 1) s Hok Hb) as (s' & Hrun & Hok' & Hb' & Hc & Hout & Hget);
      try lia.
    exists s'. repeat split; try assumption.
    intros x. rewrite Hget, (referenced_step s pt o) by lia. rewrite Hentry.
    unfold in_table_from.
    destruct (Z.eq_dec x a) as [->|Hne].
    + rewrite He.
      repeat match goal with
             | |- context [?u <=? ?v] => destruct (Z.leb_spec u v)
             | |- context [?u <? ?v] => destruct (Z.ltb_spec u v)
             end; simpl; try reflexivity; subst a; consts; lia.
    + repeat match goal with
             | |- context [?u <=? ?v] => destruct (Z.leb_spec u v)
             | |- context [?u <? ?v] => destruct (Z.ltb_spec u v)
             | |- context [?u =? ?v] => destruct (Z.eqb_spec u v)
             end; simpl; try reflexivity; subst a; consts; lia.
  - apply Z.eqb_neq in Ee.
    pose proof (bytes_ok_get s a e Hb He) as Her.
    unfold deallocate_page.
    destruct (mem_set e 0 s) as [s1| |] eqn:Hs1.
    2,3: rewrite mem_set_Done in Hs1 by (consts; lia); discriminate.
    destruct (mem_get_after_set e 0 0 s s1 Hok Hs1) as [Hok1 _].
    destruct (mem_set a 0 s1) as [s2| |] eqn:Hs2.
    2,3: rewrite mem_set_Done in Hs2 by (subst a; consts; lia); discriminate.
    destruct (mem_get_after_set a 0 0 s1 s2 Hok1 Hs2) as [Hok2 _].
    assert (Hget2 : forall x, mem_get s2 x =
              if Z.eq_dec x a then Done 0
              else if Z.eq_dec x e then Done 0 else mem_get s x).
    { intros x. rewrite (proj2 (mem_get_after_set a 0 x s1 s2 Hok1 Hs2)).
      destruct (Z.eq_dec x a); [reflexivity|].
      apply (mem_get_after_set e 0 x s s1 Hok Hs1). }
    destruct (IH (o + 1) s2 Hok2) as (s' & Hrun & Hok' & Hb' & Hc & Hout & Hget);
      try lia.
    { apply (bytes_ok_after_set a 0 s1 s2); [|assumption].
      now apply (bytes_ok_after_set e 0 s s1). }
    exists s'. split; [exact Hrun|]. split; [assumption|]. split; [assumption|].
    split.
    { rewrite Hc. apply mem_set_inv in Hs1 as [_ ->], Hs2 as [_ ->]. reflexivity. }
    split.
    { rewrite Hout. apply mem_set_inv in Hs1 as [_ ->], Hs2 as [_ ->]. reflexivity. }
    intros x. rewrite Hget, (referenced_step s pt o) by lia. rewrite Hentry.
    rewrite (referenced_ext s s2 pt (o + 1)).
    2: { intros o' Ho'. rewrite Hget2.
         destruct (Z.eq_dec _ a); [subst a; lia|].
         destruct (Z.eq_dec _ e); [consts; lia | reflexivity]. }
    rewrite Hget2. unfold in_table_from.
    destruct (Z.eq_dec x a) as [->|Hne].
    + repeat match goal with
             | |- context [?u <=? ?v] => destruct (Z.leb_spec u v)
             | |- context [?u <? ?v] => destruct (Z.ltb_spec u v)
             end; simpl; try reflexivity;
        try (destruct (referenced s pt (o + 1) PAGE_SIZE a); reflexivity);
        subst a; consts; lia.
    + destruct (Z.eq_dec x e) as [->|Hne'].
      * rewrite Z.eqb_refl.
        repeat match goal with
               | |- context [?u <=? ?v] => destruct (Z.leb_spec u v)
               | |- context [?u <? ?v] => destruct (Z.ltb_spec u v)
               end; simpl; try reflexivity;
          try (destruct (referenced s pt (o + 1) PAGE_SIZE e); reflexivity);
          subst a; consts; lia.
      * rewrite (proj2 (Z.eqb_neq e x)) by congruence. simpl orb.
        destruct (Z.leb_spec (pt * PAGE_SIZE + o) x),
                 (Z.leb_spec (pt * PAGE_SIZE + (o + 1)) x);
          try reflexivity; subst a; lia.
Qed.

(** [kill] on a process whose page table is a page of the pool. *)
Lemma kill_spec (s : state) (p pt : Z) :
  mem_ok s -> bytes_ok s -> get_page_table p s = Done pt -> 1 <= pt < PAGE_COUNT ->
  exists s', kill p s = Done s' /\ mem_ok s' /\ bytes_ok s' /\
    free_page_count s' = free_page_count s /\ output s' = output s /\
    forall x, mem_get s' x =
      if Z.eq_dec x pt then Done 0
      else if in_table_from pt 0 x then Done 0
      else if (0 <? x) && (x <? PAGE_SIZE) && referenced s pt 0 PAGE_SIZE x
           then Done 0
           else mem_get s x.
Proof.
  intros Hok Hb Hpt Hr. unfold kill. rewrite Hpt. unfold bind.
  destruct (kill_loop_spec pt (S (Z.to_nat PAGE_SIZE)) 0 s Hok Hb Hr)
    as (s1 & Hrun & Hok1 & Hb1 & Hc & Hout & Hget); try (consts; lia).
  rewrite Hrun. unfold deallocate_page.
  destruct (mem_set pt 0 s1) as [s'| |] eqn:Hset.
  2,3: rewrite mem_set_Done in Hset by (consts; lia); discriminate.
  exists s'. split; [reflexivity|].
  split; [apply (mem_get_after_set pt 0 0 s1 s' Hok1 Hset)|].
  split; [now apply (bytes_ok_after_set pt 0 s1 s')|].
  split; [rewrite <- Hc; apply mem_set_inv in Hset as [_ ->]; reflexivity|].
  split; [rewrite <- Hout; apply mem_set_inv in Hset as [_ ->]; reflexivity|].
  intros x. rewrite (proj2 (mem_get_after_set pt 0 x s1 s' Hok1 Hset)).
  destruct (Z.eq_dec x pt); [reflexivity | apply Hget].
Qed.

(** X23: what [kill] frees.  [kill] walks all [PAGE_SIZE] bytes of the page
    table page.  In a state of [MEM_SIZE] byte cells, for a process whose
    process-table byte names a page [pt] of the pool, it runs to its end; a
    bitmap byte in [0, PAGE_COUNT) becomes 0 when it is the byte of page
    [pt] or of a page that a non-zero byte of page [pt] at an offset in
    [0, PAGE_SIZE) names, and no other bitmap byte changes; the [PAGE_SIZE]
    bytes of page [pt] are 0 afterwards. *)
Theorem kill_frees_table_pages (s : state) (p pt : Z) :
  mem_ok s -> bytes_ok s -> get_page_table p s = Done pt -> 1 <= pt < PAGE_COUNT ->
  kill_frees_exactly PAGE_SIZE p s.
Proof.
  intros Hok Hb Hpt Hr.
  destruct (kill_spec s p pt Hok Hb Hpt Hr) as (s' & Hrun & _ & _ & _ & _ & Hget).
  exists pt, s'. split; [assumption|]. split; [assumption|]. split.
  - intros i Hi. rewrite Hget. unfold in_table_from.
    destruct (Z.eq_dec i pt) as [->|Hne].
    + now rewrite Z.eqb_refl.
    + rewrite (proj2 (Z.eqb_neq i pt) Hne). simpl orb.
      rewrite (proj2 (Z.leb_gt (pt * PAGE_SIZE + 0) i)) by (consts; lia). simpl andb.
      rewrite (proj2 (Z.ltb_lt i PAGE_SIZE)) by (consts; lia).
      destruct (Z.eqb_spec i 0) as [->|Hnz]; [reflexivity|].
      rewrite (proj2 (Z.ltb_lt 0 i)) by lia. reflexivity.
  - intros v Hv. rewrite Hget. unfold in_table_from.
    destruct (Z.eq_dec _ pt); [reflexivity|].
    rewrite (proj2 (Z.leb_le (pt * PAGE_SIZE + 0) (pt * PAGE_SIZE + v))) by lia.
    rewrite (proj2 (Z.ltb_lt _ _)) by lia. reflexivity.
Qed.

Lemma stale_table_reached : ptsim stale_table_run = Done stale_table.
Proof. apply state_of_done. vm_compute. reflexivity. Qed.

Lemma kill_frees_table_pages_witness : kill_frees_exactly PAGE_SIZE 4 stale_table.
Proof.
  apply (kill_frees_table_pages stale_table 4 3).
  - vm_compute. reflexivity.
  - vm_compute. reflexivity.
  - vm_compute. reflexivity.
  - consts. lia.
Defined.

(** C2, on the code: in [stale_table], reached by calls that respect the
    contract, process 2 is alive with page table page 4 and data page 5, and
    process 4 has page table page 3, whose only non-zero bytes are byte 0
    (6, its data page) and byte 100 (5, left there by a store of process 1
    when page 3 was a data page).  No entry of process 4 at an index in
    [0, PAGE_COUNT) names page 5, yet [kill 4] clears bitmap byte 5: it does
    not free exactly the pages of the entries [0, PAGE_COUNT). *)
Theorem kill_frees_beyond_PAGE_COUNT :
  ptsim stale_table_run = Done stale_table /\
  respecting (stale_table_run ++ [Kp 4]) fresh = true /\
  map (mem_get stale_table)
      [PAGE_COUNT + 2; 4 * PAGE_SIZE; PAGE_COUNT + 4; 3 * PAGE_SIZE;
       3 * PAGE_SIZE + 100] =
    [Done 4; Done 5; Done 3; Done 6; Done 5] /\
  referenced stale_table 3 0 PAGE_COUNT 5 = false /\
  byte_after (ptsim stale_table_run) 5 = Done 1 /\
  byte_after (ptsim (stale_table_run ++ [Kp 4])) 5 = Done 0 /\
  ~ kill_frees_exactly PAGE_COUNT 4 stale_table.
Proof.
  split; [exact stale_table_reached|].
  split; [vm_compute; reflexivity|].
  split; [vm_compute; reflexivity|].
  split; [vm_compute; reflexivity|].
  split; [vm_compute; reflexivity|].
  split; [vm_compute; reflexivity|].
  intros (pt & s' & Hpt & Hkill & Hbits & _).
  assert (H3 : get_page_table 4 stale_table = Done 3) by (vm_compute; reflexivity).
  rewrite H3 in Hpt. injection Hpt as <-.
  assert (Hafter : (let* s1 := kill 4 stale_table in mem_get s1 5) = Done 0)
    by (vm_compute; reflexivity).
  rewrite Hkill in Hafter. unfold bind in Hafter.
  assert (Href : referenced stale_table 3 0 PAGE_COUNT 5 = false)
    by (vm_compute; reflexivity).
  assert (Hbefore : mem_get stale_table 5 = Done 1) by (vm_compute; reflexivity).
  specialize (Hbits 5 ltac:(consts; lia)).
  rewrite Href, Hbefore, Hafter in Hbits. discriminate Hbits.
Qed.

(** [kill] never touches [free_page_count]: [deallocate_page] only writes
    the bitmap byte. *)
Lemma kill_keeps_free_page_count (s : state) (p pt : Z) :
  mem_ok s -> bytes_ok s -> get_page_table p s = Done pt -> 1 <= pt < PAGE_COUNT ->
  exists s', kill p s = Done s' /\ free_page_count s' = free_page_count s.
Proof.
  intros Hok Hb Hpt Hr.
  destruct (kill_spec s p pt Hok Hb Hpt Hr) as (s' & Hrun & _ & _ & Hc & _).
  exists s'. auto.
Qed.

(** * The value 0xff taken as a page number *)

(** With 0xff as page-table page number, the page-table entry is looked up
    past the end of [mem]. *)
Lemma translate_through_sentinel_table (s : state) (p va : Z) :
  mem_get s (PAGE_COUNT + p) = Done 255 -> 0 <= Z.shiftr va PAGE_SHIFT < PAGE_SIZE ->
  get_physical_address p va s = OutOfBounds (65280 + Z.shiftr va PAGE_SHIFT) /\
  MEM_SIZE <= 65280 + Z.shiftr va PAGE_SHIFT.
Proof.
  intros Hpt Hvp. unfold get_physical_address, get_page_table.
  rewrite Hpt. unfold bind. rewrite get_address_0.
  change 8 with PAGE_SHIFT. change (255 * PAGE_SIZE) with 65280.
  rewrite to_int_small by (consts; lia).
  rewrite mem_get_outside by (consts; lia). split; [reflexivity | consts; lia].
Qed.

(** With 0xff as page-table entry, the byte stored or loaded is past the end
    of [mem]. *)
Lemma access_through_sentinel_entry (s : state) (p va v pt : Z) :
  mem_get s (PAGE_COUNT + p) = Done pt ->
  mem_get s (pt * PAGE_SIZE + Z.shiftr va PAGE_SHIFT) = Done 255 ->
  store_value p va v s = OutOfBounds (65280 + Z.land va 255) /\
  read_value p va s = OutOfBounds (65280 + Z.land va 255) /\
  MEM_SIZE <= 65280 + Z.land va 255.
Proof.
  intros Hpt He. pose proof (offset_range va) as Hoff.
  unfold store_value, read_value.
  rewrite (get_physical_address_eq s p va pt 255 Hpt He). unfold bind.
  rewrite get_address_add by (consts; lia).
  change (255 * PAGE_SIZE) with 65280.
  rewrite mem_set_outside, mem_get_outside by (consts; lia).
  repeat split; consts; lia.
Qed.

(** * Runs from the starting state *)

(** C1, on the code: [np 5 3] takes pages 1 to 4 and brings
    [free_page_count] from 63 to 59; [kp 5] then clears the four bitmap
    bytes but leaves [free_page_count] at 59.  The counter only ever goes
    down: after [two_lifetimes] it is 1 with the whole pool free, and a
    third [np 1 30] is turned away by the pre-check. *)
Theorem teardown_leaves_free_page_count :
  count_after (ptsim []) = Done 63 /\
  count_after (ptsim [Np 5 3]) = Done 59 /\
  count_after (ptsim [Np 5 3; Kp 5]) = Done 59 /\
  map (byte_after (ptsim [Np 5 3])) [1; 2; 3; 4; 5] =
    [Done 1; Done 1; Done 1; Done 1; Done 0] /\
  map (byte_after (ptsim [Np 5 3; Kp 5])) [1; 2; 3; 4; 5] =
    [Done 0; Done 0; Done 0; Done 0; Done 0] /\
  count_after (ptsim two_lifetimes) = Done 1 /\
  free_pages (state_of (ptsim two_lifetimes)) = 63%nat /\
  output_after (ptsim (two_lifetimes ++ [Np 1 30])) = Done [CouldNotAllocate 1].
Proof. repeat apply conj; vm_compute; reflexivity. Qed.

(** C7, on the code: every call of the run respects the contract, processes
    2 and 5 each got all the pages they asked for, virtual page 0 is mapped
    in both, to physical page 5 in both; the byte process 5 stores at
    address 0 is the byte process 2 then loads from address 0. *)
Theorem store_reaches_other_process :
  respecting (shared_page_run ++ [Sb 5 0 77; Lb 2 0]) fresh = true /\
  map (byte_after (ptsim shared_page_run))
      [PAGE_COUNT + 2; 4 * PAGE_SIZE; PAGE_COUNT + 5; 3 * PAGE_SIZE] =
    [Done 4; Done 5; Done 3; Done 5] /\
  load_after (ptsim shared_page_run) 2 0 = Done 0 /\
  load_after (ptsim (shared_page_run ++ [Sb 5 0 77])) 2 0 = Done 77.
Proof. repeat apply conj; vm_compute; reflexivity. Qed.

(** C9: two runs in which [find_page] returns 0xff and [new_process] stores
    it.  After [np 1 62] every page is taken and [free_page_count] is 0, so
    [np 2 0] passes the pre-check and records 0xff as the page table of
    process 2; [np 1 63] in the starting state runs out of pages at its last
    data page and records 0xff in entry 62.  In both a later store or load
    indexes [mem] at 65280 = 0xff << PAGE_SHIFT, past [MEM_SIZE]. *)
Theorem sentinel_used_as_page_number :
  (byte_after (ptsim [Np 1 62; Np 2 0]) (PAGE_COUNT + 2) = Done 255 /\
   ptsim [Np 1 62; Np 2 0; Sb 2 0 7] = OutOfBounds 65280 /\
   ptsim [Np 1 62; Np 2 0; Lb 2 0] = OutOfBounds 65280) /\
  (byte_after (ptsim [Np 1 63]) (1 * PAGE_SIZE + 62) = Done 255 /\
   ptsim [Np 1 63; Sb 1 15872 7] = OutOfBounds 65280 /\
   ptsim [Np 1 63; Lb 1 15872] = OutOfBounds 65280) /\
  Z.shiftl 255 PAGE_SHIFT = 65280 /\ MEM_SIZE <= 65280.
Proof.
  repeat apply conj; try (vm_compute; reflexivity). vm_compute. discriminate.
Qed.

(** * Further properties: addresses and the page allocator *)

(** X1: for a page number in [0, 2^23), for which [page << PAGE_SHIFT] stays
    inside [int], and an offset inside a page, the address built by
    [get_address] is [page * PAGE_SIZE + offset], it is an [int] without
    wrap-around, and the shift and the mask that [get_physical_address]
    applies give the page number and the offset back. *)
Theorem get_address_round_trip (page offset : Z) :
  0 <= page < 8388608 -> 0 <= offset < PAGE_SIZE ->
  get_address page offset = page * PAGE_SIZE + offset /\
  to_int (get_address page offset) = get_address page offset /\
  Z.shiftr (get_address page offset) PAGE_SHIFT = page /\
  Z.land (get_address page offset) (PAGE_SIZE - 1) = offset.
Proof.
  intros Hp Ho. rewrite get_address_add by (try assumption; lia).
  split; [reflexivity|].
  split; [apply to_int_small; consts; lia|].
  consts. split.
  - rewrite Z.shiftr_div_pow2 by lia. change (2 ^ 8) with 256.
    rewrite Z.div_add_l by lia. rewrite Z.div_small by lia. lia.
  - change (256 - 1) with (Z.ones 8). rewrite Z.land_ones by lia.
    change (2 ^ 8) with 256. rewrite Z.add_comm, Z.mod_add by lia.
    apply Z.mod_small. lia.
Qed.

Lemma get_address_round_trip_witness :
  get_address 5 7 = 1287 /\ to_int (get_address 5 7) = get_address 5 7 /\
  Z.shiftr (get_address 5 7) PAGE_SHIFT = 5 /\
  Z.land (get_address 5 7) (PAGE_SIZE - 1) = 7.
Proof. apply (get_address_round_trip 5 7); consts; lia. Defined.

(** X2: [find_page] always returns.  It returns 0xff, leaving the state as
    it is, exactly when no bitmap byte in [1, PAGE_COUNT) is 0; otherwise
    the number of such bytes goes down by one. *)
Theorem find_page_fails_iff_no_free_page (s : state) :
  mem_ok s ->
  exists i s', find_page s = Done (i, s') /\
    ((i = 255 /\ s' = s /\ free_pages s = 0%nat) \/
     (1 <= i < PAGE_COUNT /\ free_pages s = S (free_pages s'))).
Proof.
  intros Hok.
  destruct (find_page_cases s Hok) as [(j & Hj & Hf & _ & Hfp)|[Hnone Hfp]].
  - exists j, (allocated j s). split; [assumption|]. right.
    split; [assumption|]. now apply free_pages_allocated.
  - exists 255, s. split; [assumption|]. left.
    repeat split. now apply free_pages_none.
Qed.

Lemma find_page_fails_iff_no_free_page_witness :
  exists i s', find_page fresh = Done (i, s') /\
    ((i = 255 /\ s' = fresh /\ free_pages fresh = 0%nat) \/
     (1 <= i < PAGE_COUNT /\ free_pages fresh = S (free_pages s'))).
Proof. apply (find_page_fails_iff_no_free_page fresh mem_ok_fresh). Defined.

(** X3: two calls of [find_page] in a row never hand out the same page: the
    second page has the higher number.  Once a call has returned 0xff the
    next one does too. *)
Theorem find_page_twice (s s1 s2 : state) (i j : Z) :
  mem_ok s -> find_page s = Done (i, s1) -> find_page s1 = Done (j, s2) ->
  (i = 255 -> j = 255 /\ s2 = s) /\
  (i <> 255 -> j <> 255 -> i < j).
Proof.
  intros Hok H1 H2.
  destruct (find_page_cases s Hok) as [(a & Ha & Hf & Hlow & Hfp)|[Hnone Hfp]];
    rewrite Hfp in H1; injection H1 as <- <-.
  - split; [consts; lia|]. intros _ Hj.
    assert (Hok1 : mem_ok (allocated a s)) by now apply mem_ok_allocated.
    destruct (find_page_cases _ Hok1) as [(b & Hb & Hfb & _ & Hfp1)|[_ Hfp1]];
      rewrite Hfp1 in H2; injection H2 as <- <-; [|congruence].
    rewrite mem_get_allocated in Hfb by (try assumption; consts; lia).
    destruct (Z.eq_dec b a) as [->|Hne]; [discriminate|].
    destruct (Z_lt_le_dec a b) as [Hlt|Hge]; [assumption|].
    destruct (Hlow b); [lia | assumption].
  - split; [|congruence]. intros _. rewrite Hfp in H2. now injection H2 as <- <-.
Qed.

Lemma find_page_twice_witness :
  exists s1 s2, find_page fresh = Done (1, s1) /\ find_page s1 = Done (2, s2) /\ 1 < 2.
Proof.
  exists (allocated 1 fresh), (allocated 2 (allocated 1 fresh)).
  assert (H1 : find_page fresh = Done (1, allocated 1 fresh))
    by (vm_compute; reflexivity).
  assert (H2 : find_page (allocated 1 fresh) = Done (2, allocated 2 (allocated 1 fresh)))
    by (vm_compute; reflexivity).
  split; [exact H1|]. split; [exact H2|].
  apply (proj2 (find_page_twice fresh _ _ 1 2 mem_ok_fresh H1 H2)); lia.
Defined.

(** X4: [deallocate_page] on the page [find_page] has just returned gives
    the array back as it was, byte for byte, but [free_page_count] stays
    one lower: nothing ever increments it. *)
Theorem find_page_then_deallocate_page (s s1 : state) (i : Z) :
  mem_ok s -> find_page s = Done (i, s1) -> i <> 255 ->
  exists s2, deallocate_page i s1 = Done s2 /\
    mem s2 = mem s /\
    free_page_count s2 = to_int (free_page_count s - 1) /\
    output s2 = output s.
Proof.
  intros Hok Hfp Hi.
  destruct (find_page_cases s Hok) as [(a & Ha & Hf & _ & Hfa)|[_ Hfa]];
    rewrite Hfa in Hfp; injection Hfp as <- <-; [|congruence].
  unfold deallocate_page. rewrite mem_set_Done by (consts; lia).
  eexists. split; [reflexivity|]. simpl. repeat split.
  rewrite list_insert_insert_eq. apply list_insert_id.
  now apply mem_get_inv in Hf as [_ Hf].
Qed.

Lemma find_page_then_deallocate_page_witness :
  exists s2, deallocate_page 1 (allocated 1 fresh) = Done s2 /\
    mem s2 = mem fresh /\ free_page_count s2 = 62.
Proof.
  destruct (find_page_then_deallocate_page fresh (allocated 1 fresh) 1 mem_ok_fresh)
    as (s2 & Hrun & Hmem & Hcount & _).
  - vm_compute. reflexivity.
  - lia.
  - exists s2. split; [exact Hrun|]. split; [exact Hmem|]. rewrite Hcount. reflexivity.
Defined.

(** * Further properties: store_value and read_value *)

(** Two arrays of the declared size that read the same everywhere are the
    same list. *)
Lemma mem_ext (s s' : state) :
  mem_ok s -> mem_ok s' -> (forall x, mem_get s' x = mem_get s x) -> mem s' = mem s.
Proof.
  intros Hok Hok' H. apply list_eq. intros i.
  destruct (decide (i < Z.to_nat MEM_SIZE)%nat) as [Hlt|Hge].
  - specialize (H (Z.of_nat i)). unfold mem_get in H.
    rewrite (proj2 (in_bounds_true (Z.of_nat i))) in H by lia.
    rewrite Nat2Z.id in H.
    destruct (lookup_lt_is_Some_2 (mem s) i) as [b Hb]; [rewrite Hok; lia|].
    destruct (lookup_lt_is_Some_2 (mem s') i) as [b' Hb']; [rewrite Hok'; lia|].
    rewrite Hb, Hb' in *. congruence.
  - rewrite !lookup_ge_None_2; [reflexivity | rewrite Hok; lia | rewrite Hok'; lia].
Qed.

Lemma store_value_inv (s s' : state) (p va v : Z) :
  mem_ok s -> store_value p va v s = Done s' ->
  exists a, get_physical_address p va s = Done a /\ 0 <= a < MEM_SIZE /\
    mem_get s' a = Done (v mod 256) /\
    (forall x, x <> a -> mem_get s' x = mem_get s x) /\
    free_page_count s' = free_page_count s /\
    output s' = output s ++ [StoreLine p va a v].
Proof.
  intros Hok Hrun. unfold store_value in Hrun.
  destruct (get_physical_address p va s) as [a| |]; try discriminate.
  unfold bind in Hrun.
  destruct (mem_set a v s) as [s1| |] eqn:Hset; try discriminate.
  injection Hrun as <-. exists a. split; [reflexivity|].
  pose proof (mem_set_inv _ _ _ _ Hset) as [Ha Hs1].
  split; [assumption|]. split; [|split].
  - rewrite (mem_get_same_mem s1 (printf s1 _) a eq_refl).
    rewrite (proj2 (mem_get_after_set a v a s s1 Hok Hset)).
    destruct (Z.eq_dec a a); [reflexivity | congruence].
  - intros x Hx. rewrite (mem_get_same_mem s1 (printf s1 _) x eq_refl).
    rewrite (proj2 (mem_get_after_set a v x s s1 Hok Hset)).
    destruct (Z.eq_dec x a); [contradiction | reflexivity].
  - subst s1. split; reflexivity.
Qed.

(** X5: a [store_value] that returns has written one byte, the value
    reduced modulo 256, at the address [get_physical_address] gives; every
    other byte of [mem] and [free_page_count] are as before, and one line has
    been printed. *)
Theorem store_value_writes_one_byte (s s' : state) (p va v : Z) :
  mem_ok s -> store_value p va v s = Done s' ->
  exists a, get_physical_address p va s = Done a /\ 0 <= a < MEM_SIZE /\
    mem_get s' a = Done (v mod 256) /\
    (forall x, x <> a -> mem_get s' x = mem_get s x) /\
    free_page_count s' = free_page_count s /\
    output s' = output s ++ [StoreLine p va a v].
Proof. apply store_value_inv. Qed.

Lemma store_value_writes_one_byte_witness :
  exists a, get_physical_address 2 7 stale_table = Done a /\ 0 <= a < MEM_SIZE /\
    mem_get (state_of (store_value 2 7 300 stale_table)) a = Done (300 mod 256).
Proof.
  destruct (store_value_writes_one_byte stale_table
              (state_of (store_value 2 7 300 stale_table)) 2 7 300)
    as (a & Ha & Hr & Hv & _).
  - vm_compute. reflexivity.
  - apply state_of_done. vm_compute. reflexivity.
  - exists a. auto.
Defined.

(** X6: nothing stops an access through a page-table entry that is 0.  The
    store then lands in page 0, on the bitmap or the process table, at the
    offset of the virtual address, and the load returns the byte of page 0
    at that offset. *)
Theorem access_through_zero_entry (s : state) (p va v pt : Z) :
  mem_ok s -> mem_get s (PAGE_COUNT + p) = Done pt ->
  mem_get s (pt * PAGE_SIZE + Z.shiftr va PAGE_SHIFT) = Done 0 ->
  0 <= Z.land va 255 < PAGE_SIZE /\
  returned (read_value p va s) = mem_get s (Z.land va 255) /\
  exists s', store_value p va v s = Done s' /\
    mem_get s' (Z.land va 255) = Done (v mod 256).
Proof.
  intros Hok Hpt He. pose proof (offset_range va) as Hoff.
  pose proof (get_physical_address_eq s p va pt 0 Hpt He) as Hgpa.
  assert (H0 : get_address 0 (Z.land va 255) = Z.land va 255).
  { rewrite get_address_add by (consts; lia). lia. }
  rewrite H0 in Hgpa. split; [assumption|]. split.
  - unfold read_value. rewrite Hgpa. unfold bind.
    destruct (mem_get_Done s (Z.land va 255) Hok) as [b Hb]; [consts; lia|].
    now rewrite Hb.
  - destruct (store_value p va v s) as [s'| |] eqn:Hst.
    + exists s'. split; [reflexivity|].
      destruct (store_value_inv s s' p va v Hok Hst) as (a & Ha & _ & Hv & _).
      rewrite Hgpa in Ha. injection Ha as <-. exact Hv.
    + unfold store_value in Hst. rewrite Hgpa in Hst. unfold bind in Hst.
      rewrite mem_set_Done in Hst by (consts; lia). discriminate.
    + unfold store_value in Hst. rewrite Hgpa in Hst. unfold bind in Hst.
      rewrite mem_set_Done in Hst by (consts; lia). discriminate.
Qed.

(** Process 2 has one page; address 256 is in its virtual page 1.  The load
    returns [mem[0]] and a store of 0 there unmarks the reserved page. *)
Lemma access_through_zero_entry_witness :
  returned (read_value 2 256 (state_of (ptsim [Np 2 1]))) = Done 1 /\
  exists s', store_value 2 256 0 (state_of (ptsim [Np 2 1])) = Done s' /\
    mem_get s' 0 = Done 0.
Proof.
  destruct (access_through_zero_entry (state_of (ptsim [Np 2 1])) 2 256 0 1)
    as (_ & Hread & s' & Hstore & Hbyte).
  - vm_compute. reflexivity.
  - vm_compute. reflexivity.
  - vm_compute. reflexivity.
  - split.
    + rewrite Hread. vm_compute. reflexivity.
    + exists s'. split; [exact Hstore | exact Hbyte].
Defined.

(** * Further properties: kill *)

Lemma existsb_none (f : Z -> bool) (l : list Z) :
  (forall x, x ∈ l -> f x = false) -> existsb f l = false.
Proof.
  induction l as [|a l IH]; intros H; [reflexivity|]. simpl.
  rewrite (H a) by apply list_elem_of_here.
  apply IH. intros x Hx. apply H. now apply list_elem_of_further.
Qed.

(** The loop of [kill], for any page number of the pool or 0 as page table:
    it ends, and every byte of [mem] is as before or 0. *)
Lemma kill_loop_only_clears (pt : Z) (fuel : nat) (o : Z) (s : state) :
  mem_ok s -> bytes_ok s -> 0 <= pt < PAGE_COUNT -> 0 <= o <= PAGE_SIZE ->
  PAGE_SIZE - o < Z.of_nat fuel ->
  exists s', kill_loop fuel pt o s = Done s' /\ mem_ok s' /\ bytes_ok s' /\
    free_page_count s' = free_page_count s /\ output s' = output s /\
    forall x, mem_get s' x = mem_get s x \/ mem_get s' x = Done 0.
Proof.
  intros Hok Hb Hpt. revert o s Hok Hb.
  induction fuel as [|fuel IH]; intros o s Hok Hb Ho Hfuel; [lia|].
  simpl. destruct (o <? PAGE_SIZE) eqn:E.
  2: { exists s. repeat split; auto. }
  apply Z.ltb_lt in E.
  rewrite get_address_add by (consts; lia).
  set (a := pt * PAGE_SIZE + o).
  destruct (mem_get_Done s a Hok) as [e He]; [subst a; consts; lia|].
  rewrite He. unfold bind. rewrite to_int_small by (consts; lia).
  destruct (e =? 0) eqn:Ee; simpl.
  - apply IH; try assumption; lia.
  - apply Z.eqb_neq in Ee.
    pose proof (bytes_ok_get s a e Hb He) as Her.
    unfold deallocate_page.
    destruct (mem_set e 0 s) as [s1| |] eqn:Hs1.
    2,3: rewrite mem_set_Done in Hs1 by (consts; lia); discriminate.
    destruct (mem_get_after_set e 0 0 s s1 Hok Hs1) as [Hok1 _].
    destruct (mem_set a 0 s1) as [s2| |] eqn:Hs2.
    2,3: rewrite mem_set_Done in Hs2 by (subst a; consts; lia); discriminate.
    destruct (mem_get_after_set a 0 0 s1 s2 Hok1 Hs2) as [Hok2 _].
    destruct (IH (o + 1) s2 Hok2) as (s' & Hrun & Hok' & Hb' & Hc & Hout & Hget);
      try lia.
    { apply (bytes_ok_after_set a 0 s1 s2); [|assumption].
      now apply (bytes_ok_after_set e 0 s s1). }
    exists s'. split; [exact Hrun|]. split; [assumption|]. split; [assumption|].
    split.
    { rewrite Hc. apply mem_set_inv in Hs1 as [_ ->], Hs2 as [_ ->]. reflexivity. }
    split.
    { rewrite Hout. apply mem_set_inv in Hs1 as [_ ->], Hs2 as [_ ->]. reflexivity. }
    intros x. destruct (Hget x) as [Hx|Hx]; [|now right]. rewrite Hx.
    rewrite (proj2 (mem_get_after_set a 0 x s1 s2 Hok1 Hs2)).
    destruct (Z.eq_dec x a); [now right|].
    rewrite (proj2 (mem_get_after_set e 0 x s s1 Hok Hs1)).
    destruct (Z.eq_dec x e); [now right | now left].
Qed.

Lemma kill_only_clears_aux (s : state) (p pt : Z) :
  mem_ok s -> bytes_ok s -> get_page_table p s = Done pt -> 0 <= pt < PAGE_COUNT ->
  exists s', kill p s = Done s' /\ mem_ok s' /\ bytes_ok s' /\
    (forall x, mem_get s' x = mem_get s x \/ mem_get s' x = Done 0) /\
    mem_get s' pt = Done 0 /\
    free_page_count s' = free_page_count s /\ output s' = output s.
Proof.
  intros Hok Hb Hpt Hr. unfold kill. rewrite Hpt. unfold bind.
  destruct (kill_loop_only_clears pt (S (Z.to_nat PAGE_SIZE)) 0 s Hok Hb Hr)
    as (s1 & Hrun & Hok1 & Hb1 & Hc & Hout & Hget); try (consts; lia).
  rewrite Hrun. unfold deallocate_page.
  destruct (mem_set pt 0 s1) as [s'| |] eqn:Hset.
  2,3: rewrite mem_set_Done in Hset by (consts; lia); discriminate.
  pose proof (mem_get_after_set pt 0) as Hafter.
  exists s'. split; [reflexivity|].
  split; [apply (Hafter 0 s1 s' Hok1 Hset)|].
  split; [now apply (bytes_ok_after_set pt 0 s1 s')|].
  split; [|split; [|split]].
  - intros x. rewrite (proj2 (Hafter x s1 s' Hok1 Hset)).
    destruct (Z.eq_dec x pt); [now right | apply Hget].
  - rewrite (proj2 (Hafter pt s1 s' Hok1 Hset)).
    destruct (Z.eq_dec pt pt); [reflexivity | congruence].
  - rewrite <- Hc. apply mem_set_inv in Hset as [_ ->]. reflexivity.
  - rewrite <- Hout. apply mem_set_inv in Hset as [_ ->]. reflexivity.
Qed.

(** X7: [kill] never sets a byte to anything but 0.  Whatever the page
    table holds, as long as the process-table byte is below [PAGE_COUNT]
    (0, for a process never created, included), [kill] runs to its end, every
    byte of [mem] is afterwards what it was or 0, the bitmap byte of the
    page-table page is 0, and [free_page_count] and the output are
    untouched. *)
Theorem kill_only_clears (s : state) (p pt : Z) :
  mem_ok s -> bytes_ok s -> get_page_table p s = Done pt -> 0 <= pt < PAGE_COUNT ->
  exists s', kill p s = Done s' /\
    (forall x, mem_get s' x = mem_get s x \/ mem_get s' x = Done 0) /\
    mem_get s' pt = Done 0 /\
    free_page_count s' = free_page_count s /\ output s' = output s.
Proof.
  intros Hok Hb Hpt Hr.
  destruct (kill_only_clears_aux s p pt Hok Hb Hpt Hr)
    as (s' & Hrun & _ & _ & H).
  exists s'. auto.
Qed.

Lemma kill_only_clears_witness :
  exists s', kill 4 stale_table = Done s' /\ mem_get s' 3 = Done 0 /\
    free_page_count s' = free_page_count stale_table.
Proof.
  destruct (kill_only_clears stale_table 4 3) as (s' & Hrun & _ & Hpt & Hc & _).
  - vm_compute. reflexivity.
  - vm_compute. reflexivity.
  - vm_compute. reflexivity.
  - consts. lia.
  - exists s'. auto.
Defined.

Lemma kill_loop_step (fuel : nat) (pt o : Z) (s : state) (e : Z) :
  o < PAGE_SIZE -> mem_get s (get_address pt o) = Done e -> e <> 0 ->
  kill_loop (S fuel) pt o s =
    (let* s1 := deallocate_page e s in
     let* s2 := mem_set (get_address pt o) 0 s1 in
     kill_loop fuel pt (to_int (o + 1)) s2).
Proof.
  intros Ho He Hne. simpl. rewrite (proj2 (Z.ltb_lt o PAGE_SIZE) Ho), He.
  unfold bind at 1. rewrite (proj2 (Z.eqb_neq e 0) Hne). reflexivity.
Qed.

(** The first turn of the loop of [kill] on page 0 when [mem[0]] is 1
    clears bitmap byte 1, and nothing sets it again. *)
Lemma kill_loop_on_page_0 (n : nat) (s s1 : state) :
  mem_ok s -> bytes_ok s -> PAGE_SIZE - 1 < Z.of_nat n ->
  mem_get s 0 = Done 1 -> kill_loop (S n) 0 0 s = Done s1 ->
  mem_ok s1 /\ mem_get s1 1 = Done 0.
Proof.
  intros Hok Hb Hn Hres Hrun.
  rewrite (kill_loop_step n 0 0 s 1) in Hrun; [| consts; lia | exact Hres | lia].
  change (get_address 0 0) with 0 in Hrun. unfold deallocate_page in Hrun.
  destruct (mem_set 1 0 s) as [t1| |] eqn:Ht1; try discriminate.
  unfold bind at 1 in Hrun.
  destruct (mem_set 0 0 t1) as [t2| |] eqn:Ht2; try discriminate.
  unfold bind at 1 in Hrun.
  destruct (mem_get_after_set 1 0 1 s t1 Hok Ht1) as [Hok1 Hg1].
  destruct (mem_get_after_set 0 0 1 t1 t2 Hok1 Ht2) as [Hok2 Hg2].
  assert (H1 : mem_get t2 1 = Done 0).
  { rewrite Hg2. destruct (Z.eq_dec 1 0); [lia|]. rewrite Hg1.
    destruct (Z.eq_dec 1 1); [reflexivity | congruence]. }
  assert (Hb2 : bytes_ok t2).
  { apply (bytes_ok_after_set 0 0 t1 t2); [|assumption].
    now apply (bytes_ok_after_set 1 0 s t1). }
  rewrite to_int_small in Hrun by lia.
  destruct (kill_loop_only_clears 0 n (0 + 1) t2 Hok2 Hb2)
    as (s3 & Hloop & Hok3 & _ & _ & _ & Hget3); try (consts; lia).
  rewrite Hloop in Hrun. injection Hrun as <-. split; [assumption|].
  destruct (Hget3 1) as [H|H]; rewrite H; [exact H1 | reflexivity].
Qed.

(** X8: [kill] does not check that the process exists.  When its
    process-table byte is 0, page 0 is walked as if it were the page table:
    [mem[0]] ends up 0, and if it was 1 the bitmap byte of page 1 is cleared
    as well, whoever owns that page. *)
Theorem kill_of_absent_process (s : state) (p : Z) :
  mem_ok s -> bytes_ok s -> get_page_table p s = Done 0 ->
  exists s', kill p s = Done s' /\ mem_get s' 0 = Done 0 /\
    (mem_get s 0 = Done 1 -> mem_get s' 1 = Done 0).
Proof.
  intros Hok Hb Hpt.
  destruct (kill_only_clears_aux s p 0 Hok Hb Hpt) as (s' & Hrun & _ & _ & _ & H0 & _);
    [consts; lia|].
  exists s'. split; [exact Hrun|]. split; [exact H0|].
  intros Hres. unfold kill in Hrun. rewrite Hpt in Hrun. unfold bind at 1 in Hrun.
  destruct (kill_loop (S (Z.to_nat PAGE_SIZE)) 0 0 s) as [s1| |] eqn:Hloop;
    try discriminate.
  unfold bind in Hrun.
  destruct (kill_loop_on_page_0 (Z.to_nat PAGE_SIZE) s s1 Hok Hb
              ltac:(consts; lia) Hres Hloop)
    as [Hok1 H1].
  destruct (mem_get_after_set 0 0 1 s1 s' Hok1 Hrun) as [_ Hg'].
  rewrite Hg'. destruct (Z.eq_dec 1 0); [lia | exact H1].
Qed.

(** In the starting state no process exists: [kp 9] unmarks the reserved
    page. *)
Lemma kill_of_absent_process_witness :
  exists s', kill 9 fresh = Done s' /\ mem_get s' 0 = Done 0.
Proof.
  destruct (kill_of_absent_process fresh 9 mem_ok_fresh bytes_ok_fresh)
    as (s' & Hrun & H0 & _).
  - vm_compute. reflexivity.
  - exists s'. auto.
Defined.

(** X9: for a process number [p] in [0, PAGE_SIZE - PAGE_COUNT), whose
    process-table byte [mem[PAGE_COUNT + p]] lies in page 0, in a state of
    [MEM_SIZE] byte cells in which that byte names a page [pt] of the pool
    and no byte of page [pt] holds the index [PAGE_COUNT + p] (which [kill]
    would clear as a bitmap byte): [kill] leaves the process-table byte as
    it is, and a second [kill] of the same process right after the first
    changes nothing: it finds a page table of zeros and clears a bitmap
    byte that is already 0. *)
Theorem kill_twice (s : state) (p pt : Z) :
  mem_ok s -> bytes_ok s -> 0 <= p < PAGE_SIZE - PAGE_COUNT ->
  get_page_table p s = Done pt -> 1 <= pt < PAGE_COUNT ->
  referenced s pt 0 PAGE_SIZE (PAGE_COUNT + p) = false ->
  exists s1 s2, kill p s = Done s1 /\ get_page_table p s1 = Done pt /\
    kill p s1 = Done s2 /\ mem s2 = mem s1 /\
    free_page_count s2 = free_page_count s /\ output s2 = output s.
Proof.
  intros Hok Hb Hp Hpt Hr Href.
  destruct (kill_spec s p pt Hok Hb Hpt Hr)
    as (s1 & Hrun1 & Hok1 & Hb1 & Hc1 & Hout1 & Hget1).
  assert (Hpt1 : get_page_table p s1 = Done pt).
  { unfold get_page_table. rewrite Hget1, Href, andb_false_r.
    destruct (Z.eq_dec _ pt); [consts; lia|]. unfold in_table_from.
    rewrite (proj2 (Z.leb_gt _ _)) by (consts; lia). exact Hpt. }
  destruct (kill_spec s1 p pt Hok1 Hb1 Hpt1 Hr)
    as (s2 & Hrun2 & Hok2 & _ & Hc2 & Hout2 & Hget2).
  exists s1, s2. repeat split; try assumption; try congruence.
  apply (mem_ext s1 s2 Hok1 Hok2). intros x. rewrite Hget2.
  destruct (Z.eq_dec x pt) as [->|Hne].
  { rewrite Hget1. destruct (Z.eq_dec pt pt); [reflexivity | congruence]. }
  destruct (in_table_from pt 0 x) eqn:Ein.
  { rewrite Hget1, Ein. destruct (Z.eq_dec x pt); [contradiction | reflexivity]. }
  assert (Hnr : (0 <? x) && (x <? PAGE_SIZE) && referenced s1 pt 0 PAGE_SIZE x = false).
  { destruct (Z.ltb_spec 0 x) as [Hpos|Hnpos]; [|reflexivity].
    assert (Hno : referenced s1 pt 0 PAGE_SIZE x = false).
    { unfold referenced. apply existsb_none. intros o Ho.
      apply elem_of_seqZ in Ho. unfold entry_is. rewrite Hget1.
      destruct (Z.eq_dec _ pt); [consts; lia|]. unfold in_table_from.
      rewrite (proj2 (Z.leb_le _ _)), (proj2 (Z.ltb_lt _ _)) by lia.
      change ((0 =? x) = false). apply Z.eqb_neq. lia. }
    rewrite Hno. apply andb_false_r. }
  rewrite Hnr. reflexivity.
Qed.

Lemma kill_twice_witness :
  exists s1 s2, kill 4 stale_table = Done s1 /\ get_page_table 4 s1 = Done 3 /\
    kill 4 s1 = Done s2 /\ mem s2 = mem s1.
Proof.
  destruct (kill_twice stale_table 4 3) as (s1 & s2 & H1 & Hpt & H2 & Hmem & _).
  - vm_compute. reflexivity.
  - vm_compute. reflexivity.
  - consts. lia.
  - vm_compute. reflexivity.
  - consts. lia.
  - vm_compute. reflexivity.
  - exists s1, s2. auto.
Defined.

(** * Further properties: new_process and the counter *)

(** An address [get_address] builds from a non-zero page number is, when
    it is not negative, past page 0. *)
Lemma get_address_high (page offset : Z) :
  page <> 0 -> 0 <= get_address page offset -> PAGE_SIZE <= get_address page offset.
Proof.
  intros Hp Hnn. unfold get_address in *.
  apply Z.lor_nonneg in Hnn as [Hs Ho].
  apply Z.shiftl_nonneg in Hs.
  set (x := Z.lor (Z.shiftl page PAGE_SHIFT) offset).
  assert (Hx : 0 <= x) by (apply Z.lor_nonneg; split; [apply Z.shiftl_nonneg|]; assumption).
  assert (Hhi : Z.shiftr x PAGE_SHIFT <> 0).
  { unfold x. rewrite Z.shiftr_lor, Z.shiftr_shiftl_l by (consts; lia).
    rewrite Z.sub_diag, Z.shiftl_0_r. intros H.
    apply Z.lor_eq_0_iff in H as [H _]. contradiction. }
  destruct (Z_lt_le_dec x PAGE_SIZE) as [Hlt|Hge]; [|assumption].
  exfalso. apply Hhi. rewrite Z.shiftr_div_pow2 by (consts; lia).
  apply Z.div_small. consts. change (2 ^ 8) with 256. lia.
Qed.

Lemma free_pages_after_set (a v : Z) (s s' : state) :
  mem_ok s -> mem_set a v s = Done s' -> PAGE_COUNT <= a ->
  mem_ok s' /\ free_pages s' = free_pages s /\
  free_page_count s' = free_page_count s.
Proof.
  intros Hok Hset Ha.
  pose proof (mem_get_after_set a v) as Hafter.
  split; [apply (Hafter 0 s s' Hok Hset)|]. split.
  - apply free_pages_frame. intros x Hx.
    rewrite (proj2 (Hafter x s s' Hok Hset)).
    destruct (Z.eq_dec x a); [lia | reflexivity].
  - apply mem_set_inv in Hset as [_ ->]. reflexivity.
Qed.

(** The counter and the bitmap move together in [find_page]. *)
Lemma find_page_counts (s s' : state) (i : Z) :
  mem_ok s ->
  -2147483648 <= free_page_count s - Z.of_nat (free_pages s) ->
  free_page_count s < 2147483648 ->
  find_page s = Done (i, s') ->
  mem_ok s' /\ i <> 0 /\ 0 <= i /\
  free_page_count s' - Z.of_nat (free_pages s') =
    free_page_count s - Z.of_nat (free_pages s) /\
  free_page_count s' <= free_page_count s.
Proof.
  intros Hok Hlo Hhi Hrun.
  destruct (find_page_cases s Hok) as [(j & Hj & Hf & _ & Hfp)|[_ Hfp]];
    rewrite Hfp in Hrun; injection Hrun as <- <-.
  - pose proof (free_pages_allocated j s Hok Hj Hf) as Hfree.
    split; [now apply mem_ok_allocated|]. split; [lia|]. split; [lia|].
    simpl free_page_count. rewrite to_int_small by lia. lia.
  - repeat split; try assumption; lia.
Qed.

Lemma new_process_loop_counts (fuel : nat) (pt k j : Z) (s s' : state) :
  pt <> 0 -> mem_ok s ->
  -2147483648 <= free_page_count s - Z.of_nat (free_pages s) ->
  free_page_count s < 2147483648 ->
  new_process_loop fuel pt k j s = Done s' ->
  mem_ok s' /\
  free_page_count s' - Z.of_nat (free_pages s') =
    free_page_count s - Z.of_nat (free_pages s) /\
  free_page_count s' <= free_page_count s.
Proof.
  intros Hpt. revert j s.
  induction fuel as [|fuel IH]; intros j s Hok Hlo Hhi Hrun; [discriminate|].
  simpl in Hrun. destruct (j <? k).
  2: { injection Hrun as <-. repeat split; try assumption; lia. }
  destruct (find_page s) as [[d s1]| |] eqn:Hfp; try discriminate.
  destruct (find_page_counts s s1 d Hok Hlo Hhi Hfp) as (Hok1 & _ & _ & Hd1 & Hle1).
  unfold bind in Hrun.
  destruct (mem_set (get_address pt j) d s1) as [s2| |] eqn:Hset; try discriminate.
  pose proof (mem_set_inv _ _ _ _ Hset) as [Hb _].
  pose proof (get_address_high pt j Hpt ltac:(lia)) as Hhigh.
  destruct (free_pages_after_set _ _ s1 s2 Hok1 Hset) as (Hok2 & Hf2 & Hc2);
    [consts; lia|].
  destruct (IH (to_int (j + 1)) s2 Hok2) as (Hok' & Hd' & Hle'); try assumption;
    rewrite ?Hf2, ?Hc2 in *; try lia.
  repeat split; [assumption | |]; lia.
Qed.

Lemma new_process_counts (s s' : state) (p k : Z) :
  mem_ok s -> 0 <= p ->
  -2147483648 <= free_page_count s - Z.of_nat (free_pages s) ->
  free_page_count s < 2147483648 ->
  new_process p k s = Done s' ->
  mem_ok s' /\
  free_page_count s' - Z.of_nat (free_pages s') =
    free_page_count s - Z.of_nat (free_pages s) /\
  free_page_count s' <= free_page_count s.
Proof.
  intros Hok Hp Hlo Hhi Hrun. unfold new_process in Hrun.
  destruct (free_page_count s <? k).
  { injection Hrun as <-. split; [now apply (mem_ok_same_mem s)|].
    rewrite (free_pages_frame s (printf s _)); [simpl; lia|].
    intros x _. now apply mem_get_same_mem. }
  destruct (find_page s) as [[pt s1]| |] eqn:Hfp; try discriminate.
  destruct (find_page_counts s s1 pt Hok Hlo Hhi Hfp) as (Hok1 & Hpt & _ & Hd1 & Hle1).
  unfold bind in Hrun.
  destruct (mem_set (PAGE_COUNT + p) pt s1) as [s2| |] eqn:Hset; try discriminate.
  destruct (free_pages_after_set _ _ s1 s2 Hok1 Hset) as (Hok2 & Hf2 & Hc2); [lia|].
  destruct (new_process_loop_counts (S (Z.to_nat k)) pt k 0 s2 s' Hpt Hok2)
    as (Hok' & Hd' & Hle'); try assumption; rewrite ?Hf2, ?Hc2 in *; try lia.
  repeat split; [assumption | |]; lia.
Qed.

(** X10: for a process number that is not negative (its process-table
    byte is then not one of the bitmap bytes), on an array of [MEM_SIZE]
    cells, with [free_page_count] below [2^31] and not below the number of
    zero bitmap bytes by more than [2^31]: a [new_process] that returns has
    lowered [free_page_count] by exactly the number of bitmap bytes it has
    set, whether it is turned away by the pre-check, creates the whole
    process or runs out of pages on the way.  The difference between the
    counter and the number of zero bytes of the bitmap is the same before
    and after, and the counter has not gone up. *)
Theorem new_process_keeps_counter_in_step (s s' : state) (p k : Z) :
  mem_ok s -> 0 <= p ->
  -2147483648 <= free_page_count s - Z.of_nat (free_pages s) ->
  free_page_count s < 2147483648 ->
  new_process p k s = Done s' ->
  free_page_count s' - Z.of_nat (free_pages s') =
    free_page_count s - Z.of_nat (free_pages s) /\
  free_page_count s' <= free_page_count s.
Proof.
  intros Hok Hp Hlo Hhi Hrun.
  now destruct (new_process_counts s s' p k Hok Hp Hlo Hhi Hrun) as (_ & H).
Qed.

(** [np 1 63] in the starting state runs out of pages at the last data page:
    the counter and the bitmap both end at 0. *)
Lemma new_process_keeps_counter_in_step_witness :
  free_page_count (state_of (new_process 1 63 fresh)) -
    Z.of_nat (free_pages (state_of (new_process 1 63 fresh))) = 63 - 63.
Proof.
  assert (Hfree : free_pages fresh = 63%nat) by (vm_compute; reflexivity).
  replace (63 - 63) with (free_page_count fresh - Z.of_nat (free_pages fresh))
    by (rewrite Hfree; reflexivity).
  apply (new_process_keeps_counter_in_step fresh _ 1 63 mem_ok_fresh).
  - lia.
  - rewrite Hfree. simpl. consts. lia.
  - simpl. consts. lia.
  - apply state_of_done. vm_compute. reflexivity.
Defined.

Lemma store_value_counts (s s' : state) (p va v : Z) :
  mem_ok s -> is_mapped p va s = true -> store_value p va v s = Done s' ->
  mem_ok s' /\ free_pages s' = free_pages s /\
  free_page_count s' = free_page_count s.
Proof.
  intros Hok Hm Hrun. unfold is_mapped in Hm.
  unfold store_value, get_physical_address in Hrun.
  destruct (get_page_table p s) as [pt| |]; try discriminate.
  unfold bind in Hrun.
  destruct (mem_get s (to_int (get_address pt 0 + Z.shiftr va 8))) as [e| |];
    try discriminate.
  apply negb_true_iff, Z.eqb_neq in Hm.
  destruct (mem_set (get_address e (Z.land va 255)) v s) as [s1| |] eqn:Hset;
    try discriminate.
  injection Hrun as <-.
  pose proof (mem_set_inv _ _ _ _ Hset) as [Hb _].
  pose proof (get_address_high e (Z.land va 255) Hm ltac:(lia)) as Hhigh.
  destruct (free_pages_after_set _ _ s s1 Hok Hset) as (Hok1 & Hf1 & Hc1);
    [consts; lia|].
  split; [now apply (mem_ok_same_mem s1)|]. split; [|exact Hc1].
  rewrite <- Hf1. apply free_pages_frame. intros x _. now apply mem_get_same_mem.
Qed.

(** X11: as long as nothing is killed, [free_page_count] is the number of
    zero bytes of the bitmap in [1, PAGE_COUNT): this holds after every
    sequence of [np], [sb] and [lb] commands that respects the contract,
    from any state in which it holds, the starting state among them. *)
Theorem counter_matches_bitmap_without_kill (cs : list command) (s0 s : state) :
  mem_ok s0 -> free_page_count s0 = Z.of_nat (free_pages s0) ->
  no_kill cs = true -> respecting cs s0 = true -> run cs s0 = Done s ->
  free_page_count s = Z.of_nat (free_pages s).
Proof.
  revert s0. induction cs as [|c cs IH]; intros s0 Hok Heq Hnk Hcs Hrun.
  - injection Hrun as <-. exact Heq.
  - simpl in Hnk, Hcs, Hrun.
    apply andb_true_iff in Hnk as [Hc Hnk]. apply andb_true_iff in Hcs as [Hr Hcs].
    destruct (exec c s0) as [s1| |] eqn:Hexec; try discriminate.
    unfold bind in Hrun. pose proof (free_pages_le s0) as Hle.
    assert (H1 : mem_ok s1 /\ free_page_count s1 = Z.of_nat (free_pages s1)).
    { destruct c as [p k|p|p va v|p va]; simpl in Hexec, Hr; try discriminate.
      - apply Z.leb_le in Hr.
        destruct (new_process_counts s0 s1 p k Hok Hr) as (Hok1 & Hd & _);
          try assumption; try lia. split; [assumption | lia].
      - apply andb_true_iff in Hr as [_ Hm].
        destruct (store_value_counts s0 s1 p va v Hok Hm Hexec) as (Hok1 & Hf & Hc1).
        split; [assumption|]. now rewrite Hf, Hc1.
      - destruct (read_value p va s0) as [[b t]| |] eqn:Hread; try discriminate.
        injection Hexec as <-. unfold read_value in Hread.
        destruct (get_physical_address p va s0) as [a| |]; try discriminate.
        unfold bind in Hread. destruct (mem_get s0 a) as [x| |]; try discriminate.
        injection Hread as <- <-. split; [now apply (mem_ok_same_mem s0)|].
        rewrite (free_pages_frame s0 (printf s0 _)); [exact Heq|].
        intros y _. now apply mem_get_same_mem. }
    destruct H1 as [Hok1 Heq1]. now apply (IH s1).
Qed.

Lemma counter_matches_bitmap_without_kill_witness :
  free_page_count (state_of (run [Np 1 2; Sb 1 300 9; Np 2 70; Np 3 4; Lb 1 300] fresh)) =
  Z.of_nat (free_pages (state_of (run [Np 1 2; Sb 1 300 9; Np 2 70; Np 3 4; Lb 1 300] fresh))).
Proof.
  apply (counter_matches_bitmap_without_kill
           [Np 1 2; Sb 1 300 9; Np 2 70; Np 3 4; Lb 1 300] fresh _ mem_ok_fresh).
  - vm_compute. reflexivity.
  - reflexivity.
  - vm_compute. reflexivity.
  - apply state_of_done. vm_compute. reflexivity.
Defined.

(** X12: [new_process] does not clear the data pages it hands out.  For a
    process number [p] in [0, PAGE_SIZE - PAGE_COUNT), whose process-table
    byte lies in page 0, on an array of [MEM_SIZE] cells, with
    [0 <= k <= free_page_count] and at least [k + 1] zero bitmap bytes in
    [1, PAGE_COUNT): after [new_process p k] the load of an address whose
    virtual page is in [0, k) returns the byte that was at that offset of
    the data page before the creation, whoever wrote it; the data page is a
    page of the pool that was free. *)
Theorem new_process_keeps_page_contents (s : state) (p k va : Z) :
  mem_ok s -> 0 <= p < PAGE_SIZE - PAGE_COUNT ->
  0 <= k <= free_page_count s -> k + 1 <= Z.of_nat (free_pages s) ->
  0 <= Z.shiftr va PAGE_SHIFT < k ->
  exists s1 d, new_process p k s = Done s1 /\
    1 <= d < PAGE_COUNT /\ mem_get s d = Done 0 /\
    get_physical_address p va s1 = Done (d * PAGE_SIZE + Z.land va 255) /\
    returned (read_value p va s1) = mem_get s (d * PAGE_SIZE + Z.land va 255).
Proof.
  intros Hok Hp Hk Hroom Hva.
  pose proof (free_pages_le s) as Hle. pose proof (offset_range va) as Hoff.
  destruct (new_process_full p k s Hok Hp Hk Hroom)
    as (s1 & pt & Hnew & Hptr & _ & (Hok1 & Hpt & _ & Hfilled & Hframe & _) & _).
  destruct (Hfilled _ Hva) as (d & Hd & Hdr & Hne & Hfree & _).
  pose proof (get_physical_address_eq s1 p va pt d Hpt Hd) as Hgpa.
  rewrite get_address_add in Hgpa by (consts; lia).
  exists s1, d. repeat split; try assumption; try lia.
  unfold read_value. rewrite Hgpa. unfold bind.
  rewrite Hframe by (consts; nia).
  destruct (mem_get_Done s (d * PAGE_SIZE + Z.land va 255) Hok) as [b Hb];
    [consts; lia|].
  now rewrite Hb.
Qed.

(** Process 1 stores 5 at address 356, in its data page 3, and is killed;
    process 3 then gets page 3 as the data page of its virtual page 1 and
    loads the 5 from address 356. *)
Lemma new_process_keeps_page_contents_witness :
  exists s1, new_process 3 2 (state_of (ptsim [Np 1 2; Sb 1 356 5; Kp 1])) = Done s1 /\
    returned (read_value 3 356 s1) = Done 5.
Proof.
  destruct (new_process_keeps_page_contents
              (state_of (ptsim [Np 1 2; Sb 1 356 5; Kp 1])) 3 2 356)
    as (s1 & d & Hnew & Hd & _ & Hgpa & Hread).
  - vm_compute. reflexivity.
  - consts. lia.
  - vm_compute. split; discriminate.
  - vm_compute. discriminate.
  - change (0 <= 1 < 2). lia.
  - exists s1. split; [exact Hnew|]. rewrite Hread.
    assert (Hd3 : d = 3).
    { assert (H : get_physical_address 3 356
                    (state_of (new_process 3 2 (state_of (ptsim [Np 1 2; Sb 1 356 5; Kp 1]))))
                  = Done 868) by (vm_compute; reflexivity).
      rewrite Hnew in H. simpl state_of in H. rewrite Hgpa in H.
      injection H as H. change (Z.land 356 255) with 100 in H. consts. lia. }
    subst d. vm_compute. reflexivity.
Defined.

(** * Further properties: a creation that runs out of pages *)

Lemma free_pages_zero (s : state) (x : Z) :
  free_pages s = 0%nat -> 1 <= x < PAGE_COUNT -> mem_get s x <> Done 0.
Proof.
  intros H0 Hx Hfree. unfold free_pages in H0.
  assert (Hin : In x (List.filter (is_free s) (seqZ 1 (PAGE_COUNT - 1)))).
  { apply List.filter_In. split.
    - apply list_elem_of_In, elem_of_seqZ. lia.
    - now apply is_free_true. }
  destruct (List.filter (is_free s) (seqZ 1 (PAGE_COUNT - 1))); [inversion Hin | discriminate].
Qed.

Lemma new_process_loop_unfold (fuel : nat) (pt k j : Z) (s : state) :
  j < k ->
  new_process_loop (S fuel) pt k j s =
    (let* '(d, s1) := find_page s in
     let* s2 := mem_set (get_address pt j) d s1 in
     new_process_loop fuel pt k (to_int (j + 1)) s2).
Proof. intros H. simpl. now rewrite (proj2 (Z.ltb_lt j k) H). Qed.

(** One turn of the loop of [new_process] when the bitmap has a free page. *)
Lemma built_step (s0 : state) (p pt j : Z) (s : state) :
  0 <= p < PAGE_SIZE - PAGE_COUNT -> 1 <= pt < PAGE_COUNT -> 0 <= j < PAGE_COUNT ->
  (1 <= free_pages s)%nat -> built s0 p pt j s ->
  exists d s2, find_page s = Done (d, allocated d s) /\
    mem_set (get_address pt j) d (allocated d s) = Done s2 /\
    built s0 p pt (j + 1) s2 /\
    Z.of_nat (free_pages s2) = Z.of_nat (free_pages s) - 1.
Proof.
  intros Hp Hpt Hj Hroom Hbuilt.
  destruct (new_process_loop_full s0 p pt (j + 1) 2 j s Hp Hpt)
    as (s' & Hrun & Hbuilt' & Hroom' & _); try assumption; try lia.
  rewrite new_process_loop_unfold in Hrun by lia.
  destruct (find_page_some_free s (proj1 Hbuilt)) as (d & Hd & Hfree & Hfp); [lia|].
  rewrite Hfp in Hrun. unfold bind at 1 in Hrun.
  destruct (mem_set (get_address pt j) d (allocated d s)) as [s2| |] eqn:Hset;
    try discriminate.
  unfold bind in Hrun. simpl in Hrun.
  rewrite to_int_small in Hrun by (consts; lia).
  rewrite Z.ltb_irrefl in Hrun. injection Hrun as <-.
  exists d, s2. split; [exact Hfp|]. split; [exact Hset|].
  split; [exact Hbuilt'|]. lia.
Qed.

(** The loop of [new_process] when the bitmap has one page less than the
    loop still needs. *)
Lemma new_process_loop_short (s0 : state) (p pt k : Z) (fuel : nat) (j : Z) (s : state) :
  0 <= p < PAGE_SIZE - PAGE_COUNT -> 1 <= pt < PAGE_COUNT ->
  k <= PAGE_COUNT -> 0 <= j < k ->
  k - j < Z.of_nat fuel -> Z.of_nat (free_pages s) = k - j - 1 ->
  built s0 p pt j s ->
  exists s1 s', new_process_loop fuel pt k j s = Done s' /\
    built s0 p pt (k - 1) s1 /\ free_pages s1 = 0%nat /\
    mem_set (pt * PAGE_SIZE + (k - 1)) 255 s1 = Done s'.
Proof.
  intros Hp Hpt Hk. revert j s.
  induction fuel as [|fuel IH]; intros j s Hj Hfuel Hroom Hbuilt; [lia|].
  rewrite new_process_loop_unfold by lia.
  destruct (Z.eq_dec j (k - 1)) as [->|Hne].
  - assert (H0 : free_pages s = 0%nat) by lia.
    rewrite (find_page_none s (proj1 Hbuilt)) by (intros x Hx; now apply free_pages_zero).
    unfold bind at 1. rewrite get_address_add by (consts; lia).
    destruct (mem_set (pt * PAGE_SIZE + (k - 1)) 255 s) as [s'| |] eqn:Hset.
    2,3: rewrite mem_set_Done in Hset by (consts; lia); discriminate.
    unfold bind. rewrite to_int_small by (consts; lia).
    exists s, s'. split; [|auto].
    destruct fuel as [|fuel]; [lia|]. simpl.
    replace (k - 1 + 1 <? k) with false by (symmetry; apply Z.ltb_ge; lia).
    reflexivity.
  - destruct (built_step s0 p pt j s Hp Hpt) as (d & s2 & Hfp & Hset & Hbuilt2 & Hroom2);
      try assumption; try lia.
    rewrite Hfp. unfold bind at 1. rewrite Hset. unfold bind.
    rewrite to_int_small by (consts; lia).
    apply IH; try assumption; lia.
Qed.

Lemma find_page_output (s s' : state) (i : Z) :
  mem_ok s -> find_page s = Done (i, s') -> mem_ok s' /\ output s' = output s.
Proof.
  intros Hok Hrun.
  destruct (find_page_returns s s' i Hok Hrun) as [[_ ->]|[_ ->]].
  - split; [now apply mem_ok_allocated | reflexivity].
  - now split.
Qed.

Lemma new_process_loop_output (fuel : nat) (pt k j : Z) (s s' : state) :
  mem_ok s -> new_process_loop fuel pt k j s = Done s' -> output s' = output s.
Proof.
  revert j s. induction fuel as [|fuel IH]; intros j s Hok Hrun; [discriminate|].
  simpl in Hrun. destruct (j <? k); [|now injection Hrun as <-].
  destruct (find_page s) as [[d s1]| |] eqn:Hfp; try discriminate.
  destruct (find_page_output s s1 d Hok Hfp) as [Hok1 Ho1].
  unfold bind in Hrun.
  destruct (mem_set (get_address pt j) d s1) as [s2| |] eqn:Hset; try discriminate.
  rewrite (IH (to_int (j + 1)) s2); [| |exact Hrun].
  - rewrite <- Ho1. apply mem_set_inv in Hset as [_ ->]. reflexivity.
  - apply (mem_get_after_set _ _ 0 s1 s2 Hok1 Hset).
Qed.

(** X13: the pre-check of [new_process] counts the data pages but not the
    page table.  For a process number [p] in [0, PAGE_SIZE - PAGE_COUNT),
    whose process-table byte lies in page 0, on an array of [MEM_SIZE]
    cells: when the bitmap has exactly [k] zero bytes in [1, PAGE_COUNT)
    and [1 <= k <= free_page_count], [new_process p k] is not turned away:
    it takes one page of the pool as page table and pages of the pool for
    the entries [0, k - 1), and writes 0xff, the failure value of
    [find_page], as entry [k - 1].  Nothing is undone and no message is
    printed; the bitmap is left without a free page. *)
Theorem new_process_one_page_short (s : state) (p k : Z) :
  mem_ok s -> 0 <= p < PAGE_SIZE - PAGE_COUNT ->
  1 <= k <= free_page_count s -> Z.of_nat (free_pages s) = k ->
  exists s' pt, new_process p k s = Done s' /\
    mem_get s' (PAGE_COUNT + p) = Done pt /\ 1 <= pt < PAGE_COUNT /\
    (forall v, 0 <= v < k - 1 ->
       exists d, mem_get s' (pt * PAGE_SIZE + v) = Done d /\ 1 <= d < PAGE_COUNT) /\
    mem_get s' (pt * PAGE_SIZE + (k - 1)) = Done 255 /\
    free_pages s' = 0%nat /\ output s' = output s.
Proof.
  intros Hok Hp Hk Hfree. pose proof (free_pages_le s) as Hle.
  destruct (new_process_full p 0 s Hok Hp) as
    (s2 & pt & Hnew0 & Hpt & _ & Hbuilt2 & Hroom2 & _); try lia.
  unfold new_process in Hnew0 |- *.
  rewrite (proj2 (Z.ltb_ge (free_page_count s) 0)) in Hnew0 by lia.
  rewrite (proj2 (Z.ltb_ge (free_page_count s) k)) by lia.
  destruct (find_page s) as [[pt' s1]| |] eqn:Hfp; try discriminate.
  unfold bind at 1 in Hnew0. unfold bind at 1.
  destruct (mem_set (PAGE_COUNT + p) pt' s1) as [t| |] eqn:Hset; try discriminate.
  unfold bind in Hnew0. simpl in Hnew0. injection Hnew0 as ->.
  assert (Hpt' : pt' = pt).
  { destruct Hbuilt2 as (Hok2 & Hentry & _).
    destruct (find_page_returns s s1 pt' Hok Hfp) as [[Hr ->]|[-> ->]].
    - pose proof (mem_get_after_set _ _ (PAGE_COUNT + p) _ _
                    (mem_ok_allocated pt' s Hok) Hset) as [_ Hg].
      rewrite Hentry in Hg. destruct (Z.eq_dec _ _); [|congruence].
      rewrite to_uchar_small in Hg by (consts; lia). congruence.
    - pose proof (mem_get_after_set _ _ (PAGE_COUNT + p) _ _ Hok Hset) as [_ Hg].
      rewrite Hentry in Hg. destruct (Z.eq_dec _ _); [|congruence].
      change (to_uchar 255) with 255 in Hg. injection Hg as ->. consts. lia. }
  subst pt'. unfold bind.
  destruct (new_process_loop_short s p pt k (S (Z.to_nat k)) 0 s2 Hp Hpt)
    as (t1 & s' & Hrun & Hbuilt1 & Hzero & Hlast); try assumption;
    try (consts; lia).
  rewrite Hrun. exists s', pt. split; [reflexivity|].
  destruct Hbuilt1 as (Hok1 & Hentry1 & _ & Hfilled1 & _ & _).
  assert (Hget : forall x, mem_get s' x =
            if Z.eq_dec x (pt * PAGE_SIZE + (k - 1)) then Done 255 else mem_get t1 x).
  { intros x. apply (mem_get_after_set _ 255 x t1 s' Hok1 Hlast). }
  split; [|split; [assumption|split; [|split; [|split]]]].
  - rewrite Hget. destruct (Z.eq_dec _ _); [consts; lia | assumption].
  - intros v Hv. destruct (Hfilled1 v Hv) as (d & Hd & Hdr & _).
    exists d. split; [|assumption]. rewrite Hget.
    destruct (Z.eq_dec _ _); [lia | assumption].
  - rewrite Hget. destruct (Z.eq_dec _ _); [reflexivity | congruence].
  - rewrite <- Hzero. apply free_pages_frame. intros x Hx. rewrite Hget.
    destruct (Z.eq_dec _ _); [consts; lia | reflexivity].
  - rewrite (new_process_loop_output _ pt k 0 s2 s' (proj1 Hbuilt2) Hrun).
    destruct (find_page_output s s1 pt Hok Hfp) as [_ <-].
    apply mem_set_inv in Hset as [_ ->]. reflexivity.
Qed.

Lemma new_process_one_page_short_witness :
  exists s', new_process 1 63 fresh = Done s' /\
    mem_get s' (1 * PAGE_SIZE + 62) = Done 255 /\ free_pages s' = 0%nat.
Proof.
  destruct (new_process_one_page_short fresh 1 63 mem_ok_fresh)
    as (s' & pt & Hnew & Hpt & _ & _ & Hlast & Hzero & _).
  - consts. lia.
  - simpl. consts. lia.
  - vm_compute. reflexivity.
  - exists s'. split; [exact Hnew|]. split; [|exact Hzero].
    assert (H : get_page_table 1 (state_of (new_process 1 63 fresh)) = Done 1)
      by (vm_compute; reflexivity).
    rewrite Hnew in H. simpl state_of in H. unfold get_page_table in H.
    rewrite Hpt in H. injection H as ->. exact Hlast.
Defined.

(** * Further properties: a process created and then killed *)

(** The first two statements of [new_process] past the pre-check, when the
    bitmap has a free page. *)
Lemma new_process_start (s : state) (p : Z) :
  mem_ok s -> 0 <= p < PAGE_SIZE - PAGE_COUNT -> (1 <= free_pages s)%nat ->
  exists pt s2,
    (forall k, k <= free_page_count s ->
       new_process p k s = new_process_loop (S (Z.to_nat k)) pt k 0 s2) /\
    1 <= pt < PAGE_COUNT /\ mem_get s pt = Done 0 /\ mem_ok s2 /\
    free_page_count s2 = to_int (free_page_count s - 1) /\
    Z.of_nat (free_pages s2) = Z.of_nat (free_pages s) - 1 /\
    output s2 = output s /\
    (bytes_ok s -> bytes_ok s2) /\
    (forall x, mem_get s2 x =
       if Z.eq_dec x (PAGE_COUNT + p) then Done pt
       else if Z.eq_dec x pt then Done 1 else mem_get s x).
Proof.
  intros Hok Hp Hroom.
  destruct (find_page_some_free s Hok) as (pt & Hpt & Hfree & Hfp); [lia|].
  assert (Hoka : mem_ok (allocated pt s)) by now apply mem_ok_allocated.
  destruct (mem_set (PAGE_COUNT + p) pt (allocated pt s)) as [s2| |] eqn:Hset.
  2,3: rewrite mem_set_Done in Hset by (consts; lia); discriminate.
  exists pt, s2. split; [|split; [assumption|split; [assumption|]]].
  { intros k Hk. unfold new_process.
    rewrite (proj2 (Z.ltb_ge _ _)) by lia. rewrite Hfp. unfold bind at 1.
    rewrite Hset. reflexivity. }
  pose proof (mem_get_after_set _ _ 0 _ _ Hoka Hset) as [Hok2 _].
  split; [assumption|].
  split; [apply mem_set_inv in Hset as [_ ->]; reflexivity|].
  split.
  { rewrite (free_pages_frame (allocated pt s) s2).
    - rewrite (free_pages_allocated pt s Hok Hpt Hfree). lia.
    - intros x Hx. rewrite (proj2 (mem_get_after_set _ _ x _ _ Hoka Hset)).
      destruct (Z.eq_dec x (PAGE_COUNT + p)); [consts; lia | reflexivity]. }
  split; [apply mem_set_inv in Hset as [_ ->]; reflexivity|].
  split.
  { intros Hb. apply (bytes_ok_after_set _ _ _ _ ) with (2 := Hset).
    apply (bytes_ok_insert s _ (Z.to_nat pt) 1 Hb); [lia | reflexivity]. }
  intros x. rewrite (proj2 (mem_get_after_set _ _ x _ _ Hoka Hset)).
  rewrite to_uchar_small by (consts; lia).
  destruct (Z.eq_dec x (PAGE_COUNT + p)); [reflexivity|].
  apply mem_get_allocated; [assumption | consts; lia].
Qed.

(** What the loop of [new_process] changes: no page-table entry below the
    one it starts at, and only bitmap bytes of pages it enters in the page
    table.  The array keeps holding bytes. *)
Lemma new_process_loop_changes (pt k : Z) (fuel : nat) (j : Z) (s s' : state) :
  mem_ok s -> 1 <= pt < PAGE_COUNT -> 0 <= j -> k <= PAGE_SIZE ->
  new_process_loop fuel pt k j s = Done s' ->
  mem_ok s' /\ (bytes_ok s -> bytes_ok s') /\
  (forall v, 0 <= v < j ->
     mem_get s' (pt * PAGE_SIZE + v) = mem_get s (pt * PAGE_SIZE + v)) /\
  (forall x, 1 <= x < PAGE_COUNT ->
     mem_get s' x = mem_get s x \/
     exists v, j <= v < k /\ mem_get s' (pt * PAGE_SIZE + v) = Done x).
Proof.
  intros Hok Hpt Hj Hk. revert j s Hok Hj.
  induction fuel as [|fuel IH]; intros j s Hok Hj Hrun; [discriminate|].
  simpl in Hrun. destruct (j <? k) eqn:E.
  2: { injection Hrun as <-. repeat split; auto. }
  apply Z.ltb_lt in E.
  destruct (find_page s) as [[d s1]| |] eqn:Hfp; try discriminate.
  unfold bind in Hrun. rewrite get_address_add in Hrun by (consts; lia).
  destruct (mem_set (pt * PAGE_SIZE + j) d s1) as [s2| |] eqn:Hset; try discriminate.
  rewrite to_int_small in Hrun by (consts; lia).
  assert (H1 : mem_ok s1 /\ (bytes_ok s -> bytes_ok s1) /\ 0 <= d < 256 /\
               forall y, mem_get s1 y = mem_get s y \/
                         (y = d /\ 1 <= d < PAGE_COUNT)).
  { destruct (find_page_returns s s1 d Hok Hfp) as [[Hd ->]|[-> ->]].
    - split; [now apply mem_ok_allocated|]. split.
      + intros Hb. apply (bytes_ok_insert s _ (Z.to_nat d) 1 Hb); [lia | reflexivity].
      + split; [consts; lia|]. intros y.
        rewrite mem_get_allocated by (try assumption; consts; lia).
        destruct (Z.eq_dec y d); [right | left]; auto.
    - repeat split; auto; lia. }
  destruct H1 as (Hok1 & Hb1 & Hdr & Hget1).
  pose proof (mem_get_after_set (pt * PAGE_SIZE + j) d) as Hafter.
  assert (Hget2 : forall y, mem_get s2 y =
            if Z.eq_dec y (pt * PAGE_SIZE + j) then Done d else mem_get s1 y).
  { intros y. rewrite (proj2 (Hafter y s1 s2 Hok1 Hset)).
    now rewrite to_uchar_small by lia. }
  destruct (IH (j + 1) s2) as (Hok' & Hb' & Hframe' & Hbits'); try assumption;
    try lia.
  { apply (Hafter 0 s1 s2 Hok1 Hset). }
  split; [assumption|]. split; [|split].
  - intros Hb. apply Hb'.
    apply (bytes_ok_after_set (pt * PAGE_SIZE + j) d s1 s2); auto.
  - intros v Hv. rewrite Hframe' by lia. rewrite Hget2.
    destruct (Z.eq_dec _ _); [lia|].
    destruct (Hget1 (pt * PAGE_SIZE + v)) as [H|[H _]]; [assumption | consts; lia].
  - intros x Hx. destruct (Hbits' x Hx) as [Hsame|(v & Hv & Hentry)].
    + rewrite Hsame, Hget2. destruct (Z.eq_dec _ _); [consts; lia|].
      destruct (Hget1 x) as [H|[-> Hd]]; [now left|].
      right. exists j. split; [lia|]. rewrite Hframe' by lia. rewrite Hget2.
      destruct (Z.eq_dec _ _); [reflexivity | congruence].
    + right. exists v. split; [lia | assumption].
Qed.

Lemma referenced_true (s : state) (pt lo hi x : Z) :
  referenced s pt lo hi x = true <->
  exists o, lo <= o < hi /\ mem_get s (pt * PAGE_SIZE + o) = Done x.
Proof.
  unfold referenced. rewrite existsb_exists. split.
  - intros (o & Hin & He). apply list_elem_of_In, elem_of_seqZ in Hin.
    exists o. split; [lia|]. unfold entry_is in He.
    destruct (mem_get s (pt * PAGE_SIZE + o)) as [e| |]; try discriminate.
    apply Z.eqb_eq in He. now subst.
  - intros (o & Ho & He). exists o. split.
    + apply list_elem_of_In, elem_of_seqZ. lia.
    + unfold entry_is. rewrite He. apply Z.eqb_refl.
Qed.

(** X14: a process created and at once killed.  For a process number [p]
    in [0, PAGE_SIZE - PAGE_COUNT), whose process-table byte lies in page
    0, in a state of [MEM_SIZE] byte cells with
    [0 <= k <= free_page_count < 2^31], at least [k + 1] zero bitmap bytes
    in [1, PAGE_COUNT), and free pages that hold zeros from offset [k] on:
    [new_process] then [kill] give every byte of [mem] back as it was, the
    bitmap included, except the process-table byte of the process, which
    names the page-table page [pt], and the [k] page-table entries, which
    are 0.  The number of free pages is what it was; [free_page_count] is
    [k + 1] lower. *)
Theorem create_then_kill (s : state) (p k : Z) :
  mem_ok s -> bytes_ok s -> 0 <= p < PAGE_SIZE - PAGE_COUNT ->
  0 <= k <= free_page_count s -> free_page_count s < 2147483648 ->
  k + 1 <= Z.of_nat (free_pages s) ->
  (forall i o, 1 <= i < PAGE_COUNT -> mem_get s i = Done 0 ->
     k <= o < PAGE_SIZE -> mem_get s (i * PAGE_SIZE + o) = Done 0) ->
  exists s1 s2 pt, new_process p k s = Done s1 /\ kill p s1 = Done s2 /\
    1 <= pt < PAGE_COUNT /\
    mem_get s2 (PAGE_COUNT + p) = Done pt /\
    (forall x, x <> PAGE_COUNT + p ->
       ~ (pt * PAGE_SIZE <= x < pt * PAGE_SIZE + k) -> mem_get s2 x = mem_get s x) /\
    (forall v, 0 <= v < k -> mem_get s2 (pt * PAGE_SIZE + v) = Done 0) /\
    free_pages s2 = free_pages s /\
    free_page_count s2 = free_page_count s - (k + 1).
Proof.
  intros Hok Hb Hp Hk Hhi Hroom Hclean. pose proof (free_pages_le s) as Hle.
  destruct (new_process_start s p Hok Hp) as
    (pt & t & Hsplit & Hpt & Hfree & Hokt & Hct & Hroomt & _ & Hbt & Hgett); [lia|].
  assert (Hbuilt0 : built s p pt 0 t).
  { repeat split.
    - exact Hokt.
    - rewrite Hgett. destruct (Z.eq_dec _ _); [reflexivity | congruence].
    - rewrite Hgett. destruct (Z.eq_dec pt (PAGE_COUNT + p)); [consts; lia|].
      destruct (Z.eq_dec pt pt); [reflexivity | congruence].
    - intros v Hv. lia.
    - intros x Hx Hxp _. rewrite Hgett.
      destruct (Z.eq_dec _ _); [contradiction|].
      destruct (Z.eq_dec x pt); [lia | reflexivity].
    - intros x Hx Hx0. rewrite Hgett.
      destruct (Z.eq_dec _ _); [consts; lia|].
      destruct (Z.eq_dec x pt) as [->|]; [congruence | reflexivity]. }
  destruct (new_process_loop_full s p pt k (S (Z.to_nat k)) 0 t Hp Hpt)
    as (s1 & Hrun & Hbuilt & _ & Hcount1); try assumption; try (consts; lia).
  rewrite to_int_small in Hct by lia.
  destruct (new_process_loop_changes pt k (S (Z.to_nat k)) 0 t s1 Hokt Hpt
              ltac:(lia) ltac:(consts; lia) Hrun) as (Hok1 & Hb1 & _ & Hbits).
  destruct Hbuilt as (_ & Hentry & _ & Hfilled & Hframe & _).
  destruct (kill_spec s1 p pt Hok1 (Hb1 (Hbt Hb)) Hentry Hpt)
    as (s2 & Hkill & Hok2 & _ & Hc2 & _ & Hget).
  assert (Hrest : forall x, x <> PAGE_COUNT + p ->
            ~ (pt * PAGE_SIZE <= x < pt * PAGE_SIZE + k) -> mem_get s2 x = mem_get s x).
  { intros x Hxp Hxt. rewrite Hget.
    destruct (Z.eq_dec x pt) as [->|Hne]; [now rewrite Hfree|].
    destruct (in_table_from pt 0 x) eqn:Ein.
    { unfold in_table_from in Ein. apply andb_true_iff in Ein as [E1 E2].
      apply Z.leb_le in E1. apply Z.ltb_lt in E2.
      replace x with (pt * PAGE_SIZE + (x - pt * PAGE_SIZE)) by lia.
      symmetry. apply Hclean; try assumption; lia. }
    assert (Hout : ~ (pt * PAGE_SIZE <= x < pt * PAGE_SIZE + PAGE_SIZE)).
    { unfold in_table_from in Ein. apply andb_false_iff in Ein as [E|E];
        [apply Z.leb_gt in E | apply Z.ltb_ge in E]; lia. }
    destruct ((0 <? x) && (x <? PAGE_SIZE) && referenced s1 pt 0 PAGE_SIZE x) eqn:Eref.
    - apply andb_true_iff in Eref as [Er Eref].
      apply andb_true_iff in Er as [E1 E2].
      apply Z.ltb_lt in E1. apply Z.ltb_lt in E2.
      apply referenced_true in Eref as (o & Ho & He).
      destruct (Z_lt_le_dec o k) as [Hlt|Hge].
      + destruct (Hfilled o) as (d & Hd & _ & _ & Hdf & _); [lia|].
        rewrite He in Hd. injection Hd as ->. now rewrite Hdf.
      + rewrite Hframe in He by (consts; lia).
        rewrite (Hclean pt o Hpt Hfree) in He by lia. injection He as <-. lia.
    - destruct (Z_le_gt_dec 1 x) as [H1|H1];
        [destruct (Z_lt_le_dec x PAGE_COUNT) as [H2|H2]|].
      + destruct (Hbits x) as [Hsame|(v & Hv & He)]; [lia| |].
        * rewrite Hsame, Hgett. destruct (Z.eq_dec _ _); [consts; lia|].
          destruct (Z.eq_dec x pt); [contradiction | reflexivity].
        * exfalso.
          assert (Ht : referenced s1 pt 0 PAGE_SIZE x = true).
          { apply referenced_true. exists v. split; [consts; lia | assumption]. }
          rewrite Ht, (proj2 (Z.ltb_lt 0 x)), (proj2 (Z.ltb_lt x PAGE_SIZE)) in Eref
            by (consts; lia). discriminate.
      + apply Hframe; try assumption; lia.
      + apply Hframe; try assumption; lia. }
  exists s1, s2, pt. split; [rewrite Hsplit by lia; exact Hrun|].
  split; [exact Hkill|]. split; [assumption|]. split; [|split; [exact Hrest|split; [|split]]].
  - rewrite Hget. destruct (Z.eq_dec _ pt); [consts; lia|].
    unfold in_table_from. rewrite (proj2 (Z.leb_gt _ _)) by (consts; lia). simpl.
    destruct (referenced s1 pt 0 PAGE_SIZE (PAGE_COUNT + p)) eqn:Eref;
      [|rewrite andb_false_r; exact Hentry].
    exfalso. apply referenced_true in Eref as (o & Ho & He).
    destruct (Z_lt_le_dec o k) as [Hlt|Hge].
    + destruct (Hfilled o) as (d & Hd & Hdr & _); [lia|].
      rewrite He in Hd. injection Hd as <-. lia.
    + rewrite Hframe in He by (consts; lia).
      rewrite (Hclean pt o Hpt Hfree) in He by lia. injection He as He. consts. lia.
  - intros v Hv. rewrite Hget. destruct (Z.eq_dec _ pt); [consts; lia|].
    unfold in_table_from.
    rewrite (proj2 (Z.leb_le _ _)), (proj2 (Z.ltb_lt _ _)) by (consts; lia).
    reflexivity.
  - apply free_pages_frame. intros x Hx. apply Hrest; consts; lia.
  - rewrite Hc2, Hcount1 by lia. lia.
Qed.

Lemma create_then_kill_witness :
  exists s1 s2, new_process 5 3 fresh = Done s1 /\ kill 5 s1 = Done s2 /\
    free_pages s2 = free_pages fresh /\
    free_page_count s2 = free_page_count fresh - 4.
Proof.
  destruct (create_then_kill fresh 5 3 mem_ok_fresh bytes_ok_fresh)
    as (s1 & s2 & pt & Hnew & Hkill & _ & _ & _ & _ & Hfree & Hcount).
  - consts. lia.
  - simpl. consts. lia.
  - simpl. consts. lia.
  - vm_compute. discriminate.
  - intros i o Hi _ Ho.
    assert (Hz : forallb (fun b => b =? 0) (drop 1 (mem fresh)) = true)
      by (vm_compute; reflexivity).
    unfold mem_get. rewrite (proj2 (in_bounds_true _)) by (consts; lia).
    destruct (lookup_lt_is_Some_2 (mem fresh) (Z.to_nat (i * PAGE_SIZE + o))) as [b Hb].
    { rewrite mem_ok_fresh. consts. lia. }
    rewrite Hb. f_equal. rewrite forallb_forall in Hz. apply Z.eqb_eq, Hz.
    apply list_elem_of_In, list_elem_of_lookup.
    exists (Z.to_nat (i * PAGE_SIZE + o) - 1)%nat. rewrite lookup_drop.
    replace (1 + (Z.to_nat (i * PAGE_SIZE + o) - 1))%nat
      with (Z.to_nat (i * PAGE_SIZE + o)) by (consts; lia).
    exact Hb.
  - exists s1, s2. auto.
Defined.

(** * Further properties: the printers *)

Lemma dots_app (t u : string) : dots (t +:+ u) = (dots t + dots u)%nat.
Proof.
  induction t as [|c t IH]; simpl; [reflexivity|].
  rewrite IH. lia.
Qed.

Lemma length_app_string (t u : string) :
  String.length (t +:+ u) = (String.length t + String.length u)%nat.
Proof.
  induction t as [|c t IH]; simpl; [reflexivity|].
  rewrite IH. reflexivity.
Qed.

Lemma get_address_page_0 (i : Z) : get_address 0 i = i.
Proof. unfold get_address. rewrite Z.shiftl_0_l. apply Z.lor_0_l. Qed.

Lemma rows_step (i : Z) :
  0 <= i ->
  (i + 1) / 16 = i / 16 + (if Z.rem (i + 1) 16 =? 0 then 1 else 0).
Proof.
  intros Hi. rewrite Z.rem_mod_nonneg by lia.
  destruct (Z.eqb_spec ((i + 1) mod 16) 0) as [He|He];
    Z.to_euclidean_division_equations; lia.
Qed.

(** The loop from index [i] on: one character for each page, a dot for each
    zero byte of the bitmap, and a new line after each sixteenth page. *)
Lemma print_page_free_map_loop_spec (s : state) (fuel : nat) (i : Z) :
  mem_ok s -> 0 <= i <= 64 -> 64 - i < Z.of_nat fuel ->
  exists t, print_page_free_map_loop fuel i s = Done t /\
    dots t = length (List.filter (is_free s) (seqZ i (64 - i))) /\
    Z.of_nat (String.length t) = (64 - i) + (4 - i / 16).
Proof.
  intros Hok. revert i.
  induction fuel as [|fuel IH]; intros i Hi Hfuel; [lia|].
  cbn [print_page_free_map_loop].
  destruct (Z.ltb_spec i 64) as [Hlt|Hge].
  - rewrite get_address_page_0.
    destruct (mem_get_Done s i Hok ltac:(consts; lia)) as [b Hb].
    rewrite Hb. unfold bind at 1.
    rewrite (to_int_small (i + 1)) by lia.
    destruct (IH (i + 1) ltac:(lia) ltac:(lia)) as (t & Ht & Hd & Hl).
    rewrite Ht. unfold bind.
    eexists. split; [reflexivity|].
    rewrite (seqZ_cons i (64 - i)) by lia.
    replace (Z.pred (64 - i)) with (64 - (i + 1)) by lia.
    replace (Z.succ i) with (i + 1) by lia.
    cbn [List.filter]. unfold is_free at 1. rewrite Hb.
    rewrite !dots_app, !length_app_string, Hd.
    rewrite (rows_step i) in Hl by lia.
    split.
    + destruct (b =? 0), (Z.rem (i + 1) 16 =? 0); reflexivity.
    + destruct (b =? 0), (Z.rem (i + 1) 16 =? 0); cbn [String.length newline];
        lia.
  - assert (i = 64) by lia. subst i.
    eexists. split; [reflexivity|]. split; reflexivity.
Qed.

(** X15: on a RAM of the right size [print_page_free_map] always writes 90
    characters (the title line and four rows of sixteen), and the number of
    dots it draws is the number of free pages of the pool, plus one when
    [mem[0]] itself is 0. *)
Theorem print_page_free_map_shows_free_pages (s : state) :
  mem_ok s ->
  exists t, print_page_free_map s = Done t /\
    String.length t = 90%nat /\
    dots t = ((if is_free s 0 then 1 else 0) + free_pages s)%nat.
Proof.
  intros Hok. unfold print_page_free_map.
  destruct (print_page_free_map_loop_spec s 65 0 Hok ltac:(lia) ltac:(lia))
    as (t & Ht & Hd & Hl).
  rewrite Ht. unfold bind. eexists. split; [reflexivity|].
  rewrite !dots_app, !length_app_string, Hd. split.
  - change (64 - 0) with 64 in Hl. change (0 / 16) with 0 in Hl.
    cbn [String.length newline]. lia.
  - rewrite (seqZ_cons 0 (64 - 0)) by lia. cbn [List.filter].
    unfold free_pages.
    change (seqZ (Z.succ 0) (Z.pred (64 - 0))) with (seqZ 1 (PAGE_COUNT - 1)).
    destruct (is_free s 0); reflexivity.
Qed.

Lemma print_page_free_map_shows_free_pages_witness :
  exists t, print_page_free_map fresh = Done t /\
    String.length t = 90%nat /\
    dots t = ((if is_free fresh 0 then 1 else 0) + free_pages fresh)%nat.
Proof. exact (print_page_free_map_shows_free_pages fresh mem_ok_fresh). Defined.

(** The loop of [print_page_table] from entry [i] on. *)
Lemma print_page_table_loop_spec (s : state) (pt : Z) (fuel : nat) (i : Z) :
  mem_ok s -> 0 <= pt < PAGE_COUNT -> 0 <= i <= PAGE_COUNT ->
  PAGE_COUNT - i < Z.of_nat fuel ->
  print_page_table_loop fuel pt i s =
    Done (flat_map (entry_line s pt) (seqZ i (PAGE_COUNT - i))).
Proof.
  intros Hok Hpt. revert i.
  induction fuel as [|fuel IH]; intros i Hi Hfuel; [lia|].
  cbn [print_page_table_loop].
  destruct (Z.ltb_spec i PAGE_COUNT) as [Hlt|Hge].
  - destruct (mem_get_Done s (get_address pt i) Hok) as [b Hb].
    { rewrite get_address_add by (consts; lia). consts; lia. }
    rewrite Hb. unfold bind at 1.
    rewrite (to_int_small (i + 1)) by (consts; lia).
    rewrite (IH (i + 1)) by lia. unfold bind.
    rewrite (seqZ_cons i (PAGE_COUNT - i)) by lia.
    replace (Z.pred (PAGE_COUNT - i)) with (PAGE_COUNT - (i + 1)) by lia.
    replace (Z.succ i) with (i + 1) by lia.
    assert (He : entry_line s pt i = if b =? 0 then [] else [TableEntry i b])
      by (unfold entry_line; rewrite Hb; reflexivity).
    cbn [flat_map]. rewrite He.
    destruct (b =? 0); reflexivity.
  - assert (i = PAGE_COUNT) by lia. subst i.
    rewrite Z.sub_diag. reflexivity.
Qed.

Lemma flat_map_nil {A B : Type} (f : A -> list B) (l : list A) :
  (forall x, In x l -> f x = []) -> flat_map f l = [].
Proof.
  induction l as [|a l IH]; intros H; [reflexivity|].
  cbn [flat_map]. rewrite (H a) by (left; reflexivity).
  apply IH. intros x Hx. apply H. right. exact Hx.
Qed.

Lemma flat_map_singletons {A B : Type} (f : A -> list B) (h : A -> B) (l : list A) :
  (forall x, In x l -> f x = [h x]) -> flat_map f l = map h l.
Proof.
  induction l as [|a l IH]; intros H; [reflexivity|].
  cbn [flat_map map]. rewrite (H a) by (left; reflexivity).
  rewrite IH; [reflexivity|]. intros x Hx. apply H. right. exact Hx.
Qed.

Lemma In_seqZ (x m n : Z) : In x (seqZ m n) -> m <= x < m + n.
Proof. intros H. apply list_elem_of_In, elem_of_seqZ in H. exact H. Qed.

(** X16: after [kill] the page table of the killed process prints empty.
    For a process number [p] in [0, PAGE_SIZE - PAGE_COUNT), whose
    process-table byte lies in page 0, in a state of [MEM_SIZE] byte cells
    in which that byte names a page [pt] of the pool and no byte of page
    [pt] holds the index [PAGE_COUNT + p]: [kill p] runs to its end and
    [print_page_table p] then writes the title line and nothing else. *)
Theorem print_page_table_after_kill (s : state) (p pt : Z) :
  mem_ok s -> bytes_ok s -> 0 <= p < PAGE_SIZE - PAGE_COUNT ->
  get_page_table p s = Done pt -> 1 <= pt < PAGE_COUNT ->
  referenced s pt 0 PAGE_SIZE (PAGE_COUNT + p) = false ->
  exists s', kill p s = Done s' /\ print_page_table p s' = Done [TableHeader p].
Proof.
  intros Hok Hby Hp Hpt Hrange Href.
  destruct (kill_spec s p pt Hok Hby Hpt Hrange)
    as (s' & Hk & Hok' & _ & _ & _ & Hmem).
  exists s'. split; [exact Hk|].
  assert (Hpt' : get_page_table p s' = Done pt).
  { unfold get_page_table in *. rewrite Hmem.
    destruct (Z.eq_dec (PAGE_COUNT + p) pt) as [He|_]; [consts; lia|].
    replace (in_table_from pt 0 (PAGE_COUNT + p)) with false
      by (symmetry; unfold in_table_from; consts; lia).
    rewrite Href, andb_false_r. exact Hpt. }
  unfold print_page_table. rewrite Hpt'. unfold bind at 1.
  rewrite (print_page_table_loop_spec s' pt (S (Z.to_nat PAGE_COUNT)) 0 Hok')
    by (consts; lia).
  rewrite flat_map_nil; [reflexivity|].
  intros v Hv. apply In_seqZ in Hv.
  unfold entry_line. rewrite get_address_add by (consts; lia).
  rewrite Hmem.
  destruct (Z.eq_dec (pt * PAGE_SIZE + v) pt) as [He|_]; [reflexivity|].
  replace (in_table_from pt 0 (pt * PAGE_SIZE + v)) with true
    by (symmetry; unfold in_table_from; consts; lia).
  reflexivity.
Qed.

Lemma print_page_table_after_kill_witness :
  exists s', kill 5 (state_of (ptsim [Np 5 3])) = Done s' /\
    print_page_table 5 s' = Done [TableHeader 5].
Proof.
  apply (print_page_table_after_kill (state_of (ptsim [Np 5 3])) 5 1).
  - vm_compute. reflexivity.
  - vm_compute. reflexivity.
  - consts. lia.
  - vm_compute. reflexivity.
  - consts. lia.
  - vm_compute. reflexivity.
Defined.

(** X17: right after [new_process] the page table prints the pages just
    taken.  For a process number [p] in [0, PAGE_SIZE - PAGE_COUNT), whose
    process-table byte lies in page 0, on an array of [MEM_SIZE] cells,
    with [0 <= k <= free_page_count], at least [k + 1] zero bitmap bytes in
    [1, PAGE_COUNT), and free pages that hold zeros at the offsets [k],
    ..., [PAGE_COUNT - 1]: after [new_process p k], [print_page_table p]
    writes the title line and then one line for each of the virtual pages
    [0], ..., [k - 1], in this order, each with a page of the pool that was
    free before the call. *)
Theorem print_page_table_after_new_process (s : state) (p k : Z) :
  mem_ok s -> 0 <= p < PAGE_SIZE - PAGE_COUNT ->
  0 <= k <= free_page_count s -> k + 1 <= Z.of_nat (free_pages s) ->
  (forall i o, 1 <= i < PAGE_COUNT -> mem_get s i = Done 0 ->
     k <= o < PAGE_COUNT -> mem_get s (i * PAGE_SIZE + o) = Done 0) ->
  exists s' (d : Z -> Z), new_process p k s = Done s' /\
    print_page_table p s' =
      Done (TableHeader p :: map (fun v => TableEntry v (d v)) (seqZ 0 k)) /\
    forall v, 0 <= v < k -> 1 <= d v < PAGE_COUNT /\ mem_get s (d v) = Done 0.
Proof.
  intros Hok Hp Hk Hroom Hclean.
  destruct (new_process_full p k s Hok Hp Hk Hroom)
    as (s' & pt & Hnew & Hpt & Hfree & Hbuilt & Hcount & _).
  destruct Hbuilt as (Hok' & Htab & _ & Hent & Hout & _).
  assert (Hk64 : k < PAGE_COUNT).
  { pose proof (free_pages_le s). consts. lia. }
  set (d := fun v => match mem_get s' (pt * PAGE_SIZE + v) with
                     | Done b => b
                     | _ => 0
                     end).
  exists s', d. split; [exact Hnew|]. split.
  - unfold print_page_table, get_page_table. rewrite Htab. unfold bind at 1.
    rewrite (print_page_table_loop_spec s' pt (S (Z.to_nat PAGE_COUNT)) 0 Hok')
      by (consts; lia).
    unfold bind. do 2 f_equal.
    replace (PAGE_COUNT - 0) with (k + (PAGE_COUNT - k)) by lia.
    rewrite seqZ_app by lia. rewrite flat_map_app.
    rewrite (flat_map_nil _ (seqZ (0 + k) (PAGE_COUNT - k))).
    + rewrite app_nil_r. apply flat_map_singletons.
      intros v Hv. apply In_seqZ in Hv.
      destruct (Hent v ltac:(lia)) as (e & He & Hr & _).
      unfold entry_line, d. rewrite get_address_add by (consts; lia).
      rewrite He.
      destruct (Z.eqb_spec e 0) as [H0|_]; [lia|reflexivity].
    + intros v Hv. apply In_seqZ in Hv.
      unfold entry_line. rewrite get_address_add by (consts; lia).
      rewrite Hout by (consts; lia).
      rewrite (Hclean pt v Hpt Hfree) by lia. reflexivity.
  - intros v Hv. destruct (Hent v Hv) as (e & He & Hr & _ & H0 & _).
    unfold d. rewrite He. split; [exact Hr|exact H0].
Qed.

Lemma fresh_holds_zeros (a : Z) : 1 <= a < MEM_SIZE -> mem_get fresh a = Done 0.
Proof.
  intros Ha.
  assert (Hz : forallb (fun b => b =? 0) (drop 1 (mem fresh)) = true)
    by (vm_compute; reflexivity).
  unfold mem_get. rewrite (proj2 (in_bounds_true _)) by lia.
  destruct (lookup_lt_is_Some_2 (mem fresh) (Z.to_nat a)) as [b Hb].
  { rewrite mem_ok_fresh. lia. }
  rewrite Hb. f_equal. rewrite forallb_forall in Hz. apply Z.eqb_eq, Hz.
  apply list_elem_of_In, list_elem_of_lookup.
  exists (Z.to_nat a - 1)%nat. rewrite lookup_drop.
  replace (1 + (Z.to_nat a - 1))%nat with (Z.to_nat a) by lia.
  exact Hb.
Qed.

Lemma print_page_table_after_new_process_witness :
  exists s' (d : Z -> Z), new_process 5 3 fresh = Done s' /\
    print_page_table 5 s' =
      Done (TableHeader 5 :: map (fun v => TableEntry v (d v)) (seqZ 0 3)) /\
    forall v, 0 <= v < 3 -> 1 <= d v < PAGE_COUNT /\ mem_get fresh (d v) = Done 0.
Proof.
  apply (print_page_table_after_new_process fresh 5 3 mem_ok_fresh).
  - consts. lia.
  - simpl. consts. lia.
  - vm_compute. discriminate.
  - intros i o Hi _ Ho. apply fresh_holds_zeros. consts. lia.
Defined.

(** * Further properties: main *)

Lemma kill_loop_keeps (fuel : nat) (pt o : Z) (s s' : state) :
  mem_ok s -> kill_loop fuel pt o s = Done s' ->
  mem_ok s' /\ output s' = output s.
Proof.
  revert o s. induction fuel as [|fuel IH]; intros o s Hok Hrun; [discriminate|].
  cbn [kill_loop] in Hrun.
  destruct (o <? PAGE_SIZE); [|injection Hrun as <-; now split].
  destruct (mem_get s (get_address pt o)) as [b| |]; try discriminate.
  unfold bind at 1 in Hrun.
  destruct (negb (b =? 0)); [|exact (IH _ s Hok Hrun)].
  unfold bind at 1 in Hrun. unfold deallocate_page in Hrun.
  destruct (mem_set b 0 s) as [s1| |] eqn:H1; try discriminate.
  unfold bind at 1 in Hrun.
  destruct (mem_set (get_address pt o) 0 s1) as [s2| |] eqn:H2; try discriminate.
  unfold bind in Hrun.
  apply mem_set_inv in H1 as [_ ->]. apply mem_set_inv in H2 as [_ ->].
  apply IH in Hrun; [exact Hrun|].
  eapply mem_ok_insert; [|reflexivity]. eapply mem_ok_insert; [exact Hok|reflexivity].
Qed.

Lemma new_process_loop_keeps (fuel : nat) (pt k j : Z) (s s' : state) :
  mem_ok s -> new_process_loop fuel pt k j s = Done s' ->
  mem_ok s' /\ output s' = output s.
Proof.
  revert j s. induction fuel as [|fuel IH]; intros j s Hok Hrun; [discriminate|].
  cbn [new_process_loop] in Hrun.
  destruct (j <? k); [|injection Hrun as <-; now split].
  destruct (find_page s) as [[d s1]| |] eqn:Hfp; try discriminate.
  destruct (find_page_output s s1 d Hok Hfp) as [Hok1 Ho1].
  unfold bind in Hrun.
  destruct (mem_set (get_address pt j) d s1) as [s2| |] eqn:Hset; try discriminate.
  apply mem_set_inv in Hset as [_ ->].
  apply IH in Hrun; [|eapply mem_ok_insert; [exact Hok1|reflexivity]].
  destruct Hrun as [Hok' Ho']. split; [exact Hok'|]. now rewrite Ho', <- Ho1.
Qed.

(** A command keeps the size of the array and only adds lines to the
    output. *)
Lemma exec_keeps (c : command) (s s' : state) :
  mem_ok s -> exec c s = Done s' ->
  mem_ok s' /\ exists l, output s' = output s ++ l.
Proof.
  intros Hok Hrun. destruct c as [p k|p|p va v|p va]; cbn [exec] in Hrun.
  - unfold new_process in Hrun. destruct (free_page_count s <? k).
    + injection Hrun as <-. split; [exact Hok|]. now eexists.
    + destruct (find_page s) as [[pt s1]| |] eqn:Hfp; try discriminate.
      destruct (find_page_output s s1 pt Hok Hfp) as [Hok1 Ho1].
      unfold bind in Hrun.
      destruct (mem_set (PAGE_COUNT + p) pt s1) as [s2| |] eqn:Hset;
        try discriminate.
      apply mem_set_inv in Hset as [_ ->].
      apply new_process_loop_keeps in Hrun;
        [|eapply mem_ok_insert; [exact Hok1|reflexivity]].
      destruct Hrun as [Hok' Ho']. split; [exact Hok'|].
      exists []. rewrite Ho', app_nil_r. exact Ho1.
  - unfold kill in Hrun.
    destruct (get_page_table p s) as [pt| |]; try discriminate.
    unfold bind at 1 in Hrun.
    destruct (kill_loop (S (Z.to_nat PAGE_SIZE)) pt 0 s) as [s1| |] eqn:Hloop;
      try discriminate.
    unfold bind in Hrun. unfold deallocate_page in Hrun.
    apply kill_loop_keeps in Hloop as [Hok1 Ho1]; [|exact Hok].
    apply mem_set_inv in Hrun as [_ ->]. split.
    + eapply mem_ok_insert; [exact Hok1|reflexivity].
    + exists []. rewrite app_nil_r. exact Ho1.
  - unfold store_value in Hrun.
    destruct (get_physical_address p va s) as [a| |]; try discriminate.
    unfold bind at 1 in Hrun.
    destruct (mem_set a v s) as [s1| |] eqn:Hset; try discriminate.
    unfold bind in Hrun. injection Hrun as <-.
    apply mem_set_inv in Hset as [_ ->]. split.
    + eapply mem_ok_insert; [exact Hok|reflexivity].
    + now eexists.
  - unfold read_value in Hrun.
    destruct (get_physical_address p va s) as [a| |]; try discriminate.
    unfold bind at 1 2 in Hrun.
    destruct (mem_get s a) as [b| |]; try discriminate.
    unfold bind in Hrun. injection Hrun as <-. split; [exact Hok|]. now eexists.
Qed.

Lemma run_keeps (cs : list command) (s s' : state) :
  mem_ok s -> run cs s = Done s' ->
  mem_ok s' /\ exists l, output s' = output s ++ l.
Proof.
  revert s. induction cs as [|c cs IH]; intros s Hok Hrun.
  - injection Hrun as <-. split; [exact Hok|]. exists []. now rewrite app_nil_r.
  - cbn [run] in Hrun. destruct (exec c s) as [s1| |] eqn:Hexec; try discriminate.
    unfold bind in Hrun.
    destruct (exec_keeps c s s1 Hok Hexec) as [Hok1 [l1 Ho1]].
    destruct (IH s1 Hok1 Hrun) as [Hok' [l2 Ho2]].
    split; [exact Hok'|]. exists (l1 ++ l2). now rewrite Ho2, Ho1, app_assoc.
Qed.

Lemma drop_output (s s' : state) (l : list event) :
  output s' = output s ++ l -> drop (length (output s)) (output s') = l.
Proof. intros ->. apply drop_app_length. Qed.

(** What [run_items] does on a command line without [pfm] and [ppt]. *)
Lemma run_items_commands (cs : list command) (s : state) (out : list printed) :
  mem_ok s ->
  run_items (map Cmd cs) s out =
    (let* s' := run cs s in Done (s', out ++ printed_by s s')).
Proof.
  revert s out. induction cs as [|c cs IH]; intros s out Hok.
  - cbn [map run_items run]. unfold bind, printed_by.
    rewrite drop_all. cbn [map]. now rewrite app_nil_r.
  - cbn [map run_items run].
    destruct (exec c s) as [s1| |] eqn:Hexec; try reflexivity.
    unfold bind at 1 3.
    destruct (exec_keeps c s s1 Hok Hexec) as [Hok1 [l1 Ho1]].
    rewrite (IH s1 _ Hok1).
    destruct (run cs s1) as [s'| |] eqn:Hrun; try reflexivity.
    unfold bind.
    destruct (run_keeps cs s1 s' Hok1 Hrun) as [_ [l2 Ho2]].
    unfold printed_by.
    rewrite (drop_output s s1 l1 Ho1), (drop_output s1 s' l2 Ho2).
    rewrite (drop_output s s' (l1 ++ l2)) by (now rewrite Ho2, Ho1, app_assoc).
    now rewrite map_app, app_assoc.
Qed.

Lemma main_nonempty (atoi : string -> Z) (args : list string) :
  args <> [] -> main atoi args = main_loop atoi args fresh [].
Proof.
  intros Hne. destruct args as [|w args]; [congruence|].
  unfold main. now rewrite initialize_mem_boot.
Qed.

Ltac split_arguments Hp :=
  match type of Hp with
  | (_ <$> parse ?atoi ?pre) = Some _ =>
      let items' := fresh "items'" in
      let Hp' := fresh "Hp'" in
      destruct (parse atoi pre) as [items'|] eqn:Hp'; [|discriminate Hp];
      cbn [fmap option_fmap option_map] in Hp; injection Hp as <-
  end.

(** The loop of [main] on arguments that begin with whole commands: it runs
    them as [run_items] does and goes on with the arguments that follow. *)
Lemma main_loop_app (atoi : string -> Z) (n : nat) :
  forall (pre : list string) (items : list item) (rest : list string)
         (s : state) (out : list printed),
    (length pre <= n)%nat -> parse atoi pre = Some items ->
    main_loop atoi (pre ++ rest) s out =
      match run_items items s out with
      | Done (s', out') => main_loop atoi rest s' out'
      | OutOfBounds a => Ran (OutOfBounds a)
      | OutOfFuel => Ran OutOfFuel
      end.
Proof.
  induction n as [|n IH]; intros pre items rest s out Hlen Hp.
  { destruct pre; [|cbn [length] in Hlen; lia]. injection Hp as <-. reflexivity. }
  destruct pre as [|w pre]; [injection Hp as <-; reflexivity|].
  cbn [parse] in Hp. cbn [app main_loop].
  destruct (String.eqb w "np").
  { destruct pre as [|a [|b pre]]; try discriminate. split_arguments Hp.
    cbn [app run_items exec]. unfold after_call.
    destruct (new_process (atoi a) (atoi b) s); try reflexivity.
    unfold bind. apply IH; [cbn [length] in Hlen; lia|exact Hp']. }
  destruct (String.eqb w "pfm").
  { split_arguments Hp. cbn [run_items]. unfold after_print.
    destruct (print_page_free_map s); try reflexivity.
    unfold bind. apply IH; [cbn [length] in Hlen; lia|exact Hp']. }
  destruct (String.eqb w "ppt").
  { destruct pre as [|a pre]; try discriminate. split_arguments Hp.
    cbn [app run_items]. unfold after_print.
    destruct (print_page_table (atoi a) s); try reflexivity.
    unfold bind. apply IH; [cbn [length] in Hlen; lia|exact Hp']. }
  destruct (String.eqb w "kp").
  { destruct pre as [|a pre]; try discriminate. split_arguments Hp.
    cbn [app run_items exec]. unfold after_call.
    destruct (kill (atoi a) s); try reflexivity.
    unfold bind. apply IH; [cbn [length] in Hlen; lia|exact Hp']. }
  destruct (String.eqb w "sb").
  { destruct pre as [|a [|b [|c pre]]]; try discriminate. split_arguments Hp.
    cbn [app run_items exec]. unfold after_call.
    destruct (store_value (atoi a) (atoi b) (atoi c) s); try reflexivity.
    unfold bind. apply IH; [cbn [length] in Hlen; lia|exact Hp']. }
  destruct (String.eqb w "lb").
  { destruct pre as [|a [|b pre]]; try discriminate. split_arguments Hp.
    cbn [app run_items exec]. unfold after_call.
    destruct (read_value (atoi a) (atoi b) s) as [[x s1]| |]; try reflexivity.
    unfold bind. apply IH; [cbn [length] in Hlen; lia|exact Hp']. }
  apply IH; [cbn [length] in Hlen; lia|exact Hp].
Qed.

Lemma main_loop_parse (atoi : string -> Z) (args : list string)
    (items : list item) (s : state) (out : list printed) :
  parse atoi args = Some items ->
  main_loop atoi args s out = Ran (run_items items s out).
Proof.
  intros Hp.
  pose proof (main_loop_app atoi (length args) args items [] s out
                (Nat.le_refl _) Hp) as H.
  rewrite app_nil_r in H. rewrite H.
  destruct (run_items items s out) as [[s' out']| |]; reflexivity.
Qed.

(** The loop of [main] does not reach the end of arguments that stop in the
    middle of a command. *)
Lemma main_loop_missing (atoi : string -> Z) (n : nat) :
  forall (args : list string) (s : state) (out : list printed),
    (length args <= n)%nat -> parse atoi args = None ->
    stops_early (main_loop atoi args s out) = true.
Proof.
  induction n as [|n IH]; intros args s out Hlen Hp.
  { destruct args; [discriminate|cbn [length] in Hlen; lia]. }
  destruct args as [|w args]; [discriminate|].
  cbn [parse] in Hp. cbn [main_loop].
  destruct (String.eqb w "np").
  { destruct args as [|a [|b args]]; try reflexivity.
    destruct (parse atoi args) eqn:Hp'; [discriminate|].
    unfold after_call.
    destruct (new_process (atoi a) (atoi b) s); try reflexivity.
    apply IH; [cbn [length] in Hlen; lia|exact Hp']. }
  destruct (String.eqb w "pfm").
  { destruct (parse atoi args) eqn:Hp'; [discriminate|].
    unfold after_print.
    destruct (print_page_free_map s); try reflexivity.
    apply IH; [cbn [length] in Hlen; lia|exact Hp']. }
  destruct (String.eqb w "ppt").
  { destruct args as [|a args]; try reflexivity.
    destruct (parse atoi args) eqn:Hp'; [discriminate|].
    unfold after_print.
    destruct (print_page_table (atoi a) s); try reflexivity.
    apply IH; [cbn [length] in Hlen; lia|exact Hp']. }
  destruct (String.eqb w "kp").
  { destruct args as [|a args]; try reflexivity.
    destruct (parse atoi args) eqn:Hp'; [discriminate|].
    unfold after_call.
    destruct (kill (atoi a) s); try reflexivity.
    apply IH; [cbn [length] in Hlen; lia|exact Hp']. }
  destruct (String.eqb w "sb").
  { destruct args as [|a [|b [|c args]]]; try reflexivity.
    destruct (parse atoi args) eqn:Hp'; [discriminate|].
    unfold after_call.
    destruct (store_value (atoi a) (atoi b) (atoi c) s); try reflexivity.
    apply IH; [cbn [length] in Hlen; lia|exact Hp']. }
  destruct (String.eqb w "lb").
  { destruct args as [|a [|b args]]; try reflexivity.
    destruct (parse atoi args) eqn:Hp'; [discriminate|].
    unfold after_call.
    destruct (read_value (atoi a) (atoi b) s) as [[x s1]| |]; try reflexivity.
    apply IH; [cbn [length] in Hlen; lia|exact Hp']. }
  apply IH; [cbn [length] in Hlen; lia|exact Hp].
Qed.

(** X18: on a command line made of [np], [kp], [sb] and [lb] commands
    [main] does what the command loop of the claims does: it ends as
    [ptsim] ends on the commands read with [atoi], in the same final state,
    and what it has written is the output of that state, line by line. *)
Theorem main_runs_the_commands (atoi : string -> Z) (args : list string)
    (cs : list command) :
  args <> [] -> parse atoi args = Some (map Cmd cs) ->
  main atoi args = Ran (let* s := ptsim cs in Done (s, map Line (output s))).
Proof.
  intros Hne Hp. rewrite (main_nonempty atoi args Hne).
  rewrite (main_loop_parse atoi args _ fresh [] Hp).
  rewrite (run_items_commands cs fresh [] mem_ok_fresh).
  unfold ptsim. rewrite initialize_mem_boot. unfold bind at 3.
  destruct (run cs fresh) as [s| |]; reflexivity.
Qed.

Lemma main_runs_the_commands_witness :
  main decimal ["np"; "1"; "2"; "sb"; "1"; "10"; "99"; "lb"; "1"; "10"; "kp"; "1"] =
    Ran (let* s := ptsim [Np 1 2; Sb 1 10 99; Lb 1 10; Kp 1] in
         Done (s, map Line (output s))).
Proof.
  apply (main_runs_the_commands decimal
           ["np"; "1"; "2"; "sb"; "1"; "10"; "99"; "lb"; "1"; "10"; "kp"; "1"]
           [Np 1 2; Sb 1 10 99; Lb 1 10; Kp 1]).
  - discriminate.
  - vm_compute. reflexivity.
Defined.

(** X20: a command line that stops in the middle of a command never lets
    [main] reach the end of its arguments, and no usage message is written:
    [main] ends inside an earlier call, or it calls [atoi] on the null
    pointer that follows the last argument. *)
Theorem main_missing_argument (atoi : string -> Z) (args : list string) :
  parse atoi args = None -> stops_early (main atoi args) = true.
Proof.
  intros Hp.
  assert (Hne : args <> []) by (intros ->; discriminate Hp).
  rewrite (main_nonempty atoi args Hne).
  apply (main_loop_missing atoi (length args)); [apply Nat.le_refl|exact Hp].
Qed.

Lemma main_missing_argument_witness :
  stops_early (main decimal ["np"; "1"; "2"; "sb"; "1"; "10"]) = true.
Proof.
  apply (main_missing_argument decimal ["np"; "1"; "2"; "sb"; "1"; "10"]).
  vm_compute. reflexivity.
Defined.

(** X21: a word that is not one of the six commands, where a command is
    expected, is passed over without a message.  When other arguments
    remain, the command line with the word and the one without it make
    [main] end in the same way, with the same final state and the same
    output.  When the word is the only argument, [main] runs no command and
    returns from the starting state with nothing written, where without it
    there is no argument and [main] ends with the usage message. *)
Theorem main_ignores_unknown_word (atoi : string -> Z) (pre post : list string)
    (items : list item) (w : string) :
  parse atoi pre = Some items -> is_command w = false ->
  (pre ++ post <> [] -> main atoi (pre ++ w :: post) = main atoi (pre ++ post)) /\
  (pre ++ post = [] ->
   main atoi (pre ++ w :: post) = Ran (Done (fresh, [])) /\
   main atoi (pre ++ post) = Usage).
Proof.
  intros Hp Hw.
  assert (Hskip : forall s out,
            main_loop atoi (w :: post) s out = main_loop atoi post s out).
  { intros s out. unfold is_command in Hw.
    repeat (apply orb_false_iff in Hw as [Hw ?]).
    cbn [main_loop].
    repeat match goal with H : String.eqb w _ = false |- _ => rewrite H; clear H end.
    reflexivity. }
  split.
  - intros Hne.
    rewrite (main_nonempty atoi (pre ++ post) Hne).
    rewrite (main_nonempty atoi (pre ++ w :: post))
      by (destruct pre; discriminate).
    rewrite (main_loop_app atoi (length pre) pre items (w :: post) fresh []
               (Nat.le_refl _) Hp).
    rewrite (main_loop_app atoi (length pre) pre items post fresh []
               (Nat.le_refl _) Hp).
    destruct (run_items items fresh []) as [[s out]| |]; try reflexivity.
    apply Hskip.
  - intros Hnil. apply app_eq_nil in Hnil as [-> ->]. split; [|reflexivity].
    cbn [app]. rewrite (main_nonempty atoi [w]) by discriminate.
    rewrite Hskip. reflexivity.
Qed.

Lemma main_ignores_unknown_word_witness :
  (["np"; "1"; "2"] ++ ["sb"; "1"; "10"; "99"] <> [] ->
   main decimal (["np"; "1"; "2"] ++ "7" :: ["sb"; "1"; "10"; "99"]) =
   main decimal (["np"; "1"; "2"] ++ ["sb"; "1"; "10"; "99"])) /\
  (["np"; "1"; "2"] ++ ["sb"; "1"; "10"; "99"] = [] ->
   main decimal (["np"; "1"; "2"] ++ "7" :: ["sb"; "1"; "10"; "99"]) =
     Ran (Done (fresh, [])) /\
   main decimal (["np"; "1"; "2"] ++ ["sb"; "1"; "10"; "99"]) = Usage).
Proof.
  apply (main_ignores_unknown_word decimal ["np"; "1"; "2"] ["sb"; "1"; "10"; "99"]
           [Cmd (Np 1 2)] "7").
  - vm_compute. reflexivity.
  - vm_compute. reflexivity.
Defined.

(** * Further properties: two processes side by side *)

